(** * Portable JDK toolchain: a shallow embedding of the four Node scripts

    The repository holds four command-line scripts:
    - [analyze-jar.js]     (module [AnalyzeJar]): derives a module list from JARs with jdeps;
    - [download-jdks.js]   (module [DownloadJdks]): fetches and unpacks one JDK per platform;
    - [build-jre-all-platforms.js] (module [BuildJre]): runs jlink per platform;
    - [create-portable.js] (module [CreatePortable]): assembles the portable packages.

    Strings are byte strings ([string]); JavaScript string operations are
    modelled on them ([Js]).  The file system is a finite association list from
    paths (lists of components) to nodes, in directory order ([Fs]).  External
    collaborators (jdeps, jlink, the network, the archive libraries) are
    oracles: fields of the analyzer's host, section variables elsewhere.
    Effectful code runs in a small state-and-exception monad over a world
    made of the file system, the script's mutable globals and the trace of
    observable events ([Eff]).

    The definitions come first, then concrete scenarios ([Scenario],
    [Cases]), then the properties: the analyzer ([AnalyzeJarSpec]), the
    version selection ([VersionSpec]), the module source and the link step
    ([BuildJreSpec]), the downloader ([DownloadSpec]), the all-platforms
    batches ([BatchSpec]) and the platform targets ([PlatformSpec]); then
    further properties of each script ([AnalyzeJarMore], [BuildJreMore],
    [DownloadMore], [CreatePortableMore]) over facts on strings
    ([TextFacts]) and paths ([FsMore]). *)

From Stdlib Require Import List String Ascii ZArith NArith Bool Lia Sorting.Sorted Arith.
From Stdlib Require Import Decimal DecimalString.
Import ListNotations.
Local Open Scope string_scope.
Local Open Scope list_scope.

(** ** JavaScript strings and arrays *)
Module Js.

(** The one-character string holding a double quote. *)
Definition dquote : string := String (ascii_of_nat 34) EmptyString.
Definition comma : ascii := ascii_of_nat 44.
Definition newline : ascii := ascii_of_nat 10.

(** White space removed by [String.prototype.trim] (ASCII part). *)
Definition is_ws (c : ascii) : bool :=
  let n := nat_of_ascii c in
  (Nat.eqb n 32 || Nat.eqb n 9 || Nat.eqb n 10 || Nat.eqb n 11 || Nat.eqb n 12 ||
   Nat.eqb n 13)%bool.

Fixpoint trimStart (s : string) : string :=
  match s with
  | EmptyString => EmptyString
  | String c s' => if is_ws c then trimStart s' else s
  end.

Definition is_empty (s : string) : bool :=
  match s with EmptyString => true | _ => false end.

Fixpoint trimEnd (s : string) : string :=
  match s with
  | EmptyString => EmptyString
  | String c s' =>
      let t := trimEnd s' in
      if is_ws c && is_empty t then EmptyString else String c t
  end.

Definition trim (s : string) : string := trimEnd (trimStart s).

(** A string is truthy iff it is not empty. *)
Definition truthy (s : string) : bool := negb (is_empty s).

(** [process.env.X]: unset or empty is falsy. *)
Definition env_truthy (v : option string) : bool :=
  match v with Some s => truthy s | None => false end.

Definition startsWith (s p : string) : bool := String.prefix p s.

Fixpoint includes (s needle : string) : bool :=
  String.prefix needle s ||
  match s with
  | EmptyString => false
  | String _ s' => includes s' needle
  end.

Definition endsWith (s suffix : string) : bool :=
  let n := String.length s in
  let k := String.length suffix in
  Nat.leb k n && String.eqb (substring (n - k) k s) suffix.

(** [s.split(sep)] for a one-character separator. *)
Fixpoint split (sep : ascii) (s : string) : list string :=
  match s with
  | EmptyString => [EmptyString]
  | String c s' =>
      if Ascii.eqb c sep then EmptyString :: split sep s'
      else match split sep s' with
           | x :: xs => String c x :: xs
           | [] => [String c EmptyString]
           end
  end.

(** [arr.join(sep)]. *)
Definition join (sep : string) (l : list string) : string := String.concat sep l.

(** [arr.includes(x)] on strings. *)
Definition arr_includes (l : list string) (x : string) : bool :=
  existsb (String.eqb x) l.

(** A [Set] of strings keeps its members in insertion order, without
    duplicates; [Array.from(set)] is that list. *)
Definition set_add (x : string) (s : list string) : list string :=
  if arr_includes s x then s else s ++ [x].

(** [arr.sort()] without a comparator orders strings by code unit. *)
Fixpoint insert_str (x : string) (l : list string) : list string :=
  match l with
  | [] => [x]
  | y :: ys => if String.leb x y then x :: l else y :: insert_str x ys
  end.

Fixpoint sort (l : list string) : list string :=
  match l with
  | [] => []
  | x :: xs => insert_str x (sort xs)
  end.

(** The order of [arr.sort()] as a relation. *)
Definition le_str (a b : string) : Prop := String.leb a b = true.

(** [arr.sort(cmp)]: stable; [cmp a b > 0] puts [a] after [b]. *)
Section SortBy.
Context {A : Type} (cmp : A -> A -> Z).

Fixpoint insert_by (x : A) (l : list A) : list A :=
  match l with
  | [] => [x]
  | y :: ys => if (cmp x y <=? 0)%Z then x :: l else y :: insert_by x ys
  end.

Fixpoint sort_by (l : list A) : list A :=
  match l with
  | [] => []
  | x :: xs => insert_by x (sort_by xs)
  end.
End SortBy.

(** A plain object used as a map, with its keys in insertion order.  The
    objects the scripts iterate over ([builders], [PLATFORMS], [results])
    have no integer-like key, so this is also their iteration order; lookup
    of names inherited from [Object.prototype] is outside the model. *)
Definition assoc {A} (k : string) (l : list (string * A)) : option A :=
  match find (fun e => String.eqb k (fst e)) l with
  | Some e => Some (snd e)
  | None => None
  end.

(** [o[k] = v]: an existing key keeps its place, a new one goes last. *)
Fixpoint obj_set {A} (k : string) (v : A) (o : list (string * A)) : list (string * A) :=
  match o with
  | [] => [(k, v)]
  | (k', v') :: o' => if String.eqb k k' then (k', v) :: o' else (k', v') :: obj_set k v o'
  end.

(** Decimal digits: [\d] and [parseInt] on a string of digits. *)
Definition is_digit (c : ascii) : bool :=
  let n := nat_of_ascii c in Nat.leb 48 n && Nat.leb n 57.

Fixpoint take_digits (s : string) : string :=
  match s with
  | EmptyString => EmptyString
  | String c s' => if is_digit c then String c (take_digits s') else EmptyString
  end.

Fixpoint parseInt_acc (acc : N) (s : string) : N :=
  match s with
  | EmptyString => acc
  | String c s' =>
      if is_digit c
      then parseInt_acc (10 * acc + N.of_nat (nat_of_ascii c - 48)) s'
      else acc
  end.

Definition parseInt (s : string) : N := parseInt_acc 0 s.

(** Decimal rendering of a number in a template literal. *)
Definition show_nat (n : nat) : string := NilEmpty.string_of_uint (Nat.to_uint n).

End Js.

(** ** analyze-jar.js *)
Module AnalyzeJar.

(** What the script sees of its host: command line, environment, the file
    system (read only until the final write), child processes and Node's
    [path] module. *)
Record Host := {
  win32 : bool;                          (* process.platform === 'win32' *)
  JAR_INPUT : option string;             (* process.argv[2] *)
  env_JDK_VERSION : option string;
  env_JAVA_HOME : option string;
  script_dir : string;                   (* __dirname *)
  existsSync : string -> bool;
  isFile : string -> bool;               (* fs.statSync(p).isFile() *)
  isDirectory : string -> bool;          (* fs.statSync(p).isDirectory() *)
  readdirSync : string -> list string;
  execSync : string -> option string;    (* stdout; None when the call throws *)
  path_join : list string -> string;
  path_basename : string -> string;
  path_stem : string -> string;          (* path.basename(p, path.extname(p)) *)
  path_dirname : string -> string
}.

(** Lines of the console output; numbers formatted with [toFixed] are
    left out of the model. *)
Inductive Line :=
| ErrNoJars                              (* Error: No JAR files found. + usage *)
| ErrNoJarsIn (dir : string)             (* Error: No JAR files found in directory *)
| ErrPathNotFound (input : string)       (* Error: Path not found *)
| FoundJars (n : nat)
| FoundJDK (jdk : string)
| WarnNoJDK                              (* [WARN] No JDK found for analysis *)
| Analyzed (jar : string) (n : nat)      (* tick (n modules) / Detected n required modules *)
| AnalysisFailed (jar : string)          (* cross (failed) / Could not detect modules *)
| UsingDefault                           (* [INFO] Using default module set *)
| PerJarOk (jar : string) (n : nat)      (* Per-JAR Results: tick jar: n modules *)
| PerJarFailed (jar : string)            (* Per-JAR Results: cross jar: analysis failed *)
| CombinedCount (n : nat)
| ModuleString (s : string)
| SavedTo (file : string)
| SourceIs (src : string)
| EstimatedSize (mb : Z).

Record JarResult := {
  jar : string;
  modules : list string;
  success : bool
}.

(** Outcome of a run: [process.exit(code)] during discovery, or the report. *)
Record Report := {
  jarFiles_of : list string;
  jdkPath_of : option string;
  allModules : list string;              (* the Set, in insertion order *)
  jarResults : list JarResult;
  finalModules : list string;
  source : string;
  outputFile : string;
  written : string;                      (* content given to fs.writeFileSync *)
  console : list Line
}.

Definition DEFAULT_MODULES : list string :=
  [ "java.base"; "java.desktop"; "java.xml"; "java.logging"; "java.naming";
    "java.sql"; "java.management"; "jdk.unsupported" ].

Section Analyzer.
Variable h : Host.

Definition JDK_VERSION : string :=
  if Js.env_truthy (env_JDK_VERSION h)
  then match env_JDK_VERSION h with Some v => v | None => "21" end
  else "21".

Definition jars_in (dir : string) : list string :=
  map (fun f => path_join h [dir; f])
      (filter (fun f => Js.endsWith f ".jar") (readdirSync h dir)).

(** [findJarFiles(input)]: [inl code] is [process.exit(code)]. *)
Definition findJarFiles (input : option string) : (Z * list Line) + list string :=
  if negb (Js.env_truthy input) then
    let jars :=
      if existsSync h "jars" && isDirectory h "jars" then jars_in "jars" else [] in
    match jars with
    | _ :: _ => inr jars
    | [] =>
        let currentJars :=
          filter (fun f => Js.endsWith f ".jar" && isFile h f) (readdirSync h ".") in
        match currentJars with
        | _ :: _ => inr currentJars
        | [] => inl (1%Z, [ErrNoJars])
        end
    end
  else
    let input := match input with Some i => i | None => EmptyString end in
    if existsSync h input then
      if isFile h input && Js.endsWith input ".jar" then inr [input]
      else if isDirectory h input then
        match jars_in input with
        | [] => inl (1%Z, [ErrNoJarsIn input])
        | jars => inr jars
        end
      else inl (1%Z, [ErrPathNotFound input])
    else inl (1%Z, [ErrPathNotFound input]).

Definition jdeps_name : string := if win32 h then "jdeps.exe" else "jdeps".

Definition has_jdeps (jdkPath : string) : bool :=
  existsSync h (path_join h [jdkPath; "bin"; jdeps_name]).

Definition commonPaths : list string :=
  [ "C:\Program Files\Eclipse Adoptium\jdk-21.0.5.11-hotspot";
    "C:\Program Files\Eclipse Adoptium\jdk-17.0.13.11-hotspot";
    "C:\Program Files\Java\jdk-21";
    "C:\Program Files\Java\jdk-17";
    "/usr/lib/jvm/java-21-openjdk-amd64";
    "/usr/lib/jvm/java-17-openjdk-amd64";
    "/Library/Java/JavaVirtualMachines/temurin-21.jdk/Contents/Home";
    "/Library/Java/JavaVirtualMachines/temurin-17.jdk/Contents/Home" ].

(** [findJDK()]: downloaded JDK, JAVA_HOME, common paths, then PATH. *)
Definition findJDK : option string :=
  let downloadedJdk :=
    path_join h [script_dir h; "jdk-downloads"; ("jdk-" ++ JDK_VERSION ++ "-windows-x64")%string] in
  if existsSync h downloadedJdk
     && existsSync h (path_join h [downloadedJdk; "bin"; "jdeps.exe"])
  then Some downloadedJdk
  else
    match
      (match env_JAVA_HOME h with
       | Some jh =>
           if Js.truthy jh && existsSync h jh && has_jdeps jh then Some jh else None
       | None => None
       end)
    with
    | Some jh => Some jh
    | None =>
        match find (fun p => existsSync h p && has_jdeps p) commonPaths with
        | Some p => Some p
        | None =>
            match execSync h (if win32 h then "where javac" else "which javac") with
            | None => None                                   (* javac not in PATH *)
            | Some out =>
                let javacPath := hd EmptyString (Js.split Js.newline (Js.trim out)) in
                if Js.truthy javacPath then
                  let jdkPath := path_dirname h (path_dirname h javacPath) in
                  if has_jdeps jdkPath then Some jdkPath else None
                else None
            end
        end
    end.

Definition jdeps_cmd (multi : bool) (jdeps jarPath : string) : string :=
  (Js.dquote ++ jdeps ++ Js.dquote
    ++ (if multi then " --multi-release 17" else EmptyString)
    ++ " --print-module-deps " ++ Js.dquote ++ jarPath ++ Js.dquote)%string.

(** [analyzeJAR(jarPath, jdkPath)]: [None] is [null]. *)
Definition analyzeJAR (jarPath jdkPath : string) : option (list string) :=
  let jdeps := path_join h [jdkPath; "bin"; jdeps_name] in
  let run :=
    match execSync h (jdeps_cmd true jdeps jarPath) with
    | Some o => Some (Js.trim o)
    | None =>
        (* Fallback without multi-release flag *)
        match execSync h (jdeps_cmd false jdeps jarPath) with
        | Some o => Some (Js.trim o)
        | None => None
        end
    end in
  match run with
  | None => None
  | Some output =>
      if negb (Js.truthy output) || Js.includes output "Error"
         || Js.includes output "not found"
      then None
      else
        let modules :=
          filter (fun m => Js.truthy m && negb (Js.startsWith m "-")
                           && negb (Js.includes m "Error"))
                 (map Js.trim (Js.split Js.comma output)) in
        match modules with
        | [] => None
        | _ => Some modules
        end
  end.

(** The Analysis Result of one JAR: its name, its modules and the
    success flag, as decided by [analyzeJAR] alone. *)
Definition result_of (jdk jarFile : string) : JarResult :=
  match analyzeJAR jarFile jdk with
  | Some ms => {| jar := path_basename h jarFile; modules := ms; success := true |}
  | None => {| jar := path_basename h jarFile; modules := []; success := false |}
  end.

(** State of the [jarFiles.forEach] loop of [main]. *)
Record Acc := {
  acc_set : list string;
  acc_results : list JarResult;
  acc_out : list Line
}.

Definition analyze_step (jdkPath : string) (a : Acc) (jarFile : string) : Acc :=
  let jarName := path_basename h jarFile in
  match analyzeJAR jarFile jdkPath with
  | Some (m :: ms) =>
      let modules := m :: ms in
      {| acc_set := fold_left (fun s x => Js.set_add x s) modules (acc_set a);
         acc_results := acc_results a ++ [{| jar := jarName; modules := modules; success := true |}];
         acc_out := acc_out a ++ [Analyzed jarName (List.length modules)] |}
  | _ =>
      {| acc_set := acc_set a;
         acc_results := acc_results a ++ [{| jar := jarName; modules := []; success := false |}];
         acc_out := acc_out a ++ [AnalysisFailed jarName] |}
  end.

Definition per_jar_line (r : JarResult) : Line :=
  if success r then PerJarOk (jar r) (List.length (modules r)) else PerJarFailed (jar r).

Definition main : (Z * list Line) + Report :=
  match findJarFiles (JAR_INPUT h) with
  | inl e => inl e
  | inr jarFiles =>
      let isMultiple := Nat.ltb 1 (List.length jarFiles) in
      let out0 := [FoundJars (List.length jarFiles)] in
      let jdkPath := findJDK in
      let a :=
        match jdkPath with
        | Some jdk =>
            fold_left (analyze_step jdk) jarFiles
              {| acc_set := []; acc_results := []; acc_out := out0 ++ [FoundJDK jdk] |}
        | None =>
            {| acc_set := []; acc_results := []; acc_out := out0 ++ [WarnNoJDK] |}
        end in
      (* Determine final module list *)
      let '(finalModules, source, out1) :=
        match acc_set a with
        | _ :: _ => (Js.sort (acc_set a), "jdeps", acc_out a)
        | [] => (DEFAULT_MODULES, "default", acc_out a ++ [UsingDefault])
        end in
      let outputFile :=
        if isMultiple then "combined-modules.txt"
        else (path_stem h (hd EmptyString jarFiles) ++ "-modules.txt")%string in
      let content := Js.join "," finalModules in
      let perJar :=
        if isMultiple && (match jdkPath with Some _ => true | None => false end)
        then map per_jar_line (acc_results a) else [] in
      let baseSize := if Js.arr_includes finalModules "java.desktop" then 45%Z else 25%Z in
      let extraModules := (Z.of_nat (List.length finalModules) - 4)%Z in
      inr {| jarFiles_of := jarFiles;
             jdkPath_of := jdkPath;
             allModules := acc_set a;
             jarResults := acc_results a;
             finalModules := finalModules;
             source := source;
             outputFile := outputFile;
             written := content;
             console := out1 ++ perJar
                        ++ [ CombinedCount (List.length finalModules);
                             ModuleString content; SavedTo outputFile; SourceIs source;
                             EstimatedSize (baseSize + extraModules * 2)%Z ] |}
  end.
End Analyzer.

End AnalyzeJar.

(** ** The file system *)
Module Fs.

Definition Path := list string.

Inductive Node :=
| Dir
| File (size : N) (mtimeMs : Z) (data : string).

(** Entries in directory order; paths are relative to [process.cwd()].
    Node's input-output failures (EACCES, EBUSY, ...) are outside the
    model, and so is its refusal to write below a path that is not a
    directory: [set] and [mkdirSync] do not look at the ancestors of a
    path.  What is proved of a script that writes says where its working
    directories have to be directories. *)
Definition t := list (Path * Node).

Fixpoint path_eqb (p q : Path) : bool :=
  match p, q with
  | [], [] => true
  | x :: p', y :: q' => String.eqb x y && path_eqb p' q'
  | _, _ => false
  end.

(** [is_under p q]: [q] is [p] or lies below it. *)
Fixpoint is_under (p q : Path) : bool :=
  match p, q with
  | [], _ => true
  | x :: p', y :: q' => String.eqb x y && is_under p' q'
  | _ :: _, [] => false
  end.

Fixpoint lookup (p : Path) (fs : t) : option Node :=
  match fs with
  | [] => None
  | (q, n) :: fs' => if path_eqb p q then Some n else lookup p fs'
  end.

Definition existsSync (fs : t) (p : Path) : bool :=
  match lookup p fs with Some _ => true | None => false end.

Definition isDirectory (fs : t) (p : Path) : bool :=
  match lookup p fs with Some Dir => true | _ => false end.

Definition size_of (fs : t) (p : Path) : N :=
  match lookup p fs with Some (File sz _ _) => sz | _ => 0%N end.

Definition mtimeMs_of (fs : t) (p : Path) : Z :=
  match lookup p fs with Some (File _ m _) => m | _ => 0%Z end.

(** The child name of [q] in [d], when [q] is a direct child. *)
Fixpoint child_of (d q : Path) : option string :=
  match d, q with
  | [], [n] => Some n
  | x :: d', y :: q' => if String.eqb x y then child_of d' q' else None
  | _, _ => None
  end.

(** The names [fs.readdirSync(d)] returns for a directory [d].  The call
    itself is [Eff.readdirSync]: it throws on a path that is missing or is
    not a directory.  The functions that run while a script is loaded
    ([detectAvailableJDK], the search for module lists and for JARs) use the
    names directly; what is proved of them says where the listed path has to
    be a directory. *)
Fixpoint readdirSync (fs : t) (d : Path) : list string :=
  match fs with
  | [] => []
  | (q, _) :: fs' =>
      match child_of d q with
      | Some n => n :: readdirSync fs' d
      | None => readdirSync fs' d
      end
  end.

(** [fs.rmSync(p, { recursive: true, force: true })]. *)
Definition rmSync (p : Path) (fs : t) : t :=
  filter (fun e => negb (is_under p (fst e))) fs.

(** Removal of the single entry [p] ([fs.unlinkSync] on an existing file). *)
Definition remove (p : Path) (fs : t) : t :=
  filter (fun e => negb (path_eqb p (fst e))) fs.

(** Create or replace the entry [p]. *)
Fixpoint set (p : Path) (n : Node) (fs : t) : t :=
  match fs with
  | [] => [(p, n)]
  | (q, m) :: fs' => if path_eqb p q then (q, n) :: fs' else (q, m) :: set p n fs'
  end.

(** [fs.mkdirSync(p, { recursive: true })]: [p] and its missing ancestors. *)
Fixpoint mkdir_from (base rest : Path) (fs : t) : t :=
  match rest with
  | [] => fs
  | x :: rest' =>
      let d := base ++ [x] in
      mkdir_from d rest' (if existsSync fs d then fs else fs ++ [(d, Dir)])
  end.

Definition mkdirSync (p : Path) (fs : t) : t := mkdir_from [] p fs.

(** [strip p q]: the part of [q] below [p]. *)
Fixpoint strip (p q : Path) : option Path :=
  match p, q with
  | [], _ => Some q
  | x :: p', y :: q' => if String.eqb x y then strip p' q' else None
  | _ :: _, [] => None
  end.

Definition reroot (src dst : Path) (e : Path * Node) : Path * Node :=
  match strip src (fst e) with
  | Some rest => (dst ++ rest, snd e)
  | None => e
  end.

(** [fs.renameSync(src, dst)] of a tree. *)
Definition renameSync (src dst : Path) (fs : t) : t := map (reroot src dst) fs.

(** The entries of the tree at [src], re-rooted at [dst]. *)
Definition tree_copy (src dst : Path) (fs : t) : t :=
  map (reroot src dst) (filter (fun e => is_under src (fst e)) fs).

(** Sum of the sizes of the files below [d]. *)
Definition tree_size (fs : t) (d : Path) : N :=
  fold_left (fun acc e =>
               match e with
               | (q, File sz _ _) => if is_under d q then (acc + sz)%N else acc
               | _ => acc
               end) fs 0%N.

(** Rendering of a path for messages and command lines. *)
Definition show (p : Path) : string := String.concat "/" p.

End Fs.

(** ** Effects: a world, exceptions, [process.exit] *)
Module Eff.

Inductive Exn :=
| ReferenceError (name : string)
| TypeError (msg : string)
| Error (msg : string)
| HttpStatusError (statusCode : Z) (statusMessage : string)
| RequestError (msg : string)
| StreamError (msg : string)
| InvalidUrl (url : string)
| FsError (code : string) (p : Fs.Path).

Definition message (e : Exn) : string :=
  match e with
  | ReferenceError n => ("Cannot access " ++ n ++ " before initialization")%string
  | TypeError m | Error m | RequestError m | StreamError m => m
  | HttpStatusError c m => ("HTTP " ++ Js.show_nat (Z.to_nat c) ++ ": " ++ m)%string
  | InvalidUrl _ => "Invalid URL"
  | FsError c p => (c ++ ": " ++ Fs.show p)%string
  end.

Inductive Level := Header | Info | Success | Failure | Step | Warn | Plain.

Inductive Event :=
| Log (lvl : Level) (msg : string)
| LogSized (lvl : Level) (msg : string) (bytes : N)
| Summary (name : string) (ok : bool)
| SpawnSync (cmd : Fs.Path) (args : list string)
| HttpGet (url : string).

(** The world of a script: the file system, its globals, what it did. *)
Record World (G : Type) := mkWorld {
  fs : Fs.t;
  globals : G;
  trace : list Event
}.
Arguments mkWorld {G}.
Arguments fs {G}.
Arguments globals {G}.
Arguments trace {G}.

Inductive Res (A : Type) :=
| Ok (a : A)
| Throw (e : Exn)
| Exit (code : Z)              (* process.exit(code) *)
| OutOfFuel.                   (* the model ran out of fuel *)
Arguments Ok {A}.
Arguments Throw {A}.
Arguments Exit {A}.
Arguments OutOfFuel {A}.

Definition M (G A : Type) : Type := World G -> Res A * World G.

Section Monad.
Context {G : Type}.

Definition ret {A} (a : A) : M G A := fun w => (Ok a, w).

Definition bind {A B} (m : M G A) (k : A -> M G B) : M G B :=
  fun w =>
    match m w with
    | (Ok a, w') => k a w'
    | (Throw e, w') => (Throw e, w')
    | (Exit c, w') => (Exit c, w')
    | (OutOfFuel, w') => (OutOfFuel, w')
    end.

Definition throw {A} (e : Exn) : M G A := fun w => (Throw e, w).
Definition exit {A} (code : Z) : M G A := fun w => (Exit code, w).
Definition out_of_fuel {A} : M G A := fun w => (OutOfFuel, w).

(** [try { m } catch (e) { handler e }]. *)
Definition try_catch {A} (m : M G A) (handler : Exn -> M G A) : M G A :=
  fun w =>
    match m w with
    | (Throw e, w') => handler e w'
    | r => r
    end.

Definition emit (ev : Event) : M G unit :=
  fun w => (Ok tt, mkWorld (fs w) (globals w) (trace w ++ [ev])).

Definition get_fs : M G Fs.t := fun w => (Ok (fs w), w).

Definition modify_fs (f : Fs.t -> Fs.t) : M G unit :=
  fun w => (Ok tt, mkWorld (f (fs w)) (globals w) (trace w)).

Definition get_globals : M G G := fun w => (Ok (globals w), w).

Definition modify_globals (f : G -> G) : M G unit :=
  fun w => (Ok tt, mkWorld (fs w) (f (globals w)) (trace w)).

Definition when_ (b : bool) (m : M G unit) : M G unit := if b then m else ret tt.

Definition existsSync (p : Fs.Path) : M G bool :=
  fun w => (Ok (Fs.existsSync (fs w) p), w).

(** [fs.readdirSync(d)]: the names in [d]; it throws when [d] is missing
    (ENOENT) or is not a directory (ENOTDIR).  The working directory [[]]
    is a directory. *)
Definition readdirSync (d : Fs.Path) : M G (list string) :=
  fun w =>
    match d, Fs.lookup d (fs w) with
    | [], _ | _, Some Fs.Dir => (Ok (Fs.readdirSync (fs w) d), w)
    | _, Some (Fs.File _ _ _) => (Throw (FsError "ENOTDIR" d), w)
    | _, None => (Throw (FsError "ENOENT" d), w)
    end.

(** [fs.unlinkSync(p)] throws when [p] does not exist. *)
Definition unlinkSync (p : Fs.Path) : M G unit :=
  bind (existsSync p) (fun b =>
    if b then modify_fs (Fs.remove p) else throw (FsError "ENOENT" p)).

Definition rmSync (p : Fs.Path) : M G unit := modify_fs (Fs.rmSync p).

(** [ensureDir(dir)]. *)
Definition ensureDir (dir : Fs.Path) : M G unit :=
  bind (existsSync dir) (fun b => when_ (negb b) (modify_fs (Fs.mkdirSync dir))).

(** [for (const x of l) body x]. *)
Fixpoint for_each {A} (l : list A) (body : A -> M G unit) : M G unit :=
  match l with
  | [] => ret tt
  | x :: xs => bind (body x) (fun _ => for_each xs body)
  end.
End Monad.

(** Which abnormal results a computation may have; [process.exit] is
    never among them. *)
Record Allow := {
  throws : bool;
  hangs : bool
}.

Definition ok_res {A : Type} (al : Allow) (r : Res A) : Prop :=
  match r with
  | Ok _ => True
  | Throw _ => throws al = true
  | OutOfFuel => hangs al = true
  | Exit _ => False
  end.

(** A batch over named steps: each step is attempted in the world its
    predecessor left; a step that throws counts as failed, the failure is
    logged and the batch goes on. *)
Inductive attempts {G : Type} :
  list (string * M G bool) -> World G -> list (string * bool) -> World G -> Prop :=
| attempts_nil (w : World G) : attempts [] w [] w
| attempts_ok (name : string) (fn : M G bool) (rest : list (string * M G bool))
    (w w1 w2 : World G) (b : bool) (rs : list (string * bool)) :
    fn w = (Ok b, w1) ->
    attempts rest w1 rs w2 ->
    attempts ((name, fn) :: rest) w ((name, b) :: rs) w2
| attempts_throw (name : string) (fn : M G bool) (rest : list (string * M G bool))
    (w w1 w2 : World G) (e : Exn) (msg : string) (rs : list (string * bool)) :
    fn w = (Throw e, w1) ->
    attempts rest (mkWorld (fs w1) (globals w1) (trace w1 ++ [Log Failure msg])) rs w2 ->
    attempts ((name, fn) :: rest) w ((name, false) :: rs) w2.

Section Outcomes.
Context {G : Type} (I : G -> Prop).

(** [w'] keeps the invariant on the globals and extends the trace of [w]. *)
Definition good (w w' : World G) : Prop :=
  I (globals w') /\ exists t, trace w' = trace w ++ t.

(** From a world that satisfies the invariant, [m] ends in a good world,
    with a result among those [al] allows. *)
Definition bounded {A : Type} (al : Allow) (m : M G A) : Prop :=
  forall w, I (globals w) -> ok_res al (fst (m w)) /\ good w (snd (m w)).

End Outcomes.

(** [m] keeps a property of the file system, whatever its result. *)
Definition preserves {G A : Type} (P : Fs.t -> Prop) (m : M G A) : Prop :=
  forall w, P (fs w) -> P (fs (snd (m w))).

(** The invariant of the scripts without mutable globals. *)
Definition always (_ : unit) : Prop := True.

Declare Scope eff_scope.
Delimit Scope eff_scope with eff.
Notation "x <- m ;; k" := (bind m (fun x => k))
  (at level 61, m at next level, right associativity) : eff_scope.
Notation "m ;; k" := (bind m (fun _ => k))
  (at level 61, right associativity) : eff_scope.

End Eff.

(** ** download-jdks.js *)
Module DownloadJdks.
Import Eff.
Local Open Scope eff_scope.

Definition DOWNLOAD_DIR : Fs.Path := ["jdk-downloads"].

Record VersionConfig := {
  release : string;
  version : string;
  prefix : string
}.

Definition VERSION_CONFIG : list (string * VersionConfig) :=
  [ ("11", {| release := "jdk-11.0.25%2B9"; version := "11.0.25_9"; prefix := "OpenJDK11U" |});
    ("16", {| release := "jdk-16.0.2%2B7"; version := "16.0.2_7"; prefix := "OpenJDK16U" |});
    ("17", {| release := "jdk-17.0.13%2B11"; version := "17.0.13_11"; prefix := "OpenJDK17U" |});
    ("18", {| release := "jdk-18.0.2.1%2B1"; version := "18.0.2.1_1"; prefix := "OpenJDK18U" |});
    ("19", {| release := "jdk-19.0.2%2B7"; version := "19.0.2_7"; prefix := "OpenJDK19U" |});
    ("20", {| release := "jdk-20.0.2%2B9"; version := "20.0.2_9"; prefix := "OpenJDK20U" |});
    ("21", {| release := "jdk-21.0.5%2B11"; version := "21.0.5_11"; prefix := "OpenJDK21U" |}) ].

Inductive ArchiveType := Zip | TarGz.

(** The two rules that locate the JDK root in an extracted tree. *)
Definition find_jdk_dir (fs : Fs.t) (extractDir : Fs.Path) : option string :=
  find (fun e => Js.startsWith e "jdk-") (Fs.readdirSync fs extractDir).

Definition jdkPath_direct (fs : Fs.t) (extractDir : Fs.Path) : Fs.Path :=
  match find_jdk_dir fs extractDir with
  | Some jdkDir => extractDir ++ [jdkDir]
  | None => extractDir
  end.

Definition jdkPath_macos (fs : Fs.t) (extractDir : Fs.Path) : Fs.Path :=
  match find_jdk_dir fs extractDir with
  | Some jdkDir =>
      let contentsHome := extractDir ++ [jdkDir; "Contents"; "Home"] in
      if Fs.existsSync fs contentsHome then contentsHome else extractDir
  | None => extractDir
  end.

(** One entry of [PLATFORMS].  The file name of the archive is the last
    segment of [url], which is what [path.basename(new URL(url).pathname)]
    returns for these URLs.  [jdkPath] is the path a rule computes from the
    names it lists; the call of a rule, listing included, is [locate_jdk]
    below. *)
Record PlatformConfig := {
  url : string;
  archiveName : string;
  type : ArchiveType;
  jdkPath : Fs.t -> Fs.Path -> Fs.Path
}.

Definition ext_of (t : ArchiveType) : string :=
  match t with Zip => ".zip" | TarGz => ".tar.gz" end.

Definition platform_entry (JDK_VERSION : string) (config : VersionConfig)
    (arch_os : string) (t : ArchiveType) (rule : Fs.t -> Fs.Path -> Fs.Path)
    : PlatformConfig :=
  let baseUrl :=
    ("https://github.com/adoptium/temurin" ++ JDK_VERSION
       ++ "-binaries/releases/download/" ++ release config)%string in
  let file :=
    (prefix config ++ "-jdk_" ++ arch_os ++ "_hotspot_" ++ version config ++ ext_of t)%string in
  {| url := (baseUrl ++ "/" ++ file)%string; archiveName := file; type := t; jdkPath := rule |}.

(** [getPlatformConfig()]: [None] is the unsupported-version exit. *)
Definition getPlatformConfig (JDK_VERSION : string)
    : option (list (string * PlatformConfig)) :=
  match Js.assoc JDK_VERSION VERSION_CONFIG with
  | None => None
  | Some config =>
      let entry := platform_entry JDK_VERSION config in
      Some [ ("windows-x64", entry "x64_windows" Zip jdkPath_direct);
             ("windows-arm64", entry "aarch64_windows" Zip jdkPath_direct);
             ("macos-x64", entry "x64_mac" TarGz jdkPath_macos);
             ("macos-arm64", entry "aarch64_mac" TarGz jdkPath_macos);
             ("linux-x64", entry "x64_linux" TarGz jdkPath_direct);
             ("linux-arm64", entry "aarch64_linux" TarGz jdkPath_direct) ]
  end.

(** What [protocol.get(url, callback)] leads to. *)
Inductive Body :=
| BodyFinish (bytes : N)                 (* the file stream emits 'finish' *)
| BodyRequestError (msg : string)        (* 'error' on the request *)
| BodyFileError (msg : string).          (* 'error' on the file stream *)

Inductive GetResult :=
| GetThrows                              (* [get] itself throws: invalid URL *)
| GetRequestError (msg : string)         (* 'error' on the request, no response *)
| GetRequestErrorBeforeOpen (msg : string)
    (* the same, delivered before the write stream has opened its file *)
| GetResponse (statusCode : Z) (statusMessage : string)
              (location : option string) (body : Body).

(** The errors the claim on failed downloads is about: a request or
    stream error, or a terminal status other than 200. *)
Definition download_error (e : Eff.Exn) : bool :=
  match e with
  | Eff.RequestError _ | Eff.StreamError _ | Eff.HttpStatusError _ _ => true
  | _ => false
  end.

(** Number of network requests in a trace. *)
Definition requests (tr : list Eff.Event) : nat :=
  List.length (filter (fun ev => match ev with Eff.HttpGet _ => true | _ => false end) tr).

(** A computation that makes no network request and does not exhaust fuel. *)
Definition quiet {A : Type} (m : Eff.M unit A) : Prop :=
  forall w, requests (Eff.trace (snd (m w))) = requests (Eff.trace w) /\ fst (m w) <> Eff.OutOfFuel.

Section Downloader.
(** The network, and the two archive libraries (adm-zip and tar). *)
Variable http_get : string -> GetResult.
Variable zip_extractAllTo : Fs.Path -> Fs.Path -> Fs.t -> option Exn * Fs.t.
Variable tar_x : Fs.Path -> Fs.Path -> Fs.t -> option Exn * Fs.t.

Variable JDK_VERSION : string.
Variable PLATFORMS : list (string * PlatformConfig).

(** [fs.createWriteStream(dest)] returns a stream and leaves the disk as
    it is: the stream opens [dest], creating or truncating it, from the
    event loop.  [stream_opens] is that later step.  A response reaches its
    handler after it, a round trip of the network being slower than the
    local call; an error of the request can be faster than the open, which
    is [GetRequestErrorBeforeOpen].  [downloadFile] below returns the world
    in which the stream has opened its file, also where the promise is
    rejected before that. *)
Definition stream_opens (dest : Fs.Path) : M unit unit :=
  modify_fs (Fs.set dest (Fs.File 0 0 EmptyString)).

Definition unlink_if_exists (dest : Fs.Path) : M unit unit :=
  b <- existsSync dest ;; if b then unlinkSync dest else ret tt.

Definition is_redirect (statusCode : Z) : bool :=
  (statusCode =? 301)%Z || (statusCode =? 302)%Z || (statusCode =? 307)%Z.

(** [downloadFile(url, dest)]; each redirect hop uses one unit of fuel.
    [url] is [None] when a redirect carries no Location header. *)
Fixpoint downloadFile (fuel : nat) (url : option string) (dest : Fs.Path)
    : M unit unit :=
  match fuel with
  | O => out_of_fuel
  | S fuel' =>
      match url with
      | None => throw (TypeError "Cannot read properties of undefined (reading 'startsWith')")
      | Some url =>
          (* const file = fs.createWriteStream(dest) *)
          match http_get url with
          | GetThrows =>
              (* the promise is rejected, then the stream opens its file *)
              stream_opens dest ;;
              throw (InvalidUrl url)
          | GetRequestError msg =>
              stream_opens dest ;;
              emit (HttpGet url) ;;
              unlink_if_exists dest ;;
              throw (RequestError msg)
          | GetRequestErrorBeforeOpen msg =>
              emit (HttpGet url) ;;
              (* the handler finds at most an older file to unlink *)
              unlink_if_exists dest ;;
              stream_opens dest ;;
              throw (RequestError msg)
          | GetResponse statusCode statusMessage location body =>
              stream_opens dest ;;
              emit (HttpGet url) ;;
              if is_redirect statusCode then
                (* Handle redirects *)
                unlinkSync dest ;;
                downloadFile fuel' location dest
              else if negb (statusCode =? 200)%Z then
                unlinkSync dest ;;
                throw (HttpStatusError statusCode statusMessage)
              else
                match body with
                | BodyFinish bytes =>
                    modify_fs (Fs.set dest (Fs.File bytes 0 EmptyString)) ;;
                    emit (LogSized Success "Downloaded" bytes)
                | BodyRequestError msg =>
                    unlink_if_exists dest ;;
                    throw (RequestError msg)
                | BodyFileError msg =>
                    unlink_if_exists dest ;;
                    throw (StreamError msg)
                end
          end
      end
  end.

Definition extract (t : ArchiveType) (archivePath extractDir : Fs.Path) : M unit unit :=
  fun w =>
    let '(r, fs') :=
      match t with
      | Zip => zip_extractAllTo archivePath extractDir (fs w)
      | TarGz => tar_x archivePath extractDir (fs w)
      end in
    let w' := mkWorld fs' (globals w) (trace w ++ [Log Info "Extracting"]) in
    match r with
    | Some e => (Throw e, w')
    | None => (Ok tt, mkWorld fs' (globals w) (trace w' ++ [Log Success "Extracted"]))
    end.

Definition MIN_ARCHIVE_SIZE : N := 1024 * 1024.

Definition archivePath_of (config : PlatformConfig) : Fs.Path :=
  DOWNLOAD_DIR ++ [archiveName config].
Definition extractDir_of (platform : string) : Fs.Path :=
  DOWNLOAD_DIR ++ [("jdk-" ++ JDK_VERSION ++ "-" ++ platform ++ "-temp")%string].
Definition finalDir_of (platform : string) : Fs.Path :=
  DOWNLOAD_DIR ++ [("jdk-" ++ JDK_VERSION ++ "-" ++ platform)%string].

(** Determine correct jlink executable name for target platform (not host). *)
Definition jlinkExe_of (platform : string) : string :=
  if Js.includes platform "windows" then "jlink.exe" else "jlink".

(** [config.jdkPath(dir)]: each rule lists [dir] before anything else,
    and the listing throws when [dir] is not a directory. *)
Definition locate_jdk (config : PlatformConfig) (dir : Fs.Path) : M unit Fs.Path :=
  _ <- readdirSync dir ;;
  fs0 <- get_fs ;;
  ret (jdkPath config fs0 dir).

(** The step "Download if needed" of [downloadAndExtractPlatform]; the
    result is false when the function returns after a failed download. *)
Definition download_if_needed (fuel : nat) (config : PlatformConfig) : M unit bool :=
  let archivePath := archivePath_of config in
  fs1 <- get_fs ;;
  if negb (Fs.existsSync fs1 archivePath)
     || (Fs.size_of fs1 archivePath <? MIN_ARCHIVE_SIZE)%N
  then
    emit (Log Info "Downloading...") ;;
    try_catch
      (downloadFile fuel (Some (url config)) archivePath ;; ret true)
      (fun error =>
         emit (Log Failure ("Download failed: " ++ message error)%string) ;;
         ret false)
  else
    emit (Log Info "Archive already downloaded") ;; ret true.

(** The steps from "Clean temp extraction directory" to the end. *)
Definition extract_and_install (platform : string) (config : PlatformConfig)
    : M unit unit :=
  let archivePath := archivePath_of config in
  let extractDir := extractDir_of platform in
  let finalDir := finalDir_of platform in
  let jlinkExe := jlinkExe_of platform in
  (* Clean temp extraction directory *)
  b <- existsSync extractDir ;;
  when_ b (rmSync extractDir) ;;
  modify_fs (Fs.mkdirSync extractDir) ;;
  try_catch
    (extract (type config) archivePath extractDir ;;
     (* Debug: Show what was extracted *)
     _ <- readdirSync extractDir ;;
     (* Find and move JDK to final location *)
     jdkPath <- locate_jdk config extractDir ;;
     fs2 <- get_fs ;;
     if negb (Fs.existsSync fs2 jdkPath)
     then throw (Error "JDK directory not found after extraction")
     else
       (* Verify jlink exists *)
       if negb (Fs.existsSync fs2 (jdkPath ++ ["bin"; jlinkExe]))
       then throw (Error ("jlink not found in extracted JDK (looking for "
                            ++ jlinkExe ++ ")")%string)
       else
         emit (Log Success ("Verified: " ++ jlinkExe ++ " exists")%string) ;;
         (* Move to final location *)
         when_ (Fs.existsSync fs2 finalDir) (rmSync finalDir) ;;
         modify_fs (Fs.renameSync jdkPath finalDir) ;;
         (* Clean up temp directory *)
         rmSync extractDir ;;
         emit (Log Success ("Ready at: " ++ Fs.show finalDir)%string))
    (fun error =>
       emit (Log Failure ("Extraction failed: " ++ message error)%string) ;;
       (* Clean up on failure *)
       b <- existsSync extractDir ;;
       when_ b (rmSync extractDir)).

(** The steps of [downloadAndExtractPlatform] after the check of the
    final directory. *)
Definition download_and_install (fuel : nat) (platform : string)
    (config : PlatformConfig) : M unit unit :=
  downloaded <- download_if_needed fuel config ;;
  if negb downloaded then ret tt
  else extract_and_install platform config.

(** [downloadAndExtractPlatform(platform, config)].  The check of the final
    directory is outside every [try]: what [config.jdkPath(finalDir)] throws
    leaves the function. *)
Definition downloadAndExtractPlatform (fuel : nat) (platform : string)
    (config : PlatformConfig) : M unit unit :=
  let finalDir := finalDir_of platform in
  emit (Log Header platform) ;;
  (* Check if final directory exists and is valid *)
  b <- existsSync finalDir ;;
  if b then
    jdkPath <- locate_jdk config finalDir ;;
    valid <- existsSync (jdkPath ++ ["bin"; jlinkExe_of platform]) ;;
    if valid then emit (Log Success "Already exists and verified")
    else
      emit (Log Info "Existing installation invalid, re-extracting...") ;;
      rmSync finalDir ;;
      download_and_install fuel platform config
  else download_and_install fuel platform config.

(** [main()]: every platform in turn. *)
Definition main (fuel : nat) : M unit unit :=
  emit (Log Header ("JDK " ++ JDK_VERSION ++ " Downloader")%string) ;;
  for_each PLATFORMS (fun pc => downloadAndExtractPlatform fuel (fst pc) (snd pc)) ;;
  emit (Log Header "Download Complete!").
End Downloader.

(** A platform failed in a run of the downloader when a failure was
    printed. *)
Definition platform_failed (tr : list Event) : bool :=
  existsb (fun ev => match ev with Log Failure _ => true | _ => false end) tr.

(** The exit-status contract of the specification, for a finished run. *)
Definition exit_reflects_failures (exit_status : option Z) (tr : list Event) : Prop :=
  exit_status <> Some 0%Z <-> platform_failed tr = true.

Definition six_targets : list string :=
  [ "windows-x64"; "windows-arm64"; "macos-x64"; "macos-arm64"; "linux-x64"; "linux-arm64" ].

(** The chain of redirects from [url] ends within [n] requests. *)
Fixpoint resolves_within (http_get : string -> GetResult) (n : nat) (url : option string)
    : bool :=
  match n with
  | O => false
  | S n' =>
      match url with
      | None => true
      | Some u =>
          match http_get u with
          | GetResponse statusCode _ location _ =>
              if is_redirect statusCode then resolves_within http_get n' location else true
          | _ => true
          end
      end
  end.

(** No request of the network fails before the write stream has opened
    its file. *)
Definition errors_after_open (http_get : string -> GetResult) : Prop :=
  forall (u msg : string), http_get u <> GetRequestErrorBeforeOpen msg.

(** One platform of a run of version [V].  The step never exits.  It
    throws in one case only: the final directory exists and is not a
    directory; the listing of the validity check then throws, nothing but
    the header has been printed and the file system is left as it is. *)
Definition platform_outcome (V platform : string) (w : World unit)
    (rw : Res unit * World unit) : Prop :=
  match fst rw with
  | Ok _ | OutOfFuel => True
  | Exit _ => False
  | Throw e =>
      e = FsError "ENOTDIR" (finalDir_of V platform)
      /\ snd rw = mkWorld (fs w) (globals w) (trace w ++ [Log Header platform])
      /\ Fs.existsSync (fs w) (finalDir_of V platform) = true
      /\ Fs.isDirectory (fs w) (finalDir_of V platform) = false
  end.

(** How the loop of [main] over the platforms ends: every platform has
    been attempted, or the loop stopped at the first platform whose check
    threw, right after its header. *)
Definition loop_outcome (V : string) (ps : list (string * PlatformConfig)) (r : Res unit)
    (w' : World unit) : Prop :=
  match r with
  | Ok _ => forall pc, In pc ps -> In (Log Header (fst pc)) (trace w')
  | OutOfFuel => True
  | Exit _ => False
  | Throw e =>
      exists before pc after t,
        ps = before ++ pc :: after
        /\ e = FsError "ENOTDIR" (finalDir_of V (fst pc))
        /\ (forall pc', In pc' before -> In (Log Header (fst pc')) (trace w'))
        /\ trace w' = t ++ [Log Header (fst pc)]
        /\ Fs.existsSync (fs w') (finalDir_of V (fst pc)) = true
        /\ Fs.isDirectory (fs w') (finalDir_of V (fst pc)) = false
  end.

(** [process.env.JDK_VERSION || process.argv[2] || '21']. *)
Definition select_version (env_JDK_VERSION argv2 : option string) : string :=
  match env_JDK_VERSION, argv2 with
  | Some v, Some a => if Js.truthy v then v else if Js.truthy a then a else "21"
  | Some v, None => if Js.truthy v then v else "21"
  | None, Some a => if Js.truthy a then a else "21"
  | None, None => "21"
  end.

(** The whole script: version selection, [getPlatformConfig()], creation of
    the download directory, then [main().catch(console.error)].  The result
    is the exit status of the process. *)
Definition script (http_get : string -> GetResult)
    (zip_extractAllTo tar_x : Fs.Path -> Fs.Path -> Fs.t -> option Exn * Fs.t)
    (env_JDK_VERSION argv2 : option string) (fuel : nat)
    (w : World unit) : option Z * World unit :=
  let JDK_VERSION := select_version env_JDK_VERSION argv2 in
  match getPlatformConfig JDK_VERSION with
  | None =>
      (Some 1%Z,
       mkWorld (fs w) tt
         (trace w ++ [Log Failure ("Unsupported JDK version: " ++ JDK_VERSION)%string]))
  | Some PLATFORMS =>
      let w1 := snd (ensureDir DOWNLOAD_DIR w) in
      match main http_get zip_extractAllTo tar_x JDK_VERSION PLATFORMS fuel w1 with
      | (Ok _, w2) => (Some 0%Z, w2)
      | (Throw e, w2) =>
          (* main().catch(console.error) *)
          (Some 0%Z, mkWorld (fs w2) tt (trace w2 ++ [Log Failure (message e)]))
      | (Exit c, w2) => (Some c, w2)
      | (OutOfFuel, w2) => (None, w2)
      end
  end.

End DownloadJdks.

(** ** build-jre-all-platforms.js *)
Module BuildJre.
Import Eff.
Local Open Scope eff_scope.

Definition OUTPUT_DIR : Fs.Path := ["jre-builds"].
Definition JDK_DIR : Fs.Path := ["jdk-downloads"].

(** [dir.match(/^jdk-(\d+)/)]: the captured digits. *)
Definition match_jdk_version (dir : string) : option string :=
  if Js.startsWith dir "jdk-" then
    let digits := Js.take_digits (substring 4 (String.length dir - 4) dir) in
    if Js.truthy digits then Some digits else None
  else None.

(** The body of [dirs.forEach]: the captured version joins the Set. *)
Definition add_version (versions : list string) (dir : string) : list string :=
  match match_jdk_version dir with
  | Some v => Js.set_add v versions
  | None => versions
  end.

(** [detectAvailableJDK()]; [None] is [null]. *)
Definition detectAvailableJDK (fs : Fs.t) : option string :=
  if negb (Fs.existsSync fs JDK_DIR) then None
  else
    (* Look for extracted JDK directories *)
    let dirs :=
      filter (fun d => Fs.isDirectory fs (JDK_DIR ++ [d]) && Js.startsWith d "jdk-")
             (Fs.readdirSync fs JDK_DIR) in
    match dirs with
    | [] => None
    | _ =>
        let versions := fold_left add_version dirs [] in
        let availableVersions :=
          Js.sort_by (fun a b => (Z.of_N (Js.parseInt b) - Z.of_N (Js.parseInt a))%Z)
                     versions in
        match availableVersions with
        | [] => None
        | v :: _ => Some v
        end
    end.

(** The directories found in the downloads directory. *)
Definition jdk_directories (fs : Fs.t) : list string :=
  filter (fun d => Fs.isDirectory fs (JDK_DIR ++ [d])) (Fs.readdirSync fs JDK_DIR).

(** A directory name of the form jdk-<N>..., as the specification words
    it and not as the code matches it: [v] is the run of decimal digits
    that follows "jdk-", it is not empty and no further digit follows it,
    and [n] is the number it denotes in the decimal notation of the Standard
    Library. *)
Definition names_version (d v : string) (n : N) : Prop :=
  exists (u : Decimal.uint) (rest : string),
    d = ("jdk-" ++ v ++ rest)%string
    /\ v <> EmptyString
    /\ NilEmpty.uint_of_string v = Some u
    /\ n = N.of_uint u
    /\ match rest with
       | EmptyString => True
       | String c _ => nat_of_ascii c < 48 \/ 57 < nat_of_ascii c
       end.

(** [process.env.JDK_VERSION || detectAvailableJDK() || '21']. *)
Definition select_JDK_VERSION (env_JDK_VERSION : option string) (fs : Fs.t) : string :=
  match env_JDK_VERSION with
  | Some v => if Js.truthy v then v
              else match detectAvailableJDK fs with
                   | Some d => if Js.truthy d then d else "21"
                   | None => "21"
                   end
  | None => match detectAvailableJDK fs with
            | Some d => if Js.truthy d then d else "21"
            | None => "21"
            end
  end.

Definition DEFAULT_MODULES : string :=
  "java.base,java.desktop,java.xml,java.logging,java.naming,java.sql,java.management,jdk.unsupported".

(** The script's mutable top-level bindings.  [colors_ready] is false while
    the [const colors] declaration has not been evaluated yet. *)
Record Globals := {
  MODULES : string;
  modulesSource : string;
  colors_ready : bool
}.

Definition W := World Globals.

(** Reading the binding [colors]. *)
Definition read_colors : M Globals unit :=
  g <- get_globals ;;
  if colors_ready g then ret tt else throw (ReferenceError "colors").

(** [console.log] of a template that interpolates [colors.*], and the
    functions of the [log] object, which all do. *)
Definition log (lvl : Level) (msg : string) : M Globals unit :=
  read_colors ;; emit (Log lvl msg).

Definition log_sized (lvl : Level) (msg : string) (bytes : N) : M Globals unit :=
  read_colors ;; emit (LogSized lvl msg bytes).

Definition set_modules (m src : string) : M Globals unit :=
  modify_globals (fun g =>
    {| MODULES := m; modulesSource := src; colors_ready := colors_ready g |}).

(** [fs.readFileSync(p, 'utf-8')]: throws unless [p] is a file. *)
Definition readFileSync (p : Fs.Path) : M Globals string :=
  fs0 <- get_fs ;;
  match Fs.lookup p fs0 with
  | Some (Fs.File _ _ data) => ret data
  | Some Fs.Dir => throw (FsError "EISDIR" p)
  | None => throw (FsError "ENOENT" p)
  end.

Definition autoModuleFiles (fs : Fs.t) : list string :=
  Js.sort_by (fun a b => (Fs.mtimeMs_of fs [b] - Fs.mtimeMs_of fs [a])%Z)
             (filter (fun f => Js.endsWith f "-modules.txt") (Fs.readdirSync fs [])).

(** Try to take the module list from [file]; the body of both [try] blocks. *)
Definition use_module_file (file : string) (tag : string) : M Globals unit :=
  try_catch
    (raw <- readFileSync [file] ;;
     let customModules := Js.trim raw in
     when_ (Js.truthy customModules)
       (set_modules customModules file ;;
        log Plain (tag ++ " Using modules from: " ++ file)%string))
    (fun _ => ret tt (* Ignore, use default *)).

(** The statements of the script before [main] is called (lines 50 to 111). *)
Definition toplevel (env_MODULES : option string) : M Globals unit :=
  fs0 <- get_fs ;;
  let autoModuleFiles := autoModuleFiles fs0 in
  (match autoModuleFiles with
   | latestModuleFile :: _ =>
       when_ (negb (Js.env_truthy env_MODULES)) (use_module_file latestModuleFile "[AUTO]")
   | [] => ret tt
   end) ;;
  (* Check for custom-modules.txt (manual override) *)
  when_ (Fs.existsSync fs0 ["custom-modules.txt"] && negb (Js.env_truthy env_MODULES))
    (use_module_file "custom-modules.txt" "[CUSTOM]") ;;
  (* Allow environment variable override (highest priority) *)
  when_ (Js.env_truthy env_MODULES)
    (set_modules (match env_MODULES with Some m => m | None => EmptyString end)
                 "environment variable" ;;
     log Plain "[ENV] Using modules from environment variable") ;;
  (* const colors = { ... } *)
  modify_globals (fun g =>
    {| MODULES := MODULES g; modulesSource := modulesSource g; colors_ready := true |}).

(** The module list a file offers: its trimmed content, when the file can
    be read and the trimmed content is not empty. *)
Definition file_modules (fs : Fs.t) (file : string) : option string :=
  match Fs.lookup [file] fs with
  | Some (Fs.File _ _ data) =>
      if Js.truthy (Js.trim data) then Some (Js.trim data) else None
  | _ => None
  end.

(** The precedence of the specification, for comparison with [toplevel]:
    override, then custom-modules.txt, then the most recently modified
    *-modules.txt file, then the default.  The result is the pair of
    [MODULES] and [modulesSource]. *)
Definition resolve_modules (env_MODULES : option string) (fs : Fs.t) : string * string :=
  match env_MODULES with
  | Some m =>
      if Js.truthy m then (m, "environment variable")
      else match file_modules fs "custom-modules.txt", autoModuleFiles fs with
           | Some c, _ => (c, "custom-modules.txt")
           | None, latest :: _ =>
               match file_modules fs latest with
               | Some a => (a, latest)
               | None => (DEFAULT_MODULES, "default")
               end
           | None, [] => (DEFAULT_MODULES, "default")
           end
  | None =>
      match file_modules fs "custom-modules.txt", autoModuleFiles fs with
      | Some c, _ => (c, "custom-modules.txt")
      | None, latest :: _ =>
          match file_modules fs latest with
          | Some a => (a, latest)
          | None => (DEFAULT_MODULES, "default")
          end
      | None, [] => (DEFAULT_MODULES, "default")
      end
  end.

Record SpawnResult := {
  error : option Exn;
  status : option Z;
  stderr : string
}.

Section Builder.
(** The external linking tool: its result and what it leaves on disk. *)
Variable spawnSync : Fs.Path -> list string -> Fs.t -> SpawnResult * Fs.t.
Variable JDK_VERSION : string.

Definition jlinkPaths (jdkPath : Fs.Path) : list Fs.Path :=
  [ jdkPath ++ ["bin"; "jlink"];
    jdkPath ++ ["bin"; "jlink.exe"];
    jdkPath ++ ["Contents"; "Home"; "bin"; "jlink"] ].

(** [checkJdk(platform, jdkPath)]. *)
Definition checkJdk (platform : string) (jdkPath : Fs.Path) : M Globals bool :=
  fs0 <- get_fs ;;
  if negb (Fs.existsSync fs0 jdkPath) then
    log Failure ("JDK not found at: " ++ Fs.show jdkPath)%string ;;
    log Info "Please run node download-jdks.js first" ;;
    (* Show what exists in jdk-downloads for debugging *)
    (if Fs.existsSync fs0 JDK_DIR then
       names <- readdirSync JDK_DIR ;;
       let dirs := filter (fun d => Fs.isDirectory fs0 (JDK_DIR ++ [d])) names in
       when_ (Nat.ltb 0 (List.length dirs))
         (log Info ("Available JDK directories: " ++ Js.join ", " dirs)%string)
     else ret tt) ;;
    ret false
  else if negb (existsb (Fs.existsSync fs0) (jlinkPaths jdkPath)) then
    log Failure ("jlink not found in JDK at: " ++ Fs.show jdkPath)%string ;;
    log Info "Checked paths:" ;;
    for_each (jlinkPaths jdkPath) (fun p => log Info ("  - " ++ Fs.show p)%string) ;;
    ret false
  else ret true.

(** [getJlinkPath(jdkPath)]. *)
Definition getJlinkPath (fs : Fs.t) (jdkPath : Fs.Path) : option Fs.Path :=
  find (Fs.existsSync fs) (jlinkPaths jdkPath).

Definition jlink_args (modules : string) (outputPath : Fs.Path) : list string :=
  [ "--add-modules"; modules; "--output"; Fs.show outputPath; "--strip-debug";
    "--compress=2"; "--no-header-files"; "--no-man-pages"; "--strip-native-commands" ].

(** [buildJre(platform, jdkPath, outputName)]. *)
Definition buildJre (platform : string) (jdkPath : Fs.Path) (outputName : string)
    : M Globals bool :=
  log Info ("Building JRE for " ++ platform ++ "...")%string ;;
  fs0 <- get_fs ;;
  match getJlinkPath fs0 jdkPath with
  | None =>
      log Failure ("jlink not found for " ++ platform)%string ;;
      ret false
  | Some jlinkCmd =>
      let outputPath := OUTPUT_DIR ++ [outputName] in
      (* Remove existing output *)
      when_ (Fs.existsSync fs0 outputPath)
        (log Info ("Removing existing JRE: " ++ Fs.show outputPath)%string ;;
         rmSync outputPath) ;;
      g <- get_globals ;;
      let args := jlink_args (MODULES g) outputPath in
      log Info "Running jlink..." ;;
      try_catch
        ((* Run jlink *)
         emit (SpawnSync jlinkCmd args) ;;
         fs1 <- get_fs ;;
         let '(result, fs2) := spawnSync jlinkCmd args fs1 in
         modify_fs (fun _ => fs2) ;;
         match error result with
         | Some e => throw e
         | None =>
             if negb (match status result with Some 0%Z => true | _ => false end) then
               log Failure "jlink failed" ;;
               when_ (Js.truthy (stderr result))
                 (log Failure ("stderr: " ++ stderr result)%string) ;;
               ret false
             else if negb (Fs.existsSync fs2 outputPath) then
               (* Check if output directory was created *)
               log Failure "JRE build failed - output directory not created" ;;
               ret false
             else
               log_sized Success ("Built " ++ platform ++ " JRE")%string
                         (Fs.tree_size fs2 outputPath) ;;
               ret true
         end)
        (fun e =>
           log Failure ("jlink failed for " ++ platform ++ ": " ++ message e)%string ;;
           ret false)
  end.

(** [findJdkPath(platform, archVariants)]. *)
Definition jdk_dir (suffix : string) : Fs.Path :=
  JDK_DIR ++ [("jdk-" ++ JDK_VERSION ++ "-" ++ suffix)%string].

Definition findJdkPath (fs : Fs.t) (platform : string) (archVariants : list string)
    : Fs.Path :=
  if Fs.existsSync fs (jdk_dir platform) then jdk_dir platform
  else match find (fun v => Fs.existsSync fs (jdk_dir v)) archVariants with
       | Some v => jdk_dir v
       | None => jdk_dir platform
       end.

(** macOS has Contents/Home structure. *)
Definition macos_home (fs : Fs.t) (jdkPath : Fs.Path) : Fs.Path :=
  let homePath := jdkPath ++ ["Contents"; "Home"] in
  if Fs.existsSync fs homePath then homePath else jdkPath.

Definition build_with (title name outputName : string)
    (locate : Fs.t -> Fs.Path) : M Globals bool :=
  log Header title ;;
  fs0 <- get_fs ;;
  let jdkPath := locate fs0 in
  ok <- checkJdk name jdkPath ;;
  if negb ok then ret false else buildJre name jdkPath outputName.

Definition buildWindowsX64 : M Globals bool :=
  build_with "Building Windows x64 JRE" "Windows x64" "jre-win-x64"
    (fun fs => findJdkPath fs "windows-x64" []).

Definition buildWindowsARM64 : M Globals bool :=
  build_with "Building Windows ARM64 JRE" "Windows ARM64" "jre-win-arm64"
    (fun fs => findJdkPath fs "windows-arm64" []).

Definition buildMacOSX64 : M Globals bool :=
  build_with "Building macOS x64 JRE" "macOS x64" "jre-mac-x64"
    (fun fs => macos_home fs (jdk_dir "macos-x64")).

Definition buildMacOSARM64 : M Globals bool :=
  build_with "Building macOS ARM64 (Apple Silicon) JRE" "macOS ARM64" "jre-mac-arm64"
    (fun fs => macos_home fs (findJdkPath fs "macos-arm64" ["macos-aarch64"])).

Definition buildLinuxX64 : M Globals bool :=
  build_with "Building Linux x64 JRE" "Linux x64" "jre-linux-x64"
    (fun _ => jdk_dir "linux-x64").

Definition buildLinuxARM64 : M Globals bool :=
  build_with "Building Linux ARM64 JRE" "Linux ARM64" "jre-linux-arm64"
    (fun fs => findJdkPath fs "linux-arm64" ["linux-aarch64"]).

(** [checkPrerequisites()]. *)
Definition checkPrerequisites : M Globals bool :=
  log Header "Checking Prerequisites" ;;
  b <- existsSync JDK_DIR ;;
  if negb b then
    log Failure ("JDK directory not found: " ++ Fs.show JDK_DIR)%string ;;
    log Info "Please run node download-jdks.js first" ;;
    ret false
  else
    log Success "All prerequisites met" ;; ret true.

Record Builder := {
  name : string;
  fn : M Globals bool
}.

Definition builders : list (string * Builder) :=
  [ ("windows-x64", {| name := "Windows x64"; fn := buildWindowsX64 |});
    ("windows-arm64", {| name := "Windows ARM64"; fn := buildWindowsARM64 |});
    ("macos-x64", {| name := "macOS x64"; fn := buildMacOSX64 |});
    ("macos-arm64", {| name := "macOS ARM64"; fn := buildMacOSARM64 |});
    ("linux-x64", {| name := "Linux x64"; fn := buildLinuxX64 |});
    ("linux-arm64", {| name := "Linux ARM64"; fn := buildLinuxARM64 |}) ].

(** The loop over [Object.entries(builders)] of the all-platforms branch. *)
Fixpoint build_all (bs : list (string * Builder)) (results : list (string * bool))
    : M Globals (list (string * bool)) :=
  match bs with
  | [] => ret results
  | (_, b) :: bs' =>
      r <- try_catch (fn b)
             (fun e =>
                log Failure ("Failed to build " ++ name b ++ ": " ++ message e)%string ;;
                ret false) ;;
      build_all bs' (Js.obj_set (name b) r results)
  end.

Definition show_sizes : M Globals unit :=
  fs0 <- get_fs ;;
  when_ (Fs.existsSync fs0 OUTPUT_DIR)
    (dirs <- readdirSync OUTPUT_DIR ;;
     for_each (Js.sort dirs) (fun dir =>
       when_ (Fs.isDirectory fs0 (OUTPUT_DIR ++ [dir]))
         (log_sized Success dir (Fs.tree_size fs0 (OUTPUT_DIR ++ [dir]))))).

(** [main()]; [argv2] is [process.argv[2]] when [process.argv.length > 2]. *)
Definition main (argv2 : option string) : M Globals unit :=
  log Header "Custom JRE Builder for Aspose.Words" ;;
  ok <- checkPrerequisites ;;
  if negb ok then exit 1%Z
  else
    ensureDir OUTPUT_DIR ;;
    g <- get_globals ;;
    log Info ("JDK Version: " ++ JDK_VERSION)%string ;;
    log Info ("Modules: " ++ MODULES g)%string ;;
    log Info ("Output Directory: " ++ Fs.show OUTPUT_DIR)%string ;;
    match argv2 with
    | Some platform =>
        log Info ("Building for specific platform: " ++ platform)%string ;;
        match Js.assoc platform builders with
        | None =>
            log Failure ("Unknown platform: " ++ platform)%string ;;
            log Info ("Available platforms: " ++ Js.join ", " (map fst builders))%string ;;
            exit 1%Z
        | Some b =>
            success <- fn b ;;
            exit (if success : bool then 0%Z else 1%Z)
        end
    | None =>
        log Info "Building for all platforms..." ;;
        (* Build all *)
        results <- build_all builders [] ;;
        (* Summary *)
        log Header "Build Summary" ;;
        for_each results (fun r => read_colors ;; emit (Summary (fst r) (snd r))) ;;
        show_sizes ;;
        let successCount := List.length (filter snd results) in
        let totalCount := List.length results in
        log Success ("Build complete! " ++ Js.show_nat successCount ++ "/"
                       ++ Js.show_nat totalCount ++ " platforms built successfully")%string ;;
        exit (if Nat.eqb successCount totalCount then 0%Z else 1%Z)
    end.
End Builder.

(** Number of runs of the external tool in a trace. *)
Definition spawn_count (tr : list Event) : nat :=
  List.length (filter (fun ev => match ev with SpawnSync _ _ => true | _ => false end) tr).

(** [checkJdk] throws: the JDK is missing, and the downloads path, listed
    for the hint, exists and is not a directory. *)
Definition checkJdk_throws (fs0 : Fs.t) (jdkPath : Fs.Path) : bool :=
  negb (Fs.existsSync fs0 jdkPath)
  && Fs.existsSync fs0 JDK_DIR && negb (Fs.isDirectory fs0 JDK_DIR).

(** The listing of the output directory after the summary throws: the
    path exists and is not a directory. *)
Definition output_listing_fails (fs0 : Fs.t) : bool :=
  Fs.existsSync fs0 OUTPUT_DIR && negb (Fs.isDirectory fs0 OUTPUT_DIR).

(** The entry-point binary of a runtime image, for either platform family. *)
Definition entry_point_present (fs : Fs.t) (image : Fs.Path) : bool :=
  Fs.existsSync fs (image ++ ["bin"; "java"])
  || Fs.existsSync fs (image ++ ["bin"; "java.exe"]).

(** The caching contract of the specification, for one call of the link
    step: with a valid image at the destination, the tool is not run and the
    file system is left as it is. *)
Definition cache_respected
    (spawnSync : Fs.Path -> list string -> Fs.t -> SpawnResult * Fs.t)
    (platform : string) (jdkPath : Fs.Path) (outputName : string) (w : W) : Prop :=
  entry_point_present (fs w) (OUTPUT_DIR ++ [outputName]) = true ->
  spawn_count (trace (snd (buildJre spawnSync platform jdkPath outputName w)))
  = spawn_count (trace w)
  /\ fs (snd (buildJre spawnSync platform jdkPath outputName w)) = fs w.

(** The validation of the specification, for one call of the link step: a
    build reported as successful has its entry-point binary. *)
Definition entry_point_verified
    (spawnSync : Fs.Path -> list string -> Fs.t -> SpawnResult * Fs.t)
    (platform : string) (jdkPath : Fs.Path) (outputName : string) (w : W) : Prop :=
  fst (buildJre spawnSync platform jdkPath outputName w) = Ok true ->
  entry_point_present (fs (snd (buildJre spawnSync platform jdkPath outputName w)))
                      (OUTPUT_DIR ++ [outputName]) = true.

(** The steps of the all-platforms batch, named as in the summary. *)
Definition batch_of (bs : list (string * Builder)) : list (string * M Globals bool) :=
  map (fun kb => (name (snd kb), fn (snd kb))) bs.

(** The invariant under which [main] runs: [colors] is initialised. *)
Definition ready (g : Globals) : Prop := colors_ready g = true.

Definition initial_globals : Globals :=
  {| MODULES := DEFAULT_MODULES; modulesSource := "default"; colors_ready := false |}.

(** The whole script on a file system: the top-level statements, then
    [main().catch(...)].  An exception that escapes the top level ends the
    process with status 1 before [main] is reached. *)
Definition script (spawnSync : Fs.Path -> list string -> Fs.t -> SpawnResult * Fs.t)
    (env_JDK_VERSION env_MODULES argv2 : option string) (fs0 : Fs.t)
    : option Z * W :=
  let JDK_VERSION := select_JDK_VERSION env_JDK_VERSION fs0 in
  match toplevel env_MODULES (mkWorld fs0 initial_globals []) with
  | (Ok _, w1) =>
      match main spawnSync JDK_VERSION argv2 w1 with
      | (Ok _, w2) => (Some 0%Z, w2)
      | (Throw e, w2) =>
          (Some 1%Z,
           mkWorld (fs w2) (globals w2)
             (trace w2 ++ [Log Failure ("Unexpected error: " ++ message e)%string]))
      | (Exit c, w2) => (Some c, w2)
      | (OutOfFuel, w2) => (None, w2)
      end
  | (Throw e, w1) => (Some 1%Z, w1)
  | (Exit c, w1) => (Some c, w1)
  | (OutOfFuel, w1) => (None, w1)
  end.

End BuildJre.

(** ** create-portable.js *)
Module CreatePortable.
Import Eff.
Local Open Scope eff_scope.

Definition VERSION : string := "1.0.0".
Definition OUTPUT_DIR : Fs.Path := ["portable-releases"].
Definition JRE_DIR : Fs.Path := ["jre-builds"].
Definition JARS_DIR : Fs.Path := ["jars"].

(** [findJarFiles()]. *)
Definition findJarFiles (fs : Fs.t) : list Fs.Path :=
  if negb (Fs.existsSync fs JARS_DIR) then []
  else map (fun f => JARS_DIR ++ [f])
           (filter (fun f => Js.endsWith f ".jar") (Fs.readdirSync fs JARS_DIR)).

Definition basename (p : Fs.Path) : string := last p EmptyString.

Inductive ArchiveKind := ZipArchive | TarGzArchive.

Section Packager.
(** The archiver library: an error, or the number of bytes written. *)
Variable archiver : ArchiveKind -> Fs.Path -> Fs.t -> Exn + N.
(** [JAR_FILES], found once when the script is loaded. *)
Variable JAR_FILES : list Fs.Path.

(** [copyDirectory(src, dest)]; reading a missing directory throws. *)
Definition copyDirectory (src dest : Fs.Path) : M unit unit :=
  ensureDir dest ;;
  fs0 <- get_fs ;;
  if Fs.isDirectory fs0 src
  then modify_fs (fun fs => fold_left (fun acc e => Fs.set (fst e) (snd e) acc)
                                      (Fs.tree_copy src dest fs0) fs)
  else throw (FsError "ENOTDIR" src).

(** [fs.copyFileSync(src, dest)]. *)
Definition copyFileSync (src dest : Fs.Path) : M unit unit :=
  fs0 <- get_fs ;;
  match Fs.lookup src fs0 with
  | Some (Fs.File sz m d) => modify_fs (Fs.set dest (Fs.File sz m d))
  | Some Fs.Dir => throw (FsError "EISDIR" src)
  | None => throw (FsError "ENOENT" src)
  end.

(** The launcher and the README; their text is abbreviated to the one
    part that depends on the inputs, the name of the first JAR. *)
Definition createLauncher (platform : string) (pkgDir : Fs.Path) : M unit unit :=
  let file := if String.eqb platform "windows" then "launch.bat" else "launch.sh" in
  let first := match JAR_FILES with j :: _ => basename j | [] => "undefined" end in
  modify_fs (Fs.set (pkgDir ++ [file]) (Fs.File 0 0 ("-jar " ++ first)%string)) ;;
  emit (Log Info ("Created launcher: " ++ file)%string).

Definition createReadme (platform : string) (pkgDir : Fs.Path) : M unit unit :=
  modify_fs (Fs.set (pkgDir ++ ["README.txt"])
                    (Fs.File 0 0 "Aspose.Words Portable Edition")) ;;
  emit (Log Info "Created README: README.txt").

(** [createZipArchive(pkgDir)] and [createTarGzArchive(pkgDir)]. *)
Definition createArchive (k : ArchiveKind) (pkgDir : Fs.Path) : M unit Fs.Path :=
  let ext := match k with ZipArchive => ".zip" | TarGzArchive => ".tar.gz" end in
  let archivePath := removelast pkgDir ++ [(basename pkgDir ++ ext)%string] in
  modify_fs (Fs.set archivePath (Fs.File 0 0 EmptyString)) ;;
  fs0 <- get_fs ;;
  match archiver k pkgDir fs0 with
  | inl e => throw e
  | inr bytes =>
      modify_fs (Fs.set archivePath (Fs.File bytes 0 EmptyString)) ;;
      ret archivePath
  end.

(** [createPortablePackage(platform, arch, jreName)]. *)
Definition createPortablePackage (platform arch jreName : string) : M unit bool :=
  emit (Log Step ("Building portable package: " ++ platform ++ "-" ++ arch)%string) ;;
  (* Check JRE exists *)
  let jrePath := JRE_DIR ++ [jreName] in
  b <- existsSync jrePath ;;
  if negb b then
    emit (Log Failure ("JRE not found: " ++ Fs.show jrePath)%string) ;;
    emit (Log Info "Please run node build-jre-all-platforms.js first") ;;
    ret false
  else
    (* Check JARs exist *)
    match JAR_FILES with
    | [] =>
        emit (Log Failure ("No JAR files found in: " ++ Fs.show JARS_DIR)%string) ;;
        emit (Log Info "Please add JAR files to the jars/ directory") ;;
        ret false
    | _ =>
        (* Create package directory *)
        let pkgName :=
          ("aspose-words-" ++ VERSION ++ "-" ++ platform ++ "-" ++ arch ++ "-portable")%string in
        let pkgDir := OUTPUT_DIR ++ [pkgName] in
        e <- existsSync pkgDir ;;
        when_ e (rmSync pkgDir) ;;
        ensureDir pkgDir ;;
        (* Copy JRE *)
        emit (Log Info "Copying JRE...") ;;
        copyDirectory jrePath (pkgDir ++ ["jre"]) ;;
        (* Copy JAR files *)
        emit (Log Info "Copying JAR file(s)...") ;;
        for_each JAR_FILES (fun jarFile => copyFileSync jarFile (pkgDir ++ [basename jarFile])) ;;
        createLauncher platform pkgDir ;;
        createReadme platform pkgDir ;;
        fs1 <- get_fs ;;
        emit (LogSized Info "Package size" (Fs.tree_size fs1 pkgDir)) ;;
        (* Create archive *)
        try_catch
          (emit (Log Info "Creating archive...") ;;
           archivePath <-
             createArchive (if String.eqb platform "windows" then ZipArchive else TarGzArchive)
                           pkgDir ;;
           fs2 <- get_fs ;;
           emit (LogSized Success ("Created: " ++ basename archivePath)%string
                          (Fs.size_of fs2 archivePath)) ;;
           ret true)
          (fun e =>
             emit (Log Failure ("Failed to create archive: " ++ message e)%string) ;;
             ret false)
    end.

(** [checkPrerequisites()]. *)
Definition checkPrerequisites : M unit bool :=
  emit (Log Header "Checking Prerequisites") ;;
  b <- existsSync JRE_DIR ;;
  when_ (negb b)
    (emit (Log Failure ("JRE directory not found: " ++ Fs.show JRE_DIR)%string) ;;
     emit (Log Info "Please run node build-jre-all-platforms.js first")) ;;
  (match JAR_FILES with
   | [] =>
       emit (Log Failure ("No JAR files found in: " ++ Fs.show JARS_DIR)%string) ;;
       emit (Log Info "Please add JAR files to the jars/ directory")
   | _ =>
       emit (Log Info ("Found JAR file(s): " ++ Js.join ", " (map basename JAR_FILES))%string)
   end) ;;
  let missing := negb b || match JAR_FILES with [] => true | _ => false end in
  if missing then ret false
  else emit (Log Success "All prerequisites met") ;; ret true.

(** Platform configurations. *)
Definition platforms : list (string * string * string) :=
  [ ("windows", "x64", "jre-win-x64");
    ("macos", "x64", "jre-mac-x64");
    ("macos", "arm64", "jre-mac-arm64");
    ("linux", "x64", "jre-linux-x64");
    ("linux", "arm64", "jre-linux-arm64") ].

Definition target_name (p : string * string * string) : string :=
  let '(platform, arch, _) := p in (platform ++ "-" ++ arch)%string.

(** The steps of the all-platforms batch, named as in the summary. *)
Definition batch_of (ps : list (string * string * string)) : list (string * M unit bool) :=
  map (fun p => (target_name p, createPortablePackage (fst (fst p)) (snd (fst p)) (snd p))) ps.

(** The loop of the all-platforms branch. *)
Fixpoint package_all (ps : list (string * string * string))
    (results : list (string * bool)) : M unit (list (string * bool)) :=
  match ps with
  | [] => ret results
  | p :: ps' =>
      let '(platform, arch, jreName) := p in
      let name := target_name p in
      r <- try_catch (createPortablePackage platform arch jreName)
             (fun e =>
                emit (Log Failure ("Failed to create " ++ name ++ ": " ++ message e)%string) ;;
                ret false) ;;
      package_all ps' (Js.obj_set name r results)
  end.

Definition show_archives : M unit unit :=
  fs0 <- get_fs ;;
  names <- readdirSync OUTPUT_DIR ;;
  let archives := filter (fun f => Js.endsWith f ".zip") names
                  ++ filter (fun f => Js.endsWith f ".tar.gz") names in
  for_each (Js.sort archives) (fun archive =>
    emit (LogSized Success archive (Fs.size_of fs0 (OUTPUT_DIR ++ [archive])))).

(** [main()]. *)
Definition main (argv2 : option string) : M unit unit :=
  emit (Log Header "Portable Version Builder for Aspose.Words") ;;
  ok <- checkPrerequisites ;;
  if negb ok then exit 1%Z
  else
    ensureDir OUTPUT_DIR ;;
    match argv2 with
    | Some target =>
        emit (Log Info ("Building for: " ++ target)%string) ;;
        match find (fun p => String.eqb (target_name p) target) platforms with
        | Some (platform, arch, jreName) =>
            success <- createPortablePackage platform arch jreName ;;
            exit (if success : bool then 0%Z else 1%Z)
        | None =>
            emit (Log Failure ("Unknown platform: " ++ target)%string) ;;
            emit (Log Info
              "Available: windows-x64, macos-x64, macos-arm64, linux-x64, linux-arm64") ;;
            exit 1%Z
        end
    | None =>
        emit (Log Info "Building portable versions for all platforms...") ;;
        results <- package_all platforms [] ;;
        emit (Log Header "Build Summary") ;;
        for_each results (fun r => emit (Summary (fst r) (snd r))) ;;
        show_archives ;;
        let successCount := List.length (filter snd results) in
        let totalCount := List.length results in
        emit (Log Success ("Portable versions built: " ++ Js.show_nat successCount ++ "/"
                             ++ Js.show_nat totalCount)%string) ;;
        exit (if Nat.eqb successCount totalCount then 0%Z else 1%Z)
    end.
End Packager.

(** The whole script: [JAR_FILES] is computed when the file is loaded, then
    [main().catch(...)] runs. *)
Definition script (archiver : ArchiveKind -> Fs.Path -> Fs.t -> Exn + N)
    (argv2 : option string) (fs0 : Fs.t) : option Z * World unit :=
  let JAR_FILES := findJarFiles fs0 in
  match main archiver JAR_FILES argv2 (mkWorld fs0 tt []) with
  | (Ok _, w) => (Some 0%Z, w)
  | (Throw e, w) =>
      (Some 1%Z,
       mkWorld (fs w) tt (trace w ++ [Log Failure ("Unexpected error: " ++ message e)%string]))
  | (Exit c, w) => (Some c, w)
  | (OutOfFuel, w) => (None, w)
  end.

End CreatePortable.

(** * Concrete scenarios *)
Module Scenario.
Import Eff.

(** ** A run of the analyzer over three JARs, one of which jdeps rejects *)
Definition posix_join (l : list string) : string := String.concat "/" l.

Definition is_one_of (l : list string) (p : string) : bool := existsb (String.eqb p) l.

Definition jdeps_answers (cmd : string) : option string :=
  if Js.includes cmd "X.jar" then Some "java.base,java.xml
"
  else if Js.includes cmd "Y.jar" then
    if Js.includes cmd "--multi-release" then None else Some " java.base, java.sql"
  else None.

Definition analyzer_host (jdk_installed : bool) : AnalyzeJar.Host :=
  {| AnalyzeJar.win32 := false;
     AnalyzeJar.JAR_INPUT := None;
     AnalyzeJar.env_JDK_VERSION := None;
     AnalyzeJar.env_JAVA_HOME := Some "/opt/jdk";
     AnalyzeJar.script_dir := "/work";
     AnalyzeJar.existsSync :=
       (fun p => is_one_of ["jars"] p
                 || (jdk_installed && is_one_of ["/opt/jdk"; "/opt/jdk/bin/jdeps"] p));
     AnalyzeJar.isFile := (fun _ => false);
     AnalyzeJar.isDirectory := is_one_of ["jars"];
     AnalyzeJar.readdirSync :=
       (fun d => if String.eqb d "jars" then ["X.jar"; "Y.jar"; "Z.jar"; "notes.txt"] else []);
     AnalyzeJar.execSync := jdeps_answers;
     AnalyzeJar.path_join := posix_join;
     AnalyzeJar.path_basename := (fun p => last (Js.split "/" p) EmptyString);
     AnalyzeJar.path_stem := (fun p => hd EmptyString (Js.split "." (last (Js.split "/" p) EmptyString)));
     AnalyzeJar.path_dirname := (fun p => p) |}.

(** ** A downloads directory holding JDK 9 and JDK 17 *)
Definition jdk_tree (name exe : string) : Fs.t :=
  [ (["jdk-downloads"; name], Fs.Dir);
    (["jdk-downloads"; name; "bin"], Fs.Dir);
    (["jdk-downloads"; name; "bin"; exe], Fs.File 20000 0 EmptyString) ].

Definition downloads_fs : Fs.t :=
  [ (["jdk-downloads"], Fs.Dir) ]
  ++ jdk_tree "jdk-9-linux-x64" "jlink"
  ++ jdk_tree "jdk-17-linux-x64" "jlink"
  ++ [ (["jdk-downloads"; "jdk-99.zip"], Fs.File 2000000 0 EmptyString);
       (["jdk-downloads"; "notes"], Fs.Dir) ].

(** ** A project directory with a manual and an analysed module list *)
Definition project_fs : Fs.t :=
  [ (["combined-modules.txt"], Fs.File 18 2000 "java.base,java.sql");
    (["custom-modules.txt"], Fs.File 10 1000 "java.base
");
    (["old-modules.txt"], Fs.File 9 500 "java.xml") ]
  ++ downloads_fs.

(** A jlink that writes a complete image, and one that only creates the
    output directory; both report success. *)
Definition jlink_ok : BuildJre.SpawnResult :=
  {| BuildJre.error := None; BuildJre.status := Some 0%Z; BuildJre.stderr := EmptyString |}.

Definition output_of (args : list string) : Fs.Path :=
  Js.split "/" (nth 3 args EmptyString).

Definition jlink_full (cmd : Fs.Path) (args : list string) (fs : Fs.t)
    : BuildJre.SpawnResult * Fs.t :=
  let out := output_of args in
  (jlink_ok,
   fs ++ [ (out, Fs.Dir); (out ++ ["bin"], Fs.Dir);
           (out ++ ["bin"; "java"], Fs.File 30000 0 EmptyString) ]).

Definition jlink_hollow (cmd : Fs.Path) (args : list string) (fs : Fs.t)
    : BuildJre.SpawnResult * Fs.t :=
  (jlink_ok, fs ++ [ (output_of args, Fs.Dir) ]).

(** The world in which [main] of the JRE build script starts on
    [project_fs], and the JDK used for Linux x64. *)
Definition build_world (fs : Fs.t) : BuildJre.W :=
  mkWorld fs
    {| BuildJre.MODULES := "java.base"; BuildJre.modulesSource := "custom-modules.txt";
       BuildJre.colors_ready := true |} [].

Definition linux_jdk : Fs.Path := ["jdk-downloads"; "jdk-17-linux-x64"].

(** The world after a first link step for Linux x64 with [jlink_full]. *)
Definition after_first_link : BuildJre.W :=
  snd (BuildJre.buildJre jlink_full "Linux x64" linux_jdk "jre-linux-x64"
         (build_world project_fs)).

(** ** A network: one redirect, then a 404, a reset or the archive *)
Definition net (final : DownloadJdks.GetResult) (url : string) : DownloadJdks.GetResult :=
  if Js.startsWith url "https://github.com/"
  then DownloadJdks.GetResponse 302 "Found" (Some "https://objects.example/jdk")
         (DownloadJdks.BodyFinish 0)
  else final.

Definition not_found : DownloadJdks.GetResult :=
  DownloadJdks.GetResponse 404 "Not Found" None (DownloadJdks.BodyFinish 0).

Definition no_extract (archive dir : Fs.Path) (fs : Fs.t) : option Exn * Fs.t :=
  (Some (Error "invalid archive"), fs).

Definition linux_config : DownloadJdks.PlatformConfig :=
  match DownloadJdks.getPlatformConfig "21" with
  | Some ps => match Js.assoc "linux-x64" ps with
               | Some c => c
               | None => DownloadJdks.platform_entry "21"
                           {| DownloadJdks.release := EmptyString;
                              DownloadJdks.version := EmptyString;
                              DownloadJdks.prefix := EmptyString |}
                           EmptyString DownloadJdks.Zip DownloadJdks.jdkPath_direct
               end
  | None => DownloadJdks.platform_entry "21"
              {| DownloadJdks.release := EmptyString; DownloadJdks.version := EmptyString;
                 DownloadJdks.prefix := EmptyString |}
              EmptyString DownloadJdks.Zip DownloadJdks.jdkPath_direct
  end.

(** A downloads directory that already holds the Linux x64 archive. *)
Definition archive_fs : Fs.t :=
  [ (["jdk-downloads"], Fs.Dir);
    (["jdk-downloads"; "OpenJDK21U-jdk_x64_linux_hotspot_21.0.5_11.tar.gz"],
     Fs.File 200000000 0 EmptyString) ].

Definition start (fs : Fs.t) : World unit := mkWorld fs tt [].

(** ** A project ready for packaging: one JRE, one JAR *)
Definition package_fs : Fs.t :=
  (["jre-builds"], Fs.Dir) :: fs after_first_link
  ++ [ (["jars"], Fs.Dir); (["jars"; "app.jar"], Fs.File 5000 0 EmptyString) ].

Definition archiver_ok (k : CreatePortable.ArchiveKind) (pkgDir : Fs.Path) (fs : Fs.t)
    : Exn + N := inr 40000%N.

(** A run of the downloader in which every download ends with a 404. *)
Definition failing_download : option Z * World unit :=
  DownloadJdks.script (net not_found) no_extract no_extract None None 5 (start []).

End Scenario.

(** ** Shapes of strings *)
Module Text.

(** The first, respectively last, character exists and is not white space. *)
Definition starts_clean (s : string) : bool :=
  match s with
  | EmptyString => false
  | String c _ => negb (Js.is_ws c)
  end.

Fixpoint ends_clean (s : string) : bool :=
  match s with
  | EmptyString => false
  | String c s' => if Js.is_empty s' then negb (Js.is_ws c) else ends_clean s'
  end.

(** A module name as [analyzeJAR] lets it through: not empty, without
    surrounding white space, not an option, not part of an error message,
    and free of the separator. *)
Definition module_name_ok (m : string) : Prop :=
  Js.truthy m = true
  /\ Js.trim m = m
  /\ Js.startsWith m "-" = false
  /\ Js.includes m "Error" = false
  /\ ~ In Js.comma (list_ascii_of_string m).

End Text.

(** ** Names every JavaScript object inherits *)
Module JsObject.

(** The property names of [Object.prototype].  Looking one of them up in a
    plain object finds the inherited value; the association lists of [Js]
    hold own properties only, so statements about an arbitrary key exclude
    these names. *)
Definition inherited : list string :=
  [ "constructor"; "__proto__"; "hasOwnProperty"; "isPrototypeOf";
    "propertyIsEnumerable"; "toLocaleString"; "toString"; "valueOf";
    "__defineGetter__"; "__defineSetter__"; "__lookupGetter__"; "__lookupSetter__" ].

End JsObject.

(** ** Further scenarios *)
Module Cases.
Import Eff.

(** The working directory after the analyzer of [Scenario] has run. *)
Definition handoff_fs : Fs.t :=
  [ (["combined-modules.txt"], Fs.File 27 2000 "java.base,java.sql,java.xml") ].

(** The report of the analyzer run of [Scenario]. *)
Definition analyzer_report : AnalyzeJar.Report :=
  match AnalyzeJar.main (Scenario.analyzer_host true) with
  | inr r => r
  | inl _ =>
      {| AnalyzeJar.jarFiles_of := []; AnalyzeJar.jdkPath_of := None;
         AnalyzeJar.allModules := []; AnalyzeJar.jarResults := [];
         AnalyzeJar.finalModules := []; AnalyzeJar.source := EmptyString;
         AnalyzeJar.outputFile := EmptyString; AnalyzeJar.written := EmptyString;
         AnalyzeJar.console := [] |}
  end.

(** A jlink that exits with status 1. *)
Definition jlink_fails (cmd : Fs.Path) (args : list string) (fs : Fs.t)
    : BuildJre.SpawnResult * Fs.t :=
  ({| BuildJre.error := None; BuildJre.status := Some 1%Z;
      BuildJre.stderr := "Error: Module java.foo not found" |}, fs).

(** The archive is served after the redirect. *)
Definition archive_found : DownloadJdks.GetResult :=
  DownloadJdks.GetResponse 200 "OK" None (DownloadJdks.BodyFinish 5000).

(** A regular file where the downloads directory should be. *)
Definition downloads_file_fs : Fs.t :=
  [ (["jdk-downloads"], Fs.File 0 0 EmptyString) ].

(** A regular file where the final directory of the first target should
    be, and a network that answers 404. *)
Definition blocked_fs : Fs.t :=
  [ (["jdk-downloads"], Fs.Dir);
    (["jdk-downloads"; "jdk-21-windows-x64"], Fs.File 0 0 EmptyString) ].

Definition blocked_download : option Z * Eff.World unit :=
  DownloadJdks.script (Scenario.net Scenario.not_found) Scenario.no_extract
    Scenario.no_extract None None 5 (Scenario.start blocked_fs).

(** A host that refuses the connection: the request fails before the
    write stream has opened its file. *)
Definition refused (_ : string) : DownloadJdks.GetResult :=
  DownloadJdks.GetRequestErrorBeforeOpen "connect ECONNREFUSED".

(** A server that answers every request with a redirect. *)
Definition always_redirect (url : string) : DownloadJdks.GetResult :=
  DownloadJdks.GetResponse 302 "Found" (Some "https://mirror.example/jdk")
    (DownloadJdks.BodyFinish 0).

(** An extraction that unpacks a JDK with its jlink below the target
    directory. *)
Definition extract_jdk (archive dir : Fs.Path) (fs : Fs.t) : option Exn * Fs.t :=
  (None,
   fs ++ [ (dir ++ ["jdk-21.0.5+11"], Fs.Dir);
           (dir ++ ["jdk-21.0.5+11"; "bin"], Fs.Dir);
           (dir ++ ["jdk-21.0.5+11"; "bin"; "jlink"], Fs.File 20000 0 EmptyString) ]).

End Cases.

(** * Properties *)

Example trim_ex : Js.trim "  java.base,java.sql
" = "java.base,java.sql".
Proof. reflexivity. Qed.

Example split_ex : Js.split Js.comma "a,,b" = ["a"; EmptyString; "b"].
Proof. reflexivity. Qed.

Example sort_ex : Js.sort ["base"; "xml"; "sql"] = ["base"; "sql"; "xml"].
Proof. reflexivity. Qed.

Example parseInt_ex : Js.parseInt "017" = 17%N.
Proof. reflexivity. Qed.

Example analyzer_scenario :
  match AnalyzeJar.main (Scenario.analyzer_host true) with
  | inr r =>
      AnalyzeJar.written r = "java.base,java.sql,java.xml"
      /\ AnalyzeJar.outputFile r = "combined-modules.txt"
      /\ map AnalyzeJar.success (AnalyzeJar.jarResults r) = [true; true; false]
  | inl _ => False
  end.
Proof. vm_compute. repeat split. Qed.

(** ** Facts about the JavaScript helpers *)
Module JsFacts.
Import Js.

Lemma arr_includes_In (l : list string) (x : string) :
  arr_includes l x = true <-> In x l.
Proof.
  unfold arr_includes. rewrite existsb_exists. split.
  - intros [y [Hy He]]. apply String.eqb_eq in He. now subst.
  - intros H. exists x. split; [assumption | apply String.eqb_refl].
Qed.

Lemma set_add_In (x y : string) (s : list string) :
  In x (set_add y s) <-> x = y \/ In x s.
Proof.
  unfold set_add. destruct (arr_includes s y) eqn:E.
  - apply arr_includes_In in E. split; [auto | intros [-> | H]; assumption].
  - rewrite in_app_iff. simpl. intuition.
Qed.

Lemma set_add_NoDup (y : string) (s : list string) :
  NoDup s -> NoDup (set_add y s).
Proof.
  intros H. unfold set_add. destruct (arr_includes s y) eqn:E; [assumption |].
  assert (Hn : ~ In y s).
  { intros Hi. apply arr_includes_In in Hi. congruence. }
  clear E. induction H as [| a s Ha Hs IH]; simpl.
  - constructor; [intros [] | constructor].
  - constructor.
    + rewrite in_app_iff. simpl. intros [Hi | [He | []]]; [auto |].
      subst. apply Hn. now left.
    + apply IH. intros Hi. apply Hn. now right.
Qed.

Lemma add_all_In (ms s : list string) (x : string) :
  In x (fold_left (fun s m => set_add m s) ms s) <-> In x ms \/ In x s.
Proof.
  revert s. induction ms as [| m ms IH]; intros s; simpl.
  - intuition.
  - rewrite IH, set_add_In. intuition.
Qed.

Lemma add_all_NoDup (ms s : list string) :
  NoDup s -> NoDup (fold_left (fun s m => set_add m s) ms s).
Proof.
  revert s. induction ms as [| m ms IH]; intros s H; simpl; [assumption |].
  apply IH, set_add_NoDup, H.
Qed.

Lemma insert_str_In (x y : string) (l : list string) :
  In y (insert_str x l) <-> y = x \/ In y l.
Proof.
  induction l as [| z l IH]; simpl.
  - intuition.
  - destruct (String.leb x z); simpl; [intuition |]. rewrite IH. intuition.
Qed.

Lemma sort_In (l : list string) (x : string) : In x (sort l) <-> In x l.
Proof.
  induction l as [| y l IH]; simpl; [reflexivity |].
  rewrite insert_str_In, IH. intuition.
Qed.

Lemma insert_str_NoDup (x : string) (l : list string) :
  ~ In x l -> NoDup l -> NoDup (insert_str x l).
Proof.
  induction l as [| z l IH]; simpl; intros Hn Hd.
  - constructor; [intros [] | constructor].
  - destruct (String.leb x z).
    + constructor; [simpl; assumption | assumption].
    + inversion Hd as [| ? ? Hz Hl]; subst. constructor.
      * rewrite insert_str_In. intros [-> | Hi]; [apply Hn; now left | auto].
      * apply IH; [intros Hi; apply Hn; now right | assumption].
Qed.

Lemma sort_NoDup (l : list string) : NoDup l -> NoDup (sort l).
Proof.
  induction 1 as [| x l Hx Hl IH]; simpl; [constructor |].
  apply insert_str_NoDup; [rewrite sort_In; assumption | assumption].
Qed.

Lemma insert_str_Sorted (x : string) (l : list string) :
  Sorted le_str l -> Sorted le_str (insert_str x l).
Proof.
  induction 1 as [| z l Hl IH Hz]; simpl.
  - repeat constructor.
  - destruct (String.leb x z) eqn:E.
    + constructor; [constructor; assumption | constructor; exact E].
    + constructor; [assumption |].
      assert (Hzx : le_str z x).
      { destruct (String.leb_total x z) as [H | H]; [congruence | exact H]. }
      destruct l as [| u l]; simpl.
      * constructor; exact Hzx.
      * destruct (String.leb x u); constructor;
          [exact Hzx | inversion Hz; assumption].
Qed.

Lemma sort_Sorted (l : list string) : Sorted le_str (sort l).
Proof.
  induction l as [| x l IH]; simpl; [constructor | apply insert_str_Sorted, IH].
Qed.

Lemma substring_all (s : string) : substring 0 (String.length s) s = s.
Proof. induction s as [| c s IH]; simpl; [reflexivity | now rewrite IH]. Qed.

Lemma substring_skip (a b : string) :
  substring (String.length a) (String.length b) (a ++ b) = b.
Proof. induction a as [| c a IH]; simpl; [apply substring_all | exact IH]. Qed.

Lemma string_length_app (a b : string) :
  String.length (a ++ b) = String.length a + String.length b.
Proof. induction a as [| c a IH]; simpl; [reflexivity | now rewrite IH]. Qed.

End JsFacts.

(** ** Facts about the file system *)
Module FsFacts.

Lemma path_eqb_refl (p : Fs.Path) : Fs.path_eqb p p = true.
Proof. induction p as [| x p IH]; simpl; [reflexivity |]. now rewrite String.eqb_refl. Qed.

Lemma is_under_refl (p : Fs.Path) : Fs.is_under p p = true.
Proof. induction p as [| x p IH]; simpl; [reflexivity |]. now rewrite String.eqb_refl. Qed.

Lemma path_eqb_eq (p q : Fs.Path) : Fs.path_eqb p q = true <-> p = q.
Proof.
  revert q. induction p as [| x p IH]; intros [| y q]; simpl; split; intros H;
    try reflexivity; try discriminate.
  - apply andb_true_iff in H as [Hx Hp]. apply String.eqb_eq in Hx. apply IH in Hp.
    now subst.
  - injection H as -> ->. now rewrite String.eqb_refl, path_eqb_refl.
Qed.

Lemma lookup_rmSync_under (p q : Fs.Path) (fs0 : Fs.t) :
  Fs.is_under p q = true -> Fs.lookup q (Fs.rmSync p fs0) = None.
Proof.
  intros Hu. induction fs0 as [| [r n] fs0 IH]; simpl; [reflexivity |].
  destruct (Fs.is_under p r) eqn:E; simpl; [exact IH |].
  destruct (Fs.path_eqb q r) eqn:Eq; [| exact IH].
  apply path_eqb_eq in Eq. subst. congruence.
Qed.

Lemma lookup_set_same (p : Fs.Path) (n : Fs.Node) (fs0 : Fs.t) :
  Fs.lookup p (Fs.set p n fs0) = Some n.
Proof.
  induction fs0 as [| [q m] fs0 IH]; simpl.
  - now rewrite path_eqb_refl.
  - destruct (Fs.path_eqb p q) eqn:E; simpl; rewrite E; [reflexivity | exact IH].
Qed.

Lemma lookup_remove_same (p : Fs.Path) (fs0 : Fs.t) :
  Fs.lookup p (Fs.remove p fs0) = None.
Proof.
  induction fs0 as [| [q m] fs0 IH]; simpl; [reflexivity |].
  destruct (Fs.path_eqb p q) eqn:E; simpl; [exact IH | now rewrite E].
Qed.

Lemma exists_after_create (p : Fs.Path) (n : Fs.Node) (fs0 : Fs.t) :
  Fs.existsSync (Fs.set p n fs0) p = true.
Proof. unfold Fs.existsSync. now rewrite lookup_set_same. Qed.

Lemma gone_after_remove (p : Fs.Path) (fs0 : Fs.t) :
  Fs.existsSync (Fs.remove p fs0) p = false.
Proof. unfold Fs.existsSync. now rewrite lookup_remove_same. Qed.

Lemma lookup_rmSync_outside (p q : Fs.Path) (fs0 : Fs.t) :
  Fs.is_under p q = false -> Fs.lookup q (Fs.rmSync p fs0) = Fs.lookup q fs0.
Proof.
  intros Hu. induction fs0 as [| [r n] fs0 IH]; simpl; [reflexivity |].
  destruct (Fs.is_under p r) eqn:E; simpl.
  - destruct (Fs.path_eqb q r) eqn:Eq; [| exact IH].
    apply path_eqb_eq in Eq. subst. congruence.
  - now rewrite IH.
Qed.

Lemma lookup_app_some (p : Fs.Path) (n : Fs.Node) (fs0 l : Fs.t) :
  Fs.lookup p fs0 = Some n -> Fs.lookup p (fs0 ++ l) = Some n.
Proof.
  induction fs0 as [| [q m] fs0 IH]; simpl; [discriminate |].
  destruct (Fs.path_eqb p q); auto.
Qed.

Lemma path_eqb_neq (p q : Fs.Path) : p <> q -> Fs.path_eqb p q = false.
Proof.
  intros H. destruct (Fs.path_eqb p q) eqn:E; [| reflexivity].
  apply path_eqb_eq in E. now elim H.
Qed.

Lemma lookup_set_other (p q : Fs.Path) (n : Fs.Node) (fs0 : Fs.t) :
  p <> q -> Fs.lookup p (Fs.set q n fs0) = Fs.lookup p fs0.
Proof.
  intros H. induction fs0 as [| [q' m] fs0 IH]; simpl.
  - now rewrite (path_eqb_neq p q H).
  - destruct (Fs.path_eqb q q') eqn:E; simpl.
    + apply path_eqb_eq in E. subst q'. now rewrite (path_eqb_neq p q H).
    + destruct (Fs.path_eqb p q'); [reflexivity | exact IH].
Qed.

Lemma strip_under (src q : Fs.Path) :
  Fs.is_under src q = true -> exists r, Fs.strip src q = Some r /\ q = src ++ r.
Proof.
  revert q. induction src as [| x src IH]; intros q; simpl; [eauto |].
  destruct q as [| y q]; [discriminate |]. intros H.
  apply andb_true_iff in H. destruct H as [Hx H]. rewrite Hx.
  apply String.eqb_eq in Hx. subst y.
  destruct (IH q H) as [r [Hs ->]]. eauto.
Qed.

Lemma tree_copy_paths (src dst : Fs.Path) (fs0 : Fs.t) (e : Fs.Path * Fs.Node) :
  In e (Fs.tree_copy src dst fs0) -> exists r, fst e = dst ++ r.
Proof.
  unfold Fs.tree_copy. intros H. apply in_map_iff in H. destruct H as [e0 [<- H]].
  apply filter_In in H. destruct H as [_ H].
  destruct (strip_under src (fst e0) H) as [r [Hs _]].
  unfold Fs.reroot. rewrite Hs. cbn [fst]. eauto.
Qed.

Lemma lookup_fold_set_other (l : list (Fs.Path * Fs.Node)) (fs0 : Fs.t) (p : Fs.Path) :
  (forall e, In e l -> fst e <> p) ->
  Fs.lookup p (fold_left (fun acc e => Fs.set (fst e) (snd e) acc) l fs0) = Fs.lookup p fs0.
Proof.
  revert fs0. induction l as [| e l IH]; intros fs0 H; simpl; [reflexivity |].
  rewrite IH by (intros e' He'; apply H; now right).
  apply lookup_set_other. apply not_eq_sym, H. now left.
Qed.

Lemma lookup_mkdir_from_some (rest base : Fs.Path) (fs0 : Fs.t) (p : Fs.Path)
    (n : Fs.Node) :
  Fs.lookup p fs0 = Some n -> Fs.lookup p (Fs.mkdir_from base rest fs0) = Some n.
Proof.
  revert base fs0. induction rest as [| x rest IH]; intros base fs0 H; simpl; [exact H |].
  apply IH. destruct (Fs.existsSync fs0 (base ++ [x])); [exact H |].
  now apply lookup_app_some.
Qed.

Lemma lookup_app_none (p : Fs.Path) (fs0 l : Fs.t) :
  Fs.lookup p fs0 = None -> Fs.lookup p (fs0 ++ l) = Fs.lookup p l.
Proof.
  induction fs0 as [| [q m] fs0 IH]; simpl; [reflexivity |].
  destruct (Fs.path_eqb p q); [discriminate | exact IH].
Qed.

Lemma readdirSync_cases {G : Type} (d : Fs.Path) (w : Eff.World G) :
  d <> [] ->
  Eff.readdirSync d w
  = match Fs.lookup d (Eff.fs w) with
    | Some Fs.Dir => (Eff.Ok (Fs.readdirSync (Eff.fs w) d), w)
    | Some (Fs.File _ _ _) => (Eff.Throw (Eff.FsError "ENOTDIR" d), w)
    | None => (Eff.Throw (Eff.FsError "ENOENT" d), w)
    end.
Proof.
  intros Hd. destruct d; [congruence |]. unfold Eff.readdirSync.
  now destruct (Fs.lookup _ _) as [[|] |].
Qed.

End FsFacts.

(** ** The analyzer *)
Module AnalyzeJarSpec.
Import AnalyzeJar.

Section WithHost.
Variable h : Host.

Lemma analyzeJAR_nonempty (jarFile jdk : string) (ms : list string) :
  analyzeJAR h jarFile jdk = Some ms -> ms <> [].
Proof.
  unfold analyzeJAR.
  destruct (match execSync h _ with Some _ => _ | None => _ end) as [out |];
    [| discriminate].
  destruct (_ || _); [discriminate |].
  destruct (filter _ _); [discriminate |].
  intros H. injection H as <-. discriminate.
Qed.

Lemma analyze_step_results (jdk : string) (a : Acc) (jarFile : string) :
  acc_results (analyze_step h jdk a jarFile) = acc_results a ++ [result_of h jdk jarFile].
Proof.
  unfold analyze_step, result_of.
  destruct (analyzeJAR h jarFile jdk) as [ms |] eqn:E; [| reflexivity].
  destruct ms as [| m ms]; [| reflexivity].
  now apply analyzeJAR_nonempty in E.
Qed.

Lemma analyze_step_set (jdk : string) (a : Acc) (jarFile m : string) :
  In m (acc_set (analyze_step h jdk a jarFile)) <->
  In m (acc_set a) \/ exists ms, analyzeJAR h jarFile jdk = Some ms /\ In m ms.
Proof.
  unfold analyze_step.
  destruct (analyzeJAR h jarFile jdk) as [[| x ms] |]; cbn [acc_set].
  - split; [auto | intros [H | [ms [E H]]]; [assumption |]].
    injection E as <-. destruct H.
  - rewrite (JsFacts.add_all_In (x :: ms)). split.
    + intros [H | H]; [right; eauto | now left].
    + intros [H | [ms' [E H]]]; [now right |]. injection E as <-. now left.
  - split; [auto | intros [H | [ms [E _]]]; [assumption | discriminate]].
Qed.

Lemma analyze_step_NoDup (jdk : string) (a : Acc) (jarFile : string) :
  NoDup (acc_set a) -> NoDup (acc_set (analyze_step h jdk a jarFile)).
Proof.
  intros H. unfold analyze_step.
  destruct (analyzeJAR h jarFile jdk) as [[| x ms] |]; cbn [acc_set]; try assumption.
  now apply (JsFacts.add_all_NoDup (x :: ms)).
Qed.

(** The loop of [main]: results are appended, one per JAR and in order;
    the set grows by the modules of the successful analyses only. *)
Lemma loop_results (jdk : string) (jars : list string) (a : Acc) :
  acc_results (fold_left (analyze_step h jdk) jars a)
  = acc_results a ++ map (result_of h jdk) jars.
Proof.
  revert a. induction jars as [| j jars IH]; intros a; simpl.
  - now rewrite app_nil_r.
  - rewrite IH, analyze_step_results, <- app_assoc. reflexivity.
Qed.

Lemma loop_set (jdk : string) (jars : list string) (a : Acc) (m : string) :
  In m (acc_set (fold_left (analyze_step h jdk) jars a)) <->
  In m (acc_set a)
  \/ exists jarFile ms, In jarFile jars /\ analyzeJAR h jarFile jdk = Some ms /\ In m ms.
Proof.
  revert a. induction jars as [| j jars IH]; intros a; simpl.
  - split; [auto | intros [H | [? [? [[] _]]]]; assumption].
  - rewrite IH, analyze_step_set. split.
    + intros [[H | [ms [E H]]] | [j' [ms [Hj [E H]]]]].
      * now left.
      * right. exists j, ms. auto.
      * right. exists j', ms. auto.
    + intros [H | [j' [ms [[-> | Hj] [E H]]]]].
      * left. now left.
      * left. right. eauto.
      * right. eauto.
Qed.

Lemma loop_NoDup (jdk : string) (jars : list string) (a : Acc) :
  NoDup (acc_set a) -> NoDup (acc_set (fold_left (analyze_step h jdk) jars a)).
Proof.
  revert a. induction jars as [| j jars IH]; intros a H; simpl; [assumption |].
  apply IH, analyze_step_NoDup, H.
Qed.

Lemma loop_out (jdk : string) (jars : list string) (a : Acc) :
  exists extra, acc_out (fold_left (analyze_step h jdk) jars a) = acc_out a ++ extra.
Proof.
  revert a. induction jars as [| j jars IH]; intros a; simpl.
  - exists []. now rewrite app_nil_r.
  - destruct (IH (analyze_step h jdk a j)) as [extra ->].
    unfold analyze_step. destruct (analyzeJAR h j jdk) as [[| x ms] |]; cbn [acc_out];
      rewrite <- app_assoc; eauto.
Qed.

Lemma two_elements {A : Type} (x y : A) (l : list A) :
  In x l -> In y l -> x <> y -> Nat.ltb 1 (List.length l) = true.
Proof.
  destruct l as [| a [| b l]]; simpl; intros Hx Hy Hn; try reflexivity.
  - destruct Hx.
  - destruct Hx as [<- | []], Hy as [<- | []]. now elim Hn.
Qed.

(** C1: when the jar discovery returns [jars], a JDK is found and at least
    one analysis succeeds, the run produces a report whose final module
    list has exactly the modules of the successful analyses, each once,
    in sorted order; the text written to the output file is that list
    joined with commas; and every JAR, failed ones included, has its entry
    in the per-artifact results, a failed one being printed as failed. *)
Theorem combined_module_set (jars : list string) (jdk : string) :
  findJarFiles h (JAR_INPUT h) = inr jars ->
  findJDK h = Some jdk ->
  (exists jarFile ms, In jarFile jars /\ analyzeJAR h jarFile jdk = Some ms) ->
  exists r, main h = inr r
    /\ (forall m, In m (finalModules r) <->
          exists jarFile ms,
            In jarFile jars /\ analyzeJAR h jarFile jdk = Some ms /\ In m ms)
    /\ NoDup (finalModules r)
    /\ Sorted Js.le_str (finalModules r)
    /\ written r = Js.join "," (finalModules r)
    /\ jarResults r = map (result_of h jdk) jars
    /\ (forall jarFile, In jarFile jars -> analyzeJAR h jarFile jdk = None ->
          In {| jar := path_basename h jarFile; modules := []; success := false |}
             (jarResults r)
          /\ In (PerJarFailed (path_basename h jarFile)) (console r)).
Proof.
  intros Hjars Hjdk [j0 [ms0 [Hj0 E0]]].
  unfold main. rewrite Hjars, Hjdk.
  set (a := fold_left (analyze_step h jdk) jars _).
  assert (Hres : acc_results a = map (result_of h jdk) jars).
  { unfold a. now rewrite loop_results. }
  assert (Hset : forall m, In m (acc_set a) <->
            exists jarFile ms,
              In jarFile jars /\ analyzeJAR h jarFile jdk = Some ms /\ In m ms).
  { intros m. unfold a. rewrite loop_set. simpl. intuition. }
  assert (Hnd : NoDup (acc_set a)).
  { unfold a. apply loop_NoDup. constructor. }
  destruct (acc_set a) as [| x s] eqn:Eset.
  { exfalso. destruct ms0 as [| m0 ms0]; [now apply analyzeJAR_nonempty in E0 |].
    apply (proj2 (Hset m0)). exists j0, (m0 :: ms0). simpl. auto. }
  rewrite <- Eset in *. clear Eset x s.
  eexists. split; [reflexivity |]. cbn [finalModules written jarResults console].
  split; [intros m; rewrite JsFacts.sort_In; apply Hset |].
  split; [apply JsFacts.sort_NoDup, Hnd |].
  split; [apply JsFacts.sort_Sorted |].
  split; [reflexivity |].
  split; [exact Hres |].
  intros jf Hjf Ef.
  assert (Hin : In {| jar := path_basename h jf; modules := []; success := false |}
                   (acc_results a)).
  { rewrite Hres. apply in_map_iff. exists jf. split; [| assumption].
    unfold result_of. now rewrite Ef. }
  split; [exact Hin |].
  assert (Hm : Nat.ltb 1 (List.length jars) = true).
  { apply (two_elements j0 jf); [assumption | assumption | congruence]. }
  rewrite Hm. cbn [andb]. apply in_or_app. right. apply in_or_app. left.
  apply in_map_iff. eexists. split; [| exact Hin]. reflexivity.
Qed.

(** C3: when no JDK with jdeps is found, or every analysis fails, the
    module list of the run is the built-in default list, and the text
    written to the output file is that list joined with commas, in its
    defined order. *)
Theorem default_module_set (jars : list string) :
  findJarFiles h (JAR_INPUT h) = inr jars ->
  (findJDK h = None
   \/ exists jdk, findJDK h = Some jdk
                  /\ forall jarFile, In jarFile jars -> analyzeJAR h jarFile jdk = None) ->
  exists r, main h = inr r
    /\ finalModules r = DEFAULT_MODULES
    /\ source r = "default"
    /\ written r
       = "java.base,java.desktop,java.xml,java.logging,java.naming,java.sql,java.management,jdk.unsupported".
Proof.
  intros Hjars Hno. unfold main. rewrite Hjars.
  destruct Hno as [-> | [jdk [-> Hall]]].
  - cbn [acc_set]. eexists. split; [reflexivity |]. repeat split.
  - set (a := fold_left (analyze_step h jdk) jars _).
    assert (Hset : acc_set a = []).
    { destruct (acc_set a) as [| x s] eqn:Eset; [reflexivity |]. exfalso.
      assert (Hx : In x (acc_set a)) by (rewrite Eset; now left).
      unfold a in Hx. apply loop_set in Hx. simpl in Hx.
      destruct Hx as [[] | [jf [ms [Hjf [E _]]]]].
      rewrite (Hall jf Hjf) in E. discriminate. }
    rewrite Hset. eexists. split; [reflexivity |]. repeat split.
Qed.
End WithHost.

(** The run of [Scenario.analyzer_host]: X.jar and Y.jar succeed, Z.jar fails. *)
Lemma combined_module_set_witness :
  exists r, main (Scenario.analyzer_host true) = inr r
            /\ NoDup (finalModules r)
            /\ Sorted Js.le_str (finalModules r)
            /\ written r = Js.join "," (finalModules r).
Proof.
  destruct (combined_module_set (Scenario.analyzer_host true)
              ["jars/X.jar"; "jars/Y.jar"; "jars/Z.jar"] "/opt/jdk")
    as [r [Hr [_ [Hnd [Hs [Hw _]]]]]].
  - reflexivity.
  - reflexivity.
  - exists "jars/X.jar", ["java.base"; "java.xml"]. split; [now left | reflexivity].
  - exists r. repeat split; assumption.
Defined.

(** The same JARs on a host without any JDK. *)
Lemma default_module_set_witness :
  exists r, main (Scenario.analyzer_host false) = inr r
            /\ finalModules r = DEFAULT_MODULES.
Proof.
  destruct (default_module_set (Scenario.analyzer_host false)
              ["jars/X.jar"; "jars/Y.jar"; "jars/Z.jar"])
    as [r [Hr [Hf _]]].
  - reflexivity.
  - left. reflexivity.
  - exists r. split; assumption.
Defined.

End AnalyzeJarSpec.

(** ** The JRE build script: version selection *)
Module VersionSpec.
Import BuildJre.

Section SortByKey.
Context {A : Type} (key : A -> Z).
#[local] Abbreviation cmp := (fun a b : A => (key b - key a)%Z).

Lemma insert_by_In (x y : A) (l : list A) :
  In y (Js.insert_by cmp x l) <-> y = x \/ In y l.
Proof.
  induction l as [| z l IH]; simpl.
  - intuition.
  - destruct (cmp x z <=? 0)%Z; simpl; [intuition |]. rewrite IH. intuition.
Qed.

Lemma sort_by_In (l : list A) (x : A) : In x (Js.sort_by cmp l) <-> In x l.
Proof.
  induction l as [| y l IH]; simpl; [reflexivity |].
  rewrite insert_by_In, IH. intuition.
Qed.

(** A descending sort puts a greatest element first. *)
Lemma sort_by_head (l : list A) :
  match Js.sort_by cmp l with
  | [] => l = []
  | v :: _ => In v l /\ forall x, In x l -> (key x <= key v)%Z
  end.
Proof.
  induction l as [| y l IH]; simpl; [reflexivity |].
  destruct (Js.sort_by cmp l) as [| v s] eqn:E; simpl.
  - subst l. split; [now left |]. intros x [<- | []]. lia.
  - destruct IH as [Hv Hmax]. cbv beta.
    destruct (key v - key y <=? 0)%Z eqn:C.
    + apply Z.leb_le in C. split; [now left |].
      intros x [<- | Hx]; [lia |]. specialize (Hmax x Hx). lia.
    + apply Z.leb_gt in C. split; [now right |].
      intros x [<- | Hx]; [lia | auto].
Qed.
End SortByKey.

Lemma match_jdk_version_some (d v : string) :
  match_jdk_version d = Some v -> Js.startsWith d "jdk-" = true /\ Js.truthy v = true.
Proof.
  unfold match_jdk_version. destruct (Js.startsWith d "jdk-"); [| discriminate].
  destruct (Js.truthy _) eqn:E; [| discriminate].
  intros H. injection H as <-. auto.
Qed.

Lemma versions_In (dirs acc : list string) (v : string) :
  In v (fold_left add_version dirs acc)
  <-> In v acc \/ exists d, In d dirs /\ match_jdk_version d = Some v.
Proof.
  revert acc. induction dirs as [| d dirs IH]; intros acc; simpl.
  - split; [auto | intros [H | [? [[] _]]]; assumption].
  - rewrite IH. unfold add_version. destruct (match_jdk_version d) as [u |] eqn:E.
    + rewrite JsFacts.set_add_In. split.
      * intros [[-> | H] | [d' [Hd H]]]; [right; eauto | now left | right; eauto].
      * intros [H | [d' [[<- | Hd] H]]]; [left; now right | | right; eauto].
        left. left. congruence.
    + split.
      * intros [H | [d' [Hd H]]]; [now left | right; eauto].
      * intros [H | [d' [[<- | Hd] H]]]; [now left | congruence | right; eauto].
Qed.

(** What [detectAvailableJDK] returns, in terms of the directories. *)
Lemma detectAvailableJDK_spec (fs : Fs.t) :
  match detectAvailableJDK fs with
  | None =>
      Fs.existsSync fs JDK_DIR = false
      \/ forall d, In d (jdk_directories fs) -> match_jdk_version d = None
  | Some v =>
      Fs.existsSync fs JDK_DIR = true
      /\ (exists d, In d (jdk_directories fs) /\ match_jdk_version d = Some v)
      /\ forall d u, In d (jdk_directories fs) -> match_jdk_version d = Some u ->
                     (Js.parseInt u <= Js.parseInt v)%N
  end.
Proof.
  unfold detectAvailableJDK. destruct (Fs.existsSync fs JDK_DIR); [| now left]. simpl.
  set (dirs := filter _ (Fs.readdirSync fs JDK_DIR)).
  assert (Hdirs : forall d u, match_jdk_version d = Some u ->
                              (In d dirs <-> In d (jdk_directories fs))).
  { intros d u Hm. apply match_jdk_version_some in Hm as [Hs _].
    unfold dirs, jdk_directories. rewrite !filter_In, Hs, andb_true_r. reflexivity. }
  assert (Hvs : forall v, In v (fold_left add_version dirs []) <->
                          exists d, In d (jdk_directories fs) /\ match_jdk_version d = Some v).
  { intros v. rewrite versions_In. simpl. split.
    - intros [[] | [d [Hd Hm]]]. exists d. split; [| exact Hm].
      now apply (Hdirs d v Hm).
    - intros [d [Hd Hm]]. right. exists d. split; [| exact Hm].
      now apply (Hdirs d v Hm). }
  assert (Hnone : fold_left add_version dirs [] = [] ->
                  forall d, In d (jdk_directories fs) -> match_jdk_version d = None).
  { intros E d Hd. destruct (match_jdk_version d) as [u |] eqn:Hm; [| reflexivity].
    exfalso. assert (Hu : In u []); [| destruct Hu].
    rewrite <- E. apply Hvs. eauto. }
  destruct dirs as [| d0 dirs'] eqn:Edirs.
  { right. apply Hnone. reflexivity. }
  rewrite <- Edirs in *. clear Edirs d0 dirs'.
  pose proof (sort_by_head (fun s => Z.of_N (Js.parseInt s)) (fold_left add_version dirs [])) as Hh.
  cbv zeta in Hh.
  destruct (Js.sort_by _ _) as [| v rest].
  - right. apply Hnone, Hh.
  - destruct Hh as [Hin Hmax]. split; [reflexivity |]. split; [now apply Hvs |].
    intros d u Hd Hm. apply N2Z.inj_le, Hmax, Hvs. eauto.
Qed.

Lemma prefix_split (p d : string) :
  String.prefix p d = true ->
  d = (p ++ substring (String.length p) (String.length d - String.length p) d)%string.
Proof.
  revert d. induction p as [| a p IH]; intros d H; simpl.
  - now rewrite Nat.sub_0_r, JsFacts.substring_all.
  - destruct d as [| b d]; simpl in H; [discriminate |].
    destruct (ascii_dec a b) as [<- | _]; [| discriminate].
    simpl. f_equal. now apply IH.
Qed.

(** A decimal digit, for the pattern and for the notation of numbers. *)
Lemma digit_char (c : ascii) (o : option uint) (u : uint) :
  uint_of_char c o = Some u ->
  Js.is_digit c = true
  /\ exists u',
       o = Some u'
       /\ (forall p, exists q,
              (10 * N.pos p + N.of_nat (nat_of_ascii c - 48))%N = N.pos q
              /\ Pos.of_uint_acc u p = Pos.of_uint_acc u' q)
       /\ ((N.of_nat (nat_of_ascii c - 48) = 0%N /\ Pos.of_uint u = Pos.of_uint u')
           \/ exists q, N.of_nat (nat_of_ascii c - 48) = N.pos q
                        /\ Pos.of_uint u = N.pos (Pos.of_uint_acc u' q)).
Proof.
  destruct o as [u' |]; [| discriminate].
  destruct c as [[] [] [] [] [] [] [] []]; cbn [uint_of_char]; try discriminate;
    intros H; injection H as <-; (split; [reflexivity |]); exists u';
    (split; [reflexivity |]);
    (split;
     [ intros p; eexists; split; [| reflexivity];
       match goal with
       | |- context [N.of_nat ?e] =>
           let k := eval vm_compute in (N.of_nat e) in change (N.of_nat e) with k
       end; lia
     | first [ left; split; reflexivity | right; eexists; split; reflexivity ] ]).
Qed.

Lemma digit_accepted (c : ascii) (u' : uint) :
  Js.is_digit c = true -> exists u, uint_of_char c (Some u') = Some u.
Proof.
  destruct c as [[] [] [] [] [] [] [] []]; cbn; try discriminate; eauto.
Qed.

Lemma digit_range (c : ascii) :
  Js.is_digit c = false <-> nat_of_ascii c < 48 \/ 57 < nat_of_ascii c.
Proof.
  unfold Js.is_digit. cbv zeta.
  destruct (Nat.leb_spec 48 (nat_of_ascii c)), (Nat.leb_spec (nat_of_ascii c) 57);
    cbn; split; intros; try lia; try discriminate; reflexivity.
Qed.

Lemma take_digits_app (v rest : string) (u : uint) :
  NilEmpty.uint_of_string v = Some u ->
  match rest with
  | EmptyString => True
  | String c _ => nat_of_ascii c < 48 \/ 57 < nat_of_ascii c
  end ->
  Js.take_digits (v ++ rest) = v.
Proof.
  revert u. induction v as [| c v IH]; intros u Hu Hrest; simpl.
  - destruct rest as [| c rest]; [reflexivity |]. simpl.
    now rewrite (proj2 (digit_range c) Hrest).
  - simpl in Hu. apply digit_char in Hu as [Hc [u' [Hu' _]]].
    rewrite Hc. f_equal. now apply (IH u').
Qed.

Lemma take_digits_split (s : string) :
  exists (u : uint) (rest : string),
    s = (Js.take_digits s ++ rest)%string
    /\ NilEmpty.uint_of_string (Js.take_digits s) = Some u
    /\ match rest with
       | EmptyString => True
       | String c _ => nat_of_ascii c < 48 \/ 57 < nat_of_ascii c
       end.
Proof.
  induction s as [| c s IH]; simpl.
  - exists Nil, EmptyString. auto.
  - destruct (Js.is_digit c) eqn:Hc.
    + destruct IH as (u' & rest & Hs & Hu & Hrest).
      destruct (digit_accepted c u' Hc) as [u Hcu].
      exists u, rest. simpl. rewrite Hu. split; [now f_equal | auto].
    + exists Nil, (String c s). simpl. split; [reflexivity |]. split; [reflexivity |].
      now apply digit_range.
Qed.

Lemma parseInt_acc_pos (v : string) :
  forall (u : uint) (p : positive),
    NilEmpty.uint_of_string v = Some u ->
    Js.parseInt_acc (N.pos p) v = N.pos (Pos.of_uint_acc u p).
Proof.
  induction v as [| c v IH]; intros u p Hu; simpl in Hu.
  - injection Hu as <-. reflexivity.
  - apply digit_char in Hu as [Hc [u' [Hu' [Hacc _]]]].
    cbn [Js.parseInt_acc]. rewrite Hc.
    destruct (Hacc p) as [q [-> ->]]. now apply IH.
Qed.

(** [parseInt] on a string of digits is the number the string denotes. *)
Lemma parseInt_value (v : string) (u : uint) :
  NilEmpty.uint_of_string v = Some u -> Js.parseInt v = N.of_uint u.
Proof.
  unfold Js.parseInt, N.of_uint. revert u.
  induction v as [| c v IH]; intros u Hu; simpl in Hu.
  - injection Hu as <-. reflexivity.
  - apply digit_char in Hu as [Hc [u' [Hu' [_ Hzero]]]].
    cbn [Js.parseInt_acc]. rewrite Hc. change (10 * 0)%N with 0%N. rewrite N.add_0_l.
    destruct Hzero as [[-> ->] | [q [-> ->]]]; [now apply IH | now apply parseInt_acc_pos].
Qed.

(** The pattern of the code captures the version the name carries. *)
Lemma match_jdk_version_names (d v : string) :
  match_jdk_version d = Some v <-> exists n, names_version d v n.
Proof.
  unfold match_jdk_version, names_version. split.
  - destruct (Js.startsWith d "jdk-") eqn:Hp; [| discriminate].
    apply prefix_split in Hp. cbn [String.length] in Hp.
    destruct (take_digits_split (substring 4 (String.length d - 4) d))
      as (u & rest & Hs & Hu & Hrest).
    destruct (Js.truthy _) eqn:Ht; [| discriminate]. intros H. injection H as <-.
    exists (N.of_uint u), u, rest. split; [| split; [| auto]].
    + rewrite <- Hs. exact Hp.
    + intros E. rewrite E in Ht. discriminate.
  - intros (n & u & rest & -> & Hv & Hu & _ & Hrest).
    cbn [Js.startsWith String.prefix append]. 
    repeat (destruct (ascii_dec _ _) as [_ | N]; [| now elim N]).
    cbn [String.length Nat.sub substring String.prefix].
    rewrite Nat.sub_0_r, JsFacts.substring_all, (take_digits_app v rest u Hu Hrest).
    destruct v; [now elim Hv | reflexivity].
Qed.

Lemma names_version_value (d v : string) (n : N) :
  names_version d v n -> Js.parseInt v = n.
Proof. intros (u & rest & _ & _ & Hu & -> & _). now apply parseInt_value. Qed.


(** The pattern asks for [jdk-] and digits only: a directory [jdk-25] counts. *)
Example version_without_platform_suffix :
  select_JDK_VERSION None
    [ (["jdk-downloads"], Fs.Dir); (["jdk-downloads"; "jdk-25"], Fs.Dir);
      (["jdk-downloads"; "jdk-17-linux-x64"], Fs.Dir) ]
  = "25".
Proof. reflexivity. Qed.

End VersionSpec.

(** ** The JRE build script: module source and link step *)
Module BuildJreSpec.
Import Eff BuildJre FsFacts.

(** Without an override the top-level statements select the module list by
    the precedence of the specification, but print nothing: each notice
    reads [colors] before its declaration, and the exception is swallowed
    by the surrounding [catch]. *)
Lemma toplevel_selects_silently (env_MODULES : option string) (fs0 : Fs.t)
    (tr : list Event) :
  Js.env_truthy env_MODULES = false ->
  toplevel env_MODULES (mkWorld fs0 initial_globals tr)
  = (Ok tt,
     mkWorld fs0
       {| MODULES := fst (resolve_modules env_MODULES fs0);
          modulesSource := snd (resolve_modules env_MODULES fs0);
          colors_ready := true |}
       tr).
Proof.
  intros Henv.
  assert (Hres : resolve_modules env_MODULES fs0
                 = match file_modules fs0 "custom-modules.txt", autoModuleFiles fs0 with
                   | Some c, _ => (c, "custom-modules.txt")
                   | None, latest :: _ =>
                       match file_modules fs0 latest with
                       | Some a => (a, latest)
                       | None => (DEFAULT_MODULES, "default")
                       end
                   | None, [] => (DEFAULT_MODULES, "default")
                   end).
  { unfold resolve_modules. destruct env_MODULES as [m |]; [| reflexivity].
    simpl in Henv. now rewrite Henv. }
  rewrite Hres. clear Hres.
  cbv [toplevel bind get_fs when_ use_module_file try_catch readFileSync ret log read_colors
       get_globals set_modules modify_globals emit throw].
  cbn [fs globals trace]. rewrite Henv. cbn [negb andb].
  rewrite andb_true_r.
  unfold file_modules, Fs.existsSync.
  destruct (autoModuleFiles fs0) as [| latest rest];
    [| destruct (Fs.lookup [latest] fs0) as [[| sz1 mt1 data1] |] eqn:El;
       [| destruct (Js.truthy (Js.trim data1)) eqn:Et1 |]];
    (destruct (Fs.lookup ["custom-modules.txt"] fs0) as [[| sz mt data] |] eqn:Ec;
     [| destruct (Js.truthy (Js.trim data)) eqn:Et |]);
    repeat (progress
              (cbn [fs globals trace colors_ready initial_globals MODULES modulesSource
                    fst snd];
               rewrite ?El, ?Ec, ?Et1, ?Et));
    reflexivity.
Qed.

(** With an override the notice is outside any [try]: the top level ends
    with a ReferenceError after the assignment, nothing is printed. *)
Lemma toplevel_override_throws (m : string) (fs0 : Fs.t) (tr : list Event) :
  Js.truthy m = true ->
  toplevel (Some m) (mkWorld fs0 initial_globals tr)
  = (Throw (ReferenceError "colors"),
     mkWorld fs0
       {| MODULES := m; modulesSource := "environment variable"; colors_ready := false |}
       tr).
Proof.
  intros Hm.
  cbv [toplevel bind get_fs when_ use_module_file try_catch readFileSync ret log read_colors
       get_globals set_modules modify_globals emit throw Js.env_truthy].
  cbn [fs globals trace]. rewrite Hm. cbn [negb andb]. rewrite andb_false_r.
  destruct (autoModuleFiles fs0); reflexivity.
Qed.

(** C2 (failing input): with the MODULES environment variable set to a
    non-empty module list, the script stores the override and then stops
    with exit status 1 on a ReferenceError, before [main] is called: no
    source is logged, no prerequisite is checked and jlink is never run. *)
Theorem modules_override_aborts_script
    (spawnSync : Fs.Path -> list string -> Fs.t -> SpawnResult * Fs.t)
    (env_JDK_VERSION argv2 : option string) (m : string) (fs0 : Fs.t) :
  Js.truthy m = true ->
  script spawnSync env_JDK_VERSION (Some m) argv2 fs0
  = (Some 1%Z,
     mkWorld fs0
       {| MODULES := m; modulesSource := "environment variable"; colors_ready := false |}
       []).
Proof.
  intros Hm. unfold script. rewrite (toplevel_override_throws m fs0 [] Hm). reflexivity.
Qed.

(** The override "java.base,java.xml" on the project of [Scenario]. *)
Lemma modules_override_aborts_script_witness :
  fst (script Scenario.jlink_full None (Some "java.base,java.xml") None Scenario.project_fs)
  = Some 1%Z
  /\ trace (snd (script Scenario.jlink_full None (Some "java.base,java.xml") None
                        Scenario.project_fs)) = [].
Proof.
  rewrite (modules_override_aborts_script Scenario.jlink_full None None
             "java.base,java.xml" Scenario.project_fs); [split; reflexivity | reflexivity].
Defined.

(** Without the override, the same project builds from custom-modules.txt,
    and the trace of the top level is empty. *)
Example project_uses_custom_file :
  toplevel None (mkWorld Scenario.project_fs initial_globals [])
  = (Ok tt,
     mkWorld Scenario.project_fs
       {| MODULES := "java.base"; modulesSource := "custom-modules.txt";
          colors_ready := true |} []).
Proof. reflexivity. Qed.

Ltac run_build :=
  cbv [bind ret throw exit out_of_fuel try_catch emit get_fs modify_fs get_globals
       modify_globals when_ existsSync unlinkSync rmSync ensureDir log log_sized read_colors];
  cbn [fs globals trace].

Lemma spawn_count_app (t1 t2 : list Event) :
  spawn_count (t1 ++ t2) = spawn_count t1 + spawn_count t2.
Proof. unfold spawn_count. now rewrite filter_app, length_app. Qed.

Lemma buildJre_run
    (spawnSync : Fs.Path -> list string -> Fs.t -> SpawnResult * Fs.t)
    (platform : string) (jdkPath : Fs.Path) (outputName : string) (w : W)
    (cmd : Fs.Path) :
  colors_ready (globals w) = true ->
  getJlinkPath (fs w) jdkPath = Some cmd ->
  let outputPath := OUTPUT_DIR ++ [outputName] in
  let args := jlink_args (MODULES (globals w)) outputPath in
  let fs1 := if Fs.existsSync (fs w) outputPath then Fs.rmSync outputPath (fs w) else fs w in
  exists tr',
    buildJre spawnSync platform jdkPath outputName w
    = (Ok (match error (fst (spawnSync cmd args fs1)), status (fst (spawnSync cmd args fs1)) with
           | None, Some 0%Z => Fs.existsSync (snd (spawnSync cmd args fs1)) outputPath
           | _, _ => false
           end),
       mkWorld (snd (spawnSync cmd args fs1)) (globals w) tr')
    /\ spawn_count tr' = S (spawn_count (trace w))
    /\ In (SpawnSync cmd args) tr'.
Proof.
  intros Hc Hj. destruct w as [fs0 g tr]. cbn [fs globals trace] in *.
  cbv zeta. unfold buildJre.
  repeat (progress (run_build; rewrite ?Hc, ?Hj)).
  destruct (Fs.existsSync fs0 (OUTPUT_DIR ++ [outputName])) eqn:Ex;
    repeat (progress (run_build; rewrite ?Hc));
    (destruct (spawnSync cmd _ _) as [res fs2] eqn:Es;
     repeat (progress (run_build; rewrite ?Hc; cbn [fst snd]));
     destruct (error res) as [e |];
     [| destruct (status res) as [[| p | p] |];
        [destruct (Fs.existsSync fs2 (OUTPUT_DIR ++ [outputName])) eqn:Eo | | |];
        try destruct (Js.truthy (stderr res))];
     repeat (progress (run_build; rewrite ?Hc, ?Eo; cbn [fst snd negb]));
     eexists; (split; [reflexivity |]);
     (split; [rewrite !spawn_count_app; cbn; lia | rewrite !in_app_iff; cbn; tauto])).
Qed.

(** C4 (as stated) fails: after a first link step has produced a valid image
    for Linux x64, a second link step runs jlink again. *)
Lemma link_step_cache_counterexample :
  ~ cache_respected Scenario.jlink_full "Linux x64" Scenario.linux_jdk "jre-linux-x64"
      Scenario.after_first_link.
Proof.
  unfold cache_respected. intros H.
  destruct H as [Hc _]; [vm_compute; reflexivity |].
  vm_compute in Hc. discriminate.
Qed.

(** C4 (amended): whenever a jlink binary is found in the JDK, the link step
    leaves no image at the destination before it runs jlink, runs jlink
    exactly once, on the file system without that image, and leaves what
    jlink produced; it does so whether or not a valid image was present. *)
Theorem link_step_always_rebuilds
    (spawnSync : Fs.Path -> list string -> Fs.t -> SpawnResult * Fs.t)
    (platform : string) (jdkPath : Fs.Path) (outputName : string) (w : W)
    (cmd : Fs.Path) :
  colors_ready (globals w) = true ->
  getJlinkPath (fs w) jdkPath = Some cmd ->
  let outputPath := OUTPUT_DIR ++ [outputName] in
  let args := jlink_args (MODULES (globals w)) outputPath in
  let fs1 := if Fs.existsSync (fs w) outputPath then Fs.rmSync outputPath (fs w) else fs w in
  let w' := snd (buildJre spawnSync platform jdkPath outputName w) in
  Fs.existsSync fs1 outputPath = false
  /\ spawn_count (trace w') = S (spawn_count (trace w))
  /\ In (SpawnSync cmd args) (trace w')
  /\ fs w' = snd (spawnSync cmd args fs1).
Proof.
  intros Hc Hj outputPath args fs1 w'.
  destruct (buildJre_run spawnSync platform jdkPath outputName w cmd Hc Hj)
    as [tr' [Hrun [Hn Hin]]].
  subst w'. rewrite Hrun. cbn [snd fs trace]. split; [| auto].
  subst fs1. destruct (Fs.existsSync (fs w) outputPath) eqn:E; [| exact E].
  unfold Fs.existsSync. now rewrite lookup_rmSync_under by apply is_under_refl.
Qed.

(** A second link step for Linux x64 over the image of the first one. *)
Lemma link_step_always_rebuilds_witness :
  spawn_count (trace Scenario.after_first_link) = 1
  /\ spawn_count
       (trace (snd (buildJre Scenario.jlink_full "Linux x64" Scenario.linux_jdk
                      "jre-linux-x64" Scenario.after_first_link))) = 2.
Proof.
  split; [reflexivity |].
  destruct (link_step_always_rebuilds Scenario.jlink_full "Linux x64" Scenario.linux_jdk
              "jre-linux-x64" Scenario.after_first_link
              ["jdk-downloads"; "jdk-17-linux-x64"; "bin"; "jlink"])
    as [_ [Hn _]]; [reflexivity | reflexivity |].
  rewrite Hn. reflexivity.
Defined.

(** C5 (as stated) fails: when jlink exits with status 0 and leaves only an
    empty output directory, the link step reports success. *)
Lemma entry_point_counterexample :
  ~ entry_point_verified Scenario.jlink_hollow "Linux x64" Scenario.linux_jdk
      "jre-linux-x64" (Scenario.build_world Scenario.project_fs).
Proof.
  unfold entry_point_verified. intros H.
  assert (Hp : false = true); [| discriminate].
  rewrite <- H; [vm_compute; reflexivity | vm_compute; reflexivity].
Qed.

(** C5 (amended): after jlink has exited without error and with status 0,
    the result of the link step is whether the output directory exists;
    the entry-point binary is not looked at. *)
Theorem link_step_checks_output_directory
    (spawnSync : Fs.Path -> list string -> Fs.t -> SpawnResult * Fs.t)
    (platform : string) (jdkPath : Fs.Path) (outputName : string) (w : W)
    (cmd : Fs.Path) :
  colors_ready (globals w) = true ->
  getJlinkPath (fs w) jdkPath = Some cmd ->
  let outputPath := OUTPUT_DIR ++ [outputName] in
  let args := jlink_args (MODULES (globals w)) outputPath in
  let fs1 := if Fs.existsSync (fs w) outputPath then Fs.rmSync outputPath (fs w) else fs w in
  error (fst (spawnSync cmd args fs1)) = None ->
  status (fst (spawnSync cmd args fs1)) = Some 0%Z ->
  fst (buildJre spawnSync platform jdkPath outputName w)
  = Ok (Fs.existsSync (snd (spawnSync cmd args fs1)) outputPath).
Proof.
  intros Hc Hj outputPath args fs1 He Hs.
  destruct (buildJre_run spawnSync platform jdkPath outputName w cmd Hc Hj)
    as [tr' [Hrun _]].
  rewrite Hrun. cbn [fst]. fold outputPath args fs1. now rewrite He, Hs.
Qed.

(** The hollow image: the directory exists, so the step reports success. *)
Lemma link_step_checks_output_directory_witness :
  fst (buildJre Scenario.jlink_hollow "Linux x64" Scenario.linux_jdk "jre-linux-x64"
         (Scenario.build_world Scenario.project_fs))
  = Ok true.
Proof.
  rewrite (link_step_checks_output_directory Scenario.jlink_hollow "Linux x64"
             Scenario.linux_jdk "jre-linux-x64" (Scenario.build_world Scenario.project_fs)
             ["jdk-downloads"; "jdk-17-linux-x64"; "bin"; "jlink"]);
    reflexivity.
Defined.

End BuildJreSpec.

(** ** The downloader *)
Module DownloadSpec.
Import Eff DownloadJdks FsFacts.

Ltac run_download :=
  cbv [bind ret throw exit out_of_fuel try_catch emit get_fs modify_fs get_globals
       modify_globals when_ existsSync unlinkSync rmSync ensureDir
       stream_opens unlink_if_exists];
  cbn [fs globals trace].

Section Network.
Variable http_get : string -> GetResult.

(** Where every error comes after the open, every error of [downloadFile]
    other than an invalid URL leaves no file at the destination.  A call
    without URL happens only after a redirect, when the file has just been
    unlinked. *)
Lemma downloadFile_failure (fuel : nat) :
  errors_after_open http_get ->
  forall (url : option string) (dest : Fs.Path) (w w' : World unit) (e : Exn),
    (url = None -> Fs.existsSync (fs w) dest = false) ->
    downloadFile http_get fuel url dest w = (Throw e, w') ->
    (forall u, e <> InvalidUrl u) ->
    Fs.existsSync (fs w') dest = false.
Proof.
  intros Hopen.
  induction fuel as [| fuel IH]; intros url dest w w' e Hnone Hrun Hkind.
  - discriminate.
  - destruct w as [fs0 [] tr]. simpl in Hrun.
    destruct url as [u |].
    + revert Hrun. pose proof (Hopen u) as Hu.
      destruct (http_get u) as [| msg | msg | code smsg loc body].
      * run_download. intros H. injection H as <- _. now elim (Hkind u).
      * run_download. rewrite exists_after_create. run_download. rewrite exists_after_create.
        intros H. injection H as _ <-. apply gone_after_remove.
      * now elim (Hu msg).
      * run_download. destruct (is_redirect code).
        { run_download. rewrite exists_after_create. run_download. intros H.
          refine (IH _ _ _ _ _ _ H Hkind). intros _. apply gone_after_remove. }
        destruct (negb (code =? 200)%Z).
        { run_download. rewrite exists_after_create. intros H. injection H as _ <-.
          apply gone_after_remove. }
        destruct body as [bytes | msg | msg]; run_download;
          rewrite ?exists_after_create; run_download; rewrite ?exists_after_create;
          intros H; [discriminate | |]; injection H as _ <-; apply gone_after_remove.
    + injection Hrun as _ <-. cbn [fs]. now apply Hnone.
Qed.

(** C7: a failed download can leave a file at the destination.  The
    write stream opens the destination from the event loop; a request error
    that is delivered before that finds no new file to unlink, [downloadFile]
    fails with that error, and the stream then creates the empty file.  A
    redirect to a Location that is no absolute URL fails in the same way:
    [get] throws, nothing is unlinked, the empty file stays.  The cleanup
    works for the other failures: a request error after the open and a
    terminal status other than 200 end in that error with no file at the
    destination, and so does every request, stream or status error of a
    download none of whose requests fails before the open, however many
    redirects were followed. *)
Theorem failed_download_can_leave_file (fuel : nat) (url : string) (dest : Fs.Path)
    (w : World unit) :
  (forall msg, http_get url = GetRequestErrorBeforeOpen msg ->
     exists w',
       downloadFile http_get (S fuel) (Some url) dest w = (Throw (RequestError msg), w')
       /\ download_error (RequestError msg) = true
       /\ Fs.lookup dest (fs w') = Some (Fs.File 0 0 EmptyString))
  /\ (forall code smsg loc body,
        http_get url = GetResponse code smsg (Some loc) body ->
        is_redirect code = true ->
        http_get loc = GetThrows ->
        exists w',
          downloadFile http_get (S (S fuel)) (Some url) dest w = (Throw (InvalidUrl loc), w')
          /\ Fs.lookup dest (fs w') = Some (Fs.File 0 0 EmptyString))
  /\ (forall msg, http_get url = GetRequestError msg ->
        exists w',
          downloadFile http_get (S fuel) (Some url) dest w = (Throw (RequestError msg), w')
          /\ Fs.existsSync (fs w') dest = false)
  /\ (forall code smsg loc body,
        http_get url = GetResponse code smsg loc body ->
        is_redirect code = false ->
        code <> 200%Z ->
        exists w',
          downloadFile http_get (S fuel) (Some url) dest w
          = (Throw (HttpStatusError code smsg), w')
          /\ Fs.existsSync (fs w') dest = false)
  /\ (forall e w',
        errors_after_open http_get ->
        downloadFile http_get fuel (Some url) dest w = (Throw e, w') ->
        download_error e = true ->
        Fs.existsSync (fs w') dest = false).
Proof.
  destruct w as [fs0 [] tr]. repeat split.
  - intros msg Hget. simpl. rewrite Hget. run_download.
    destruct (Fs.existsSync fs0 dest) eqn:E; run_download; rewrite ?E; run_download;
      eexists; (split; [reflexivity | split; [reflexivity | cbn [fs]; apply lookup_set_same]]).
  - intros code smsg loc body Hget Hred Hloc. eexists.
    cbn [downloadFile]. rewrite Hget. run_download. rewrite Hred. run_download.
    rewrite exists_after_create. run_download. rewrite Hloc. run_download.
    split; [reflexivity | cbn [fs]; apply lookup_set_same].
  - intros msg Hget. eexists. simpl. rewrite Hget. run_download.
    rewrite exists_after_create. run_download. rewrite exists_after_create.
    split; [reflexivity | cbn [fs]; apply gone_after_remove].
  - intros code smsg loc body Hget Hred Hcode. eexists. simpl. rewrite Hget. run_download.
    rewrite Hred. apply Z.eqb_neq in Hcode. rewrite Hcode. cbn [negb]. run_download.
    rewrite exists_after_create.
    split; [reflexivity | cbn [fs]; apply gone_after_remove].
  - intros e w' Hopen Hrun Hkind.
    apply (downloadFile_failure fuel Hopen (Some url) dest (mkWorld fs0 tt tr) w' e).
    + discriminate.
    + exact Hrun.
    + intros u ->. discriminate.
Qed.

(** A chain of redirects that ends within the fuel gives a result. *)
Lemma downloadFile_settles (fuel : nat) :
  forall (url : option string) (dest : Fs.Path) (w : World unit),
    resolves_within http_get fuel url = true ->
    fst (downloadFile http_get fuel url dest w) <> OutOfFuel.
Proof.
  induction fuel as [| fuel IH]; intros url dest w Hr; [discriminate |].
  destruct w as [fs0 [] tr]. simpl in *. destruct url as [u |]; [| discriminate].
  destruct (http_get u) as [| msg | msg | code smsg loc body].
  - discriminate.
  - run_download. rewrite exists_after_create. run_download. rewrite exists_after_create.
    discriminate.
  - run_download. destruct (Fs.existsSync fs0 dest) eqn:E; run_download; rewrite ?E;
      discriminate.
  - run_download. destruct (is_redirect code).
    + run_download. rewrite exists_after_create. run_download. now apply IH.
    + destruct (negb (code =? 200)%Z); run_download; rewrite ?exists_after_create;
        [discriminate |].
      destruct body; run_download; rewrite ?exists_after_create; run_download;
        rewrite ?exists_after_create; discriminate.
Qed.
End Network.

(** The connection to the archive host is refused at once: the download
    fails with that error and the empty archive is on disk. *)
Lemma failed_download_can_leave_file_witness :
  exists w',
    downloadFile Cases.refused 5
      (Some (url Scenario.linux_config)) (archivePath_of Scenario.linux_config)
      (Scenario.start [(["jdk-downloads"], Fs.Dir)])
    = (Throw (RequestError "connect ECONNREFUSED"), w')
    /\ download_error (RequestError "connect ECONNREFUSED") = true
    /\ Fs.lookup (archivePath_of Scenario.linux_config) (fs w')
       = Some (Fs.File 0 0 EmptyString).
Proof.
  destruct (failed_download_can_leave_file Cases.refused 4 (url Scenario.linux_config)
              (archivePath_of Scenario.linux_config)
              (Scenario.start [(["jdk-downloads"], Fs.Dir)])) as [H _].
  apply (H "connect ECONNREFUSED"). reflexivity.
Defined.

(** *** The fetch step on a cached archive *)

Lemma requests_app (t1 t2 : list Event) :
  requests (t1 ++ t2) = requests t1 + requests t2.
Proof. unfold requests. now rewrite filter_app, length_app. Qed.

Lemma quiet_ret {A : Type} (a : A) : quiet (ret a).
Proof. intros w. split; [reflexivity | discriminate]. Qed.

Lemma quiet_throw {A : Type} (e : Exn) : quiet (@throw unit A e).
Proof. intros w. split; [reflexivity | discriminate]. Qed.

Lemma quiet_bind {A B : Type} (m : M unit A) (k : A -> M unit B) :
  quiet m -> (forall a, quiet (k a)) -> quiet (bind m k).
Proof.
  intros Hm Hk w. unfold bind. specialize (Hm w).
  destruct (m w) as [[a | e | c |] w1]; cbn [fst snd] in *.
  - destruct Hm as [Hm _]. destruct (Hk a w1) as [Hr Hf]. split; [congruence | exact Hf].
  - split; [tauto | discriminate].
  - split; [tauto | discriminate].
  - tauto.
Qed.

Lemma quiet_try_catch {A : Type} (m : M unit A) (handler : Exn -> M unit A) :
  quiet m -> (forall e, quiet (handler e)) -> quiet (try_catch m handler).
Proof.
  intros Hm Hh w. unfold try_catch. specialize (Hm w).
  destruct (m w) as [[a | e | c |] w1]; cbn [fst snd] in *; try tauto.
  destruct Hm as [Hm _]. destruct (Hh e w1) as [Hr Hf]. split; [congruence | exact Hf].
Qed.

Lemma quiet_log (lvl : Level) (msg : string) : quiet (emit (Log lvl msg)).
Proof.
  intros w. split; [| discriminate]. unfold emit. cbn [snd trace].
  rewrite requests_app. cbn. lia.
Qed.

Lemma quiet_get_fs : quiet get_fs.
Proof. intros w. split; [reflexivity | discriminate]. Qed.

Lemma quiet_modify_fs (f : Fs.t -> Fs.t) : quiet (modify_fs f).
Proof. intros w. split; [reflexivity | discriminate]. Qed.

Lemma quiet_existsSync (p : Fs.Path) : quiet (existsSync p).
Proof. intros w. split; [reflexivity | discriminate]. Qed.

Lemma quiet_rmSync (p : Fs.Path) : quiet (rmSync p).
Proof. apply quiet_modify_fs. Qed.

Lemma quiet_readdirSync (d : Fs.Path) : quiet (readdirSync d).
Proof.
  intros w. unfold readdirSync.
  destruct d; [| destruct (Fs.lookup _ _) as [[|] |]]; (split; [reflexivity | discriminate]).
Qed.

Lemma quiet_when (b : bool) (m : M unit unit) : quiet m -> quiet (when_ b m).
Proof. intros H. destruct b; [exact H | apply quiet_ret]. Qed.

Lemma quiet_if {A : Type} (b : bool) (m1 m2 : M unit A) :
  quiet m1 -> quiet m2 -> quiet (if b then m1 else m2).
Proof. now destruct b. Qed.

Lemma quiet_extract zip_extractAllTo tar_x (t : ArchiveType) (a d : Fs.Path) :
  quiet (extract zip_extractAllTo tar_x t a d).
Proof.
  intros w. unfold extract.
  destruct (match t with Zip => _ | TarGz => _ end) as [[e |] fs'];
    cbn [fst snd trace]; (split; [| discriminate]);
    rewrite !requests_app; cbn; lia.
Qed.

Create HintDb quiet.
#[local] Hint Resolve quiet_ret quiet_throw quiet_log quiet_get_fs quiet_modify_fs
  quiet_existsSync quiet_rmSync quiet_readdirSync quiet_when quiet_if quiet_extract : quiet.

Ltac quiet_steps :=
  repeat first
    [ apply quiet_bind; [| intros ?]
    | apply quiet_try_catch; [| intros ?]
    | apply quiet_when
    | apply quiet_if
    | solve [auto with quiet] ].

Lemma quiet_extract_and_install zip_extractAllTo tar_x (V platform : string)
    (config : PlatformConfig) :
  quiet (extract_and_install zip_extractAllTo tar_x V platform config).
Proof. unfold extract_and_install, locate_jdk. quiet_steps. Qed.

(** The archive of a platform never lies in that platform's final directory. *)
Lemma archive_outside_finalDir (V platform : string) (config : PlatformConfig)
    (PLATFORMS : list (string * PlatformConfig)) :
  getPlatformConfig V = Some PLATFORMS ->
  In (platform, config) PLATFORMS ->
  Fs.is_under (finalDir_of V platform) (archivePath_of config) = false.
Proof.
  unfold getPlatformConfig, Js.assoc, VERSION_CONFIG. cbn [find fst snd].
  repeat (destruct (String.eqb V _);
          [intros H; injection H as <-; cbn [In];
           intros Hin; repeat (destruct Hin as [Hin | Hin]; [injection Hin as <- <-; reflexivity |]);
           destruct Hin |]).
  discriminate.
Qed.

Lemma quiet_download_cached http_get (fuel : nat) (config : PlatformConfig) (w : World unit) :
  Fs.existsSync (fs w) (archivePath_of config) = true ->
  (MIN_ARCHIVE_SIZE <= Fs.size_of (fs w) (archivePath_of config))%N ->
  download_if_needed http_get fuel config w
  = (Ok true, mkWorld (fs w) (globals w) (trace w ++ [Log Info "Archive already downloaded"])).
Proof.
  intros He Hs. unfold download_if_needed. run_download. rewrite He.
  apply N.ltb_ge in Hs. rewrite Hs. reflexivity.
Qed.

Lemma download_and_install_cached http_get zip_extractAllTo tar_x (V : string)
    (fuel : nat) (platform : string) (config : PlatformConfig) (w : World unit) :
  Fs.existsSync (fs w) (archivePath_of config) = true ->
  (MIN_ARCHIVE_SIZE <= Fs.size_of (fs w) (archivePath_of config))%N ->
  requests (trace (snd (download_and_install http_get zip_extractAllTo tar_x V fuel
                          platform config w)))
  = requests (trace w)
  /\ fst (download_and_install http_get zip_extractAllTo tar_x V fuel platform config w)
     <> OutOfFuel.
Proof.
  intros He Hs. unfold download_and_install, bind.
  rewrite (quiet_download_cached http_get fuel config w He Hs). cbn [negb].
  destruct (quiet_extract_and_install zip_extractAllTo tar_x V platform config
              (mkWorld (fs w) (globals w) (trace w ++ [Log Info "Archive already downloaded"])))
    as [Hq Hf].
  split; [| exact Hf]. rewrite Hq. cbn [trace]. rewrite requests_app. cbn. lia.
Qed.

(** C6: for each of the platform targets, when the archive is already at
    its destination with a size of at least 1 MiB, the fetch step ends
    without having made any network request, whatever the state of the rest
    of the downloads directory. *)
Theorem fetch_skips_existing_archive
    (http_get : string -> GetResult)
    (zip_extractAllTo tar_x : Fs.Path -> Fs.Path -> Fs.t -> option Exn * Fs.t)
    (V platform : string) (PLATFORMS : list (string * PlatformConfig))
    (config : PlatformConfig) (fuel : nat) (w : World unit) :
  getPlatformConfig V = Some PLATFORMS ->
  In (platform, config) PLATFORMS ->
  Fs.existsSync (fs w) (archivePath_of config) = true ->
  (MIN_ARCHIVE_SIZE <= Fs.size_of (fs w) (archivePath_of config))%N ->
  requests (trace (snd (downloadAndExtractPlatform http_get zip_extractAllTo tar_x V fuel
                          platform config w)))
  = requests (trace w)
  /\ fst (downloadAndExtractPlatform http_get zip_extractAllTo tar_x V fuel
            platform config w) <> OutOfFuel.
Proof.
  intros Hp Hin He Hs.
  pose proof (archive_outside_finalDir V platform config PLATFORMS Hp Hin) as Hout.
  destruct w as [fs0 [] tr]. cbn [fs trace] in *.
  unfold downloadAndExtractPlatform. run_download.
  destruct (Fs.existsSync fs0 (finalDir_of V platform)).
  - unfold locate_jdk. run_download.
    rewrite readdirSync_cases by (unfold finalDir_of, DOWNLOAD_DIR; discriminate).
    cbn [fs]. destruct (Fs.lookup (finalDir_of V platform) fs0) as [[| sz m d] |];
      run_download;
      try (cbn [fst snd trace]; rewrite !requests_app; cbn; split; [lia | discriminate]).
    destruct (Fs.existsSync fs0 (jdkPath config fs0 _ ++ _)); run_download.
    + cbn [fst snd trace]. rewrite !requests_app. cbn. split; [lia | discriminate].
    + match goal with
      | |- context [download_and_install _ _ _ _ _ _ _ ?w] =>
          destruct (download_and_install_cached http_get zip_extractAllTo tar_x V fuel
                      platform config w) as [Hq Hf]
      end.
      * cbn [fs]. unfold Fs.existsSync in *.
        rewrite lookup_rmSync_outside by exact Hout. exact He.
      * cbn [fs]. unfold Fs.size_of in *.
        rewrite lookup_rmSync_outside by exact Hout. exact Hs.
      * split; [| exact Hf]. rewrite Hq. cbn [trace]. rewrite !requests_app. cbn. lia.
  - match goal with
    | |- context [download_and_install _ _ _ _ _ _ _ ?w] =>
        destruct (download_and_install_cached http_get zip_extractAllTo tar_x V fuel
                    platform config w He Hs) as [Hq Hf]
    end.
    split; [| exact Hf]. rewrite Hq. cbn [trace]. rewrite !requests_app. cbn. lia.
Qed.

(** Linux x64, JDK 21, with the archive present and no extractor that
    works: no request is made. *)
Lemma fetch_skips_existing_archive_witness :
  requests (trace (snd (downloadAndExtractPlatform (Scenario.net Scenario.not_found)
                          Scenario.no_extract Scenario.no_extract "21" 5 "linux-x64"
                          Scenario.linux_config (Scenario.start Scenario.archive_fs))))
  = 0.
Proof.
  destruct (fetch_skips_existing_archive (Scenario.net Scenario.not_found)
              Scenario.no_extract Scenario.no_extract "21" "linux-x64"
              (match getPlatformConfig "21" with Some ps => ps | None => [] end)
              Scenario.linux_config 5 (Scenario.start Scenario.archive_fs))
    as [Hr _].
  - reflexivity.
  - vm_compute. do 4 right. left. reflexivity.
  - reflexivity.
  - vm_compute. discriminate.
  - rewrite Hr. reflexivity.
Defined.

End DownloadSpec.

(** ** Computations with bounded outcomes *)
Module Bounded.
Import Eff.

Section WithInvariant.
Context {G : Type} (I : G -> Prop).
#[local] Abbreviation good := (Eff.good I).
#[local] Abbreviation bounded := (Eff.bounded I).

Lemma good_refl (w : World G) : I (globals w) -> good w w.
Proof. intros H. split; [exact H | exists []; now rewrite app_nil_r]. Qed.

Lemma good_trans (w1 w2 w3 : World G) : good w1 w2 -> good w2 w3 -> good w1 w3.
Proof.
  intros [_ [t1 H1]] [H [t2 H2]]. split; [exact H |].
  exists (t1 ++ t2). now rewrite H2, H1, app_assoc.
Qed.

Lemma good_In (w w' : World G) (ev : Event) :
  good w w' -> In ev (trace w) -> In ev (trace w').
Proof. intros [_ [t ->]] H. apply in_or_app. now left. Qed.

Lemma bounded_ret {A : Type} (al : Allow) (a : A) : bounded al (ret a).
Proof. intros w H. split; [exact Logic.I | now apply good_refl]. Qed.

Lemma bounded_throw {A : Type} (al : Allow) (e : Exn) :
  throws al = true -> bounded al (@throw G A e).
Proof. intros Ht w H. split; [exact Ht | now apply good_refl]. Qed.

Lemma bounded_out_of_fuel {A : Type} (al : Allow) :
  hangs al = true -> bounded al (@out_of_fuel G A).
Proof. intros Ht w H. split; [exact Ht | now apply good_refl]. Qed.

Lemma bounded_bind {A B : Type} (al : Allow) (m : M G A) (k : A -> M G B) :
  bounded al m -> (forall a, bounded al (k a)) -> bounded al (bind m k).
Proof.
  intros Hm Hk w H. unfold bind. destruct (Hm w H) as [Hr Hg].
  destruct (m w) as [[a | e | c |] w1]; cbn [fst snd] in *; try (split; assumption).
  destruct (Hk a w1 (proj1 Hg)) as [Hr' Hg']. split; [exact Hr' |].
  now apply (good_trans w w1).
Qed.

Lemma bounded_try_catch {A : Type} (al : Allow) (m : M G A) (handler : Exn -> M G A) :
  bounded {| throws := true; hangs := hangs al |} m ->
  (forall e, bounded al (handler e)) ->
  bounded al (try_catch m handler).
Proof.
  intros Hm Hh w H. unfold try_catch. destruct (Hm w H) as [Hr Hg].
  destruct (m w) as [[a | e | c |] w1]; cbn [fst snd] in *; try (split; assumption).
  destruct (Hh e w1 (proj1 Hg)) as [Hr' Hg']. split; [exact Hr' |].
  now apply (good_trans w w1).
Qed.

Lemma bounded_weaken {A : Type} (al al' : Allow) (m : M G A) :
  (throws al = true -> throws al' = true) ->
  (hangs al = true -> hangs al' = true) ->
  bounded al m -> bounded al' m.
Proof.
  intros Ht Hh Hm w H. destruct (Hm w H) as [Hr Hg]. split; [| exact Hg].
  destruct (fst (m w)); cbn in *; auto.
Qed.

Lemma bounded_emit (al : Allow) (ev : Event) : bounded al (emit ev).
Proof. intros w H. split; [exact Logic.I |]. split; [exact H | now exists [ev]]. Qed.

Lemma bounded_get_fs (al : Allow) : bounded al (@get_fs G).
Proof. intros w H. split; [exact Logic.I | now apply good_refl]. Qed.

Lemma bounded_get_globals (al : Allow) : bounded al (@get_globals G).
Proof. intros w H. split; [exact Logic.I | now apply good_refl]. Qed.

Lemma bounded_modify_fs (al : Allow) (f : Fs.t -> Fs.t) : bounded al (@modify_fs G f).
Proof.
  intros w H. split; [exact Logic.I |]. split; [exact H |].
  exists []. cbn. now rewrite app_nil_r.
Qed.

Lemma bounded_existsSync (al : Allow) (p : Fs.Path) : bounded al (@existsSync G p).
Proof. intros w H. split; [exact Logic.I | now apply good_refl]. Qed.

Lemma bounded_rmSync (al : Allow) (p : Fs.Path) : bounded al (@rmSync G p).
Proof. apply bounded_modify_fs. Qed.

Lemma bounded_if {A : Type} (al : Allow) (b : bool) (m1 m2 : M G A) :
  bounded al m1 -> bounded al m2 -> bounded al (if b then m1 else m2).
Proof. now destruct b. Qed.

Lemma bounded_when (al : Allow) (b : bool) (m : M G unit) :
  bounded al m -> bounded al (when_ b m).
Proof. intros H. destruct b; [exact H | apply bounded_ret]. Qed.

Lemma bounded_ensureDir (al : Allow) (p : Fs.Path) : bounded al (@ensureDir G p).
Proof.
  unfold ensureDir. apply bounded_bind; [apply bounded_existsSync |].
  intros b. apply bounded_when, bounded_modify_fs.
Qed.

Lemma bounded_unlinkSync (al : Allow) (p : Fs.Path) :
  throws al = true -> bounded al (@unlinkSync G p).
Proof.
  intros Ht. unfold unlinkSync. apply bounded_bind; [apply bounded_existsSync |].
  intros b. apply bounded_if; [apply bounded_modify_fs | now apply bounded_throw].
Qed.

Lemma bounded_readdirSync (al : Allow) (d : Fs.Path) :
  throws al = true -> bounded al (@readdirSync G d).
Proof.
  intros Ht w H. unfold readdirSync.
  destruct d; [| destruct (Fs.lookup _ _) as [[|] |]]; cbn [fst snd ok_res];
    (split; [first [exact Ht | exact Logic.I] | now apply good_refl]).
Qed.

Lemma bounded_for_each {A : Type} (al : Allow) (l : list A) (body : A -> M G unit) :
  (forall x, bounded al (body x)) -> bounded al (for_each l body).
Proof.
  intros Hb. induction l as [| x l IH]; simpl; [apply bounded_ret |].
  apply bounded_bind; [apply Hb | intros _; exact IH].
Qed.

(** A bounded computation that may neither throw nor hang returns. *)
Lemma bounded_returns {A : Type} (m : M G A) (w : World G) :
  bounded {| throws := false; hangs := false |} m -> I (globals w) ->
  exists a w', m w = (Ok a, w') /\ good w w'.
Proof.
  intros Hm H. destruct (Hm w H) as [Hr Hg].
  destruct (m w) as [[a | e | c |] w1]; cbn in *; try discriminate; try contradiction.
  eauto.
Qed.

Lemma emit_run (ev : Event) (w : World G) :
  emit ev w = (Ok tt, mkWorld (fs w) (globals w) (trace w ++ [ev])).
Proof. reflexivity. Qed.

Lemma bind_ok {A B : Type} (m : M G A) (k : A -> M G B) (w w1 : World G) (a : A) :
  m w = (Ok a, w1) -> bind m k w = k a w1.
Proof. intros E. unfold bind. now rewrite E. Qed.
End WithInvariant.

Section WithProperty.
Context {G : Type} (P : Fs.t -> Prop).
#[local] Abbreviation preserves := (@Eff.preserves G _ P).

Lemma preserves_ret {A : Type} (a : A) : preserves (ret a).
Proof. intros w H. exact H. Qed.

Lemma preserves_throw {A : Type} (e : Exn) : preserves (@throw G A e).
Proof. intros w H. exact H. Qed.

Lemma preserves_bind {A B : Type} (m : M G A) (k : A -> M G B) :
  Eff.preserves P m -> (forall a, Eff.preserves P (k a)) -> Eff.preserves P (bind m k).
Proof.
  intros Hm Hk w H. unfold bind. specialize (Hm w H).
  destruct (m w) as [[a | e | c |] w1]; cbn [fst snd] in *; try exact Hm.
  now apply Hk.
Qed.

Lemma preserves_try_catch {A : Type} (m : M G A) (handler : Exn -> M G A) :
  preserves m -> (forall e, preserves (handler e)) -> preserves (try_catch m handler).
Proof.
  intros Hm Hh w H. unfold try_catch. specialize (Hm w H).
  destruct (m w) as [[a | e | c |] w1]; cbn [fst snd] in *; try exact Hm.
  now apply Hh.
Qed.

Lemma preserves_emit (ev : Event) : preserves (emit ev).
Proof. intros w H. exact H. Qed.

Lemma preserves_get_fs : preserves (@get_fs G).
Proof. intros w H. exact H. Qed.

Lemma preserves_existsSync (p : Fs.Path) : preserves (@existsSync G p).
Proof. intros w H. exact H. Qed.

Lemma preserves_modify_fs (f : Fs.t -> Fs.t) :
  (forall fs0, P fs0 -> P (f fs0)) -> preserves (@modify_fs G f).
Proof. intros Hf w H. now apply Hf. Qed.

Lemma preserves_if {A : Type} (b : bool) (m1 m2 : M G A) :
  preserves m1 -> preserves m2 -> preserves (if b then m1 else m2).
Proof. now destruct b. Qed.

Lemma preserves_when (b : bool) (m : M G unit) : preserves m -> preserves (when_ b m).
Proof. intros H. destruct b; [exact H | apply preserves_ret]. Qed.

Lemma preserves_for_each {A : Type} (l : list A) (body : A -> M G unit) :
  (forall x, preserves (body x)) -> preserves (for_each l body).
Proof.
  intros Hb. induction l as [| x l IH]; simpl; [apply preserves_ret |].
  apply preserves_bind; [apply Hb | intros _; exact IH].
Qed.

(** A batch keeps what each of its steps keeps. *)
Lemma attempts_preserves (steps : list (string * M G bool)) (w w' : World G)
    (rs : list (string * bool)) :
  (forall s, In s steps -> preserves (snd s)) ->
  attempts steps w rs w' -> P (fs w) -> P (fs w').
Proof.
  intros Hs Ha. induction Ha as [w | name fn rest w w1 w2 b rs E Ha IH
                                    | name fn rest w w1 w2 e msg rs E Ha IH]; intros H.
  - exact H.
  - apply IH; [intros s Hin; apply Hs; now right |].
    pose proof (Hs (name, fn) (or_introl eq_refl) w H) as H1. cbn [snd] in H1.
    now rewrite E in H1.
  - apply IH; [intros s Hin; apply Hs; now right |].
    pose proof (Hs (name, fn) (or_introl eq_refl) w H) as H1. cbn [snd] in H1.
    now rewrite E in H1.
Qed.
End WithProperty.

End Bounded.

(** ** The all-platforms batches *)
Module BatchSpec.
Import Eff Bounded FsFacts.

Create HintDb bounded.
#[local] Hint Resolve bounded_ret bounded_emit bounded_get_fs bounded_get_globals
  bounded_modify_fs bounded_existsSync bounded_rmSync bounded_ensureDir : bounded.

Ltac bounded_steps :=
  repeat first
    [ solve [auto with bounded]
    | apply bounded_bind; [| intros ?]
    | apply bounded_try_catch; [| intros ?]
    | apply bounded_when
    | apply bounded_if
    | apply bounded_for_each; intros ?
    | apply bounded_throw; first [reflexivity | assumption]
    | apply bounded_unlinkSync; first [reflexivity | assumption]
    | apply bounded_readdirSync; first [reflexivity | assumption]
    | match goal with
      | |- Eff.bounded _ _ (let (_, _) := ?p in _) => destruct p
      | |- Eff.bounded _ _ (match ?x with _ => _ end) => destruct x
      end ].

Lemma obj_set_fresh {A : Type} (k : string) (v : A) (o : list (string * A)) :
  ~ In k (map fst o) -> Js.obj_set k v o = o ++ [(k, v)].
Proof.
  induction o as [| [k' v'] o IH]; simpl; intros Hn; [reflexivity |].
  destruct (String.eqb_spec k k') as [-> | _]; [elim Hn; now left |].
  rewrite IH; [reflexivity | tauto].
Qed.

Lemma all_succeeded (results : list (string * bool)) :
  Nat.eqb (List.length (filter snd results)) (List.length results) = true
  <-> forall n ok, In (n, ok) results -> ok = true.
Proof.
  rewrite Nat.eqb_eq. induction results as [| [n b] l IH]; simpl.
  - split; [intros _ ? ? [] | reflexivity].
  - destruct b; simpl.
    + split.
      * intros H n' ok [E | Hin]; [congruence |]. apply (proj1 IH) with n'; [lia | exact Hin].
      * intros H. f_equal. apply IH. intros n' ok Hin. apply (H n' ok). now right.
    + split.
      * intros H. pose proof (filter_length_le snd l). lia.
      * intros H. specialize (H n false (or_introl eq_refl)). discriminate.
Qed.

Lemma some_failed (results : list (string * bool)) :
  Nat.eqb (List.length (filter snd results)) (List.length results) = false
  <-> exists n, In (n, false) results.
Proof.
  split.
  - intros H. induction results as [| [n b] l IH]; [discriminate |].
    destruct b; [| exists n; now left].
    destruct IH as [n' Hn']; [exact H | exists n'; now right].
  - intros [n Hn]. destruct (Nat.eqb _ _) eqn:E; [| reflexivity].
    apply all_succeeded with (n := n) (ok := false) in E; [discriminate | exact Hn].
Qed.

(** *** build-jre-all-platforms.js *)
Section BuildJreBatch.
Import BuildJre.
Variable spawnSync : Fs.Path -> list string -> Fs.t -> SpawnResult * Fs.t.
Variable JDK_VERSION : string.

Lemma log_run (lvl : Level) (msg : string) (w : W) :
  ready (globals w) ->
  log lvl msg w = (Ok tt, mkWorld (fs w) (globals w) (trace w ++ [Log lvl msg])).
Proof. intros H. unfold log, read_colors, bind, get_globals. now rewrite H. Qed.

Lemma bounded_log (al : Allow) (lvl : Level) (msg : string) : bounded ready al (log lvl msg).
Proof.
  intros w H. rewrite (log_run lvl msg w H). split; [exact Logic.I |].
  split; [exact H | now exists [Log lvl msg]].
Qed.

Lemma bounded_log_sized (al : Allow) (lvl : Level) (msg : string) (n : N) :
  bounded ready al (log_sized lvl msg n).
Proof.
  intros w H. unfold log_sized, read_colors, bind, get_globals. rewrite H.
  split; [exact Logic.I |]. split; [exact H | now exists [LogSized lvl msg n]].
Qed.

Lemma bounded_read_colors (al : Allow) : bounded ready al read_colors.
Proof.
  intros w H. unfold read_colors, bind, get_globals. rewrite H.
  split; [exact Logic.I | now apply good_refl].
Qed.

#[local] Hint Resolve bounded_log bounded_log_sized bounded_read_colors : bounded.

Lemma bounded_checkJdk (al : Allow) (platform : string) (jdkPath : Fs.Path) :
  throws al = true -> bounded ready al (checkJdk platform jdkPath).
Proof. intros Ht. unfold checkJdk. bounded_steps. Qed.

Lemma bounded_buildJre (al : Allow) (platform : string) (jdkPath : Fs.Path)
    (outputName : string) :
  bounded ready al (buildJre spawnSync platform jdkPath outputName).
Proof. unfold buildJre. bounded_steps. Qed.

#[local] Hint Resolve bounded_buildJre : bounded.

Lemma bounded_build_with (al : Allow) (title nm out : string) (locate : Fs.t -> Fs.Path) :
  throws al = true -> bounded ready al (build_with spawnSync title nm out locate).
Proof. intros Ht. unfold build_with. bounded_steps. Qed.

Lemma bounded_builders (al : Allow) (kb : string * Builder) :
  throws al = true ->
  In kb (builders spawnSync JDK_VERSION) -> bounded ready al (fn (snd kb)).
Proof.
  intros Ht. unfold builders. cbn [In].
  intros H; repeat (destruct H as [<- | H]; [now apply bounded_build_with |]); destruct H.
Qed.

(** The batch loop attempts every builder, whatever the earlier results. *)
Lemma build_all_attempts (bs : list (string * Builder)) :
  forall (results : list (string * bool)) (w : W),
    ready (globals w) ->
    (forall kb, In kb bs -> bounded ready {| throws := true; hangs := false |} (fn (snd kb))) ->
    NoDup (map fst results ++ map (fun kb => name (snd kb)) bs) ->
    exists rs w',
      build_all bs results w = (Ok (results ++ rs), w')
      /\ attempts (batch_of bs) w rs w'
      /\ good ready w w'
      /\ map fst rs = map (fun kb => name (snd kb)) bs.
Proof.
  induction bs as [| [key b] bs IH]; intros results w Hw Hb Hnd.
  - exists [], w. rewrite app_nil_r. repeat split; try reflexivity.
    + constructor.
    + exact Hw.
    + exists []. now rewrite app_nil_r.
  - cbn [build_all]. unfold bind at 1, try_catch.
    assert (Hfresh : ~ In (name b) (map fst results)).
    { cbn in Hnd. apply NoDup_remove_2 in Hnd. intros Hin. apply Hnd, in_or_app. now left. }
    assert (Hnd' : forall r, NoDup (map fst (results ++ [(name b, r)])
                                      ++ map (fun kb => name (snd kb)) bs)).
    { intros r. rewrite map_app, <- app_assoc. exact Hnd. }
    destruct (Hb (key, b) (or_introl eq_refl) w Hw) as [Hr Hg]. cbn [snd fst] in Hr, Hg.
    destruct (fn b w) as [[r | e | c |] w1] eqn:E; cbn [fst snd] in Hr, Hg;
      try contradiction; try discriminate.
    + rewrite obj_set_fresh by exact Hfresh.
      destruct (IH (results ++ [(name b, r)]) w1 (proj1 Hg)
                  (fun kb H => Hb kb (or_intror H)) (Hnd' r))
        as [rs [w' [Hrun [Ha [Hg' Hn]]]]].
      exists ((name b, r) :: rs), w'. rewrite Hrun, <- app_assoc. repeat split.
      * eapply attempts_ok; [exact E | exact Ha].
      * apply Hg'.
      * destruct Hg as [_ [t1 H1]], Hg' as [_ [t2 H2]]. exists (t1 ++ t2).
        now rewrite H2, H1, app_assoc.
      * cbn. now rewrite Hn.
    + unfold bind at 1. rewrite (log_run _ _ w1 (proj1 Hg)). unfold ret.
      rewrite obj_set_fresh by exact Hfresh.
      set (w1' := mkWorld (fs w1) (globals w1) (trace w1 ++ [Log Failure _])).
      destruct (IH (results ++ [(name b, false)]) w1' (proj1 Hg)
                  (fun kb H => Hb kb (or_intror H)) (Hnd' false))
        as [rs [w' [Hrun [Ha [Hg' Hn]]]]].
      exists ((name b, false) :: rs), w'. rewrite Hrun, <- app_assoc. repeat split.
      * eapply attempts_throw; [exact E | exact Ha].
      * apply Hg'.
      * destruct Hg as [_ [t1 H1]], Hg' as [_ [t2 H2]].
        exists (t1 ++ [Log Failure ("Failed to build " ++ name b ++ ": " ++ message e)%string]
                   ++ t2).
        rewrite H2. subst w1'. cbn [trace]. rewrite H1. now rewrite <- !app_assoc.
      * cbn. now rewrite Hn.
Qed.

Lemma checkPrerequisites_run (w : W) :
  ready (globals w) -> Fs.existsSync (fs w) JDK_DIR = true ->
  exists w', checkPrerequisites w = (Ok true, w') /\ good ready w w'.
Proof.
  intros Hw He. eexists. split.
  - unfold checkPrerequisites.
    rewrite (bind_ok _ _ _ _ _ (log_run _ _ w Hw)).
    unfold bind at 1, existsSync. cbn [fs]. rewrite He. cbn [negb].
    rewrite (bind_ok _ _ _ _ _ (log_run _ _ (mkWorld _ _ _) Hw)). reflexivity.
  - split; [exact Hw |]. cbn [trace]. rewrite <- app_assoc. eauto.
Qed.

Lemma summary_run (results : list (string * bool)) :
  forall w : W,
    ready (globals w) ->
    for_each results (fun r => bind read_colors (fun _ => emit (Summary (fst r) (snd r)))) w
    = (Ok tt,
       mkWorld (fs w) (globals w)
         (trace w ++ map (fun r => Summary (fst r) (snd r)) results)).
Proof.
  induction results as [| r results IH]; intros w Hw; simpl.
  - rewrite app_nil_r. now destruct w.
  - unfold bind at 1. unfold bind at 1, read_colors, bind, get_globals. rewrite Hw.
    cbn. rewrite IH by exact Hw. cbn. now rewrite <- app_assoc.
Qed.

Lemma show_sizes_run (w : W) :
  ready (globals w) ->
  exists (r : Res unit) (w' : W),
    show_sizes w = (r, w')
    /\ good ready w w'
    /\ (if output_listing_fails (fs w)
        then r = Throw (FsError "ENOTDIR" OUTPUT_DIR)
        else r = Ok tt).
Proof.
  intros Hw. unfold show_sizes, output_listing_fails, Fs.existsSync, Fs.isDirectory.
  unfold bind at 1, get_fs.
  destruct (Fs.lookup OUTPUT_DIR (fs w)) as [[| sz m d] |] eqn:E; cbn [when_ andb negb].
  - unfold bind at 1. rewrite FsFacts.readdirSync_cases by discriminate. rewrite E.
    match goal with
    | |- context [for_each ?l ?body w] =>
        destruct (bounded_returns ready (for_each l body) w) as [[] [w' [E' G']]];
          [| exact Hw | rewrite E'; eauto]
    end.
    bounded_steps.
  - unfold bind at 1. rewrite FsFacts.readdirSync_cases by discriminate. rewrite E.
    exists (Throw (FsError "ENOTDIR" OUTPUT_DIR)), w.
    split; [reflexivity | split; [now apply good_refl | reflexivity]].
  - exists (Ok tt), w. split; [reflexivity | split; [now apply good_refl | reflexivity]].
Qed.

(** The all-platforms branch of [main]. *)
Lemma build_main_batch (w : W) :
  ready (globals w) ->
  Fs.existsSync (fs w) JDK_DIR = true ->
  exists (w0 w1 w' : W) (results : list (string * bool)) (r : Res unit),
    main spawnSync JDK_VERSION None w = (r, w')
    /\ good ready w w0
    /\ attempts (batch_of (builders spawnSync JDK_VERSION)) w0 results w1
    /\ good ready w1 w'
    /\ map fst results
       = ["Windows x64"; "Windows ARM64"; "macOS x64"; "macOS ARM64"; "Linux x64";
          "Linux ARM64"]
    /\ (forall n ok, In (n, ok) results -> In (Summary n ok) (trace w'))
    /\ (if output_listing_fails (fs w1)
        then r = Throw (FsError "ENOTDIR" OUTPUT_DIR)
        else exists code : Z,
               r = Exit code /\ (code <> 0%Z <-> exists n, In (n, false) results)).
Proof.
  intros Hw He.
  pose proof (eq_refl (main spawnSync JDK_VERSION None w)) as ER.
  unfold main at 2 in ER.
  rewrite (bind_ok _ _ _ _ _ (log_run _ _ w Hw)) in ER.
  destruct (checkPrerequisites_run
              (mkWorld (fs w) (globals w)
                 (trace w ++ [Log Header "Custom JRE Builder for Aspose.Words"])) Hw He)
    as [wa [Ea Ga]].
  rewrite (bind_ok _ _ _ _ _ Ea) in ER. cbn [negb] in ER.
  destruct (bounded_returns ready (ensureDir OUTPUT_DIR) wa
              (bounded_ensureDir ready _ OUTPUT_DIR) (proj1 Ga)) as [[] [wb [Eb Gb]]].
  rewrite (bind_ok _ _ _ _ _ Eb) in ER.
  unfold bind at 1, get_globals in ER.
  rewrite (bind_ok _ _ _ _ _ (log_run _ _ wb (proj1 Gb))) in ER.
  rewrite (bind_ok _ _ _ _ _ (log_run _ _ (mkWorld _ _ _) (proj1 Gb))) in ER.
  rewrite (bind_ok _ _ _ _ _ (log_run _ _ (mkWorld _ _ _) (proj1 Gb))) in ER.
  rewrite (bind_ok _ _ _ _ _ (log_run _ _ (mkWorld _ _ _) (proj1 Gb))) in ER.
  cbn [fs globals trace] in ER.
  set (w0 := mkWorld (fs wb) (globals wb) _) in ER.
  assert (G0 : good ready w w0).
  { apply (good_trans ready w wb).
    - apply (good_trans ready w wa); [| exact Gb].
      apply (good_trans ready w (mkWorld (fs w) (globals w) (trace w ++ [Log Header
               "Custom JRE Builder for Aspose.Words"]))); [| exact Ga].
      split; [exact Hw | cbn; eauto].
    - split; [exact (proj1 Gb) |]. subst w0. cbn [trace]. rewrite <- !app_assoc. eauto. }
  destruct (build_all_attempts (builders spawnSync JDK_VERSION) [] w0 (proj1 Gb))
    as [results [w1 [Erun [Hat [G1 Hnames]]]]].
  { intros kb Hkb. now apply bounded_builders. }
  { cbn. repeat constructor; cbn; intuition discriminate. }
  change ([] ++ results) with results in Erun. rewrite (bind_ok _ _ _ _ _ Erun) in ER.
  rewrite (bind_ok _ _ _ _ _ (log_run _ _ w1 (proj1 G1))) in ER.
  rewrite (bind_ok _ _ _ _ _ (summary_run results (mkWorld _ _ _) (proj1 G1))) in ER.
  cbn [fs globals trace] in ER.
  set (w2 := mkWorld (fs w1) (globals w1) _) in ER.
  assert (G2 : good ready w1 w2).
  { split; [exact (proj1 G1) |]. subst w2. cbn [trace]. rewrite <- app_assoc. eauto. }
  assert (S2 : forall n ok, In (n, ok) results -> In (Summary n ok) (trace w2)).
  { intros n ok Hin. subst w2. cbn [trace].
    apply in_or_app. right. apply in_map_iff. exists (n, ok). auto. }
  destruct (show_sizes_run w2 (proj1 G1)) as [r3 [w3 [E3 [G3 H3]]]].
  change (fs w2) with (fs w1) in H3.
  destruct (output_listing_fails (fs w1)) eqn:EL.
  - subst r3. unfold bind at 1 in ER. rewrite E3 in ER.
    exists w0, w1, w3, results. eexists. split; [exact ER |].
    split; [exact G0 |]. split; [exact Hat |].
    split; [exact (good_trans ready w1 w2 w3 G2 G3) |].
    split; [exact Hnames |]. split; [| rewrite EL; reflexivity].
    intros n ok Hin. apply (good_In ready w2 w3 _ G3). now apply S2.
  - subst r3. rewrite (bind_ok _ _ _ _ _ E3) in ER.
    rewrite (bind_ok _ _ _ _ _ (log_run _ _ w3 (proj1 G3))) in ER.
    unfold exit in ER.
    exists w0, w1. eexists. exists results. eexists. split; [exact ER |].
    split; [exact G0 |]. split; [exact Hat |]. split; [| split; [exact Hnames | split]].
    + split; [exact (proj1 G3) |].
      destruct (good_trans ready w1 w2 w3 G2 G3) as [_ [t Ht]].
      eexists. cbn [trace]. rewrite Ht, <- app_assoc. reflexivity.
    + intros n ok Hin. cbn [trace]. apply in_or_app. left.
      apply (good_In ready w2 w3 _ G3). now apply S2.
    + rewrite EL. eexists. split; [reflexivity |]. split.
      * intros Hc. apply some_failed. destruct (Nat.eqb _ _); [now elim Hc | reflexivity].
      * intros Hf. apply some_failed in Hf. rewrite Hf. discriminate.
Qed.
End BuildJreBatch.

(** *** create-portable.js *)
Section PackageBatch.
Import CreatePortable.
Variable archiver : ArchiveKind -> Fs.Path -> Fs.t -> Exn + N.
Variable JAR_FILES : list Fs.Path.

Lemma bounded_copyDirectory (al : Allow) (src dest : Fs.Path) :
  throws al = true -> bounded always al (copyDirectory src dest).
Proof. intros Ht. unfold copyDirectory. bounded_steps. Qed.

Lemma bounded_copyFileSync (al : Allow) (src dest : Fs.Path) :
  throws al = true -> bounded always al (copyFileSync src dest).
Proof. intros Ht. unfold copyFileSync. bounded_steps. Qed.

Lemma bounded_createArchive (al : Allow) (k : ArchiveKind) (pkgDir : Fs.Path) :
  throws al = true -> bounded always al (createArchive archiver k pkgDir).
Proof. intros Ht. unfold createArchive. bounded_steps. Qed.

Lemma bounded_createPortablePackage (platform arch jreName : string) :
  bounded always {| throws := true; hangs := false |}
    (createPortablePackage archiver JAR_FILES platform arch jreName).
Proof.
  unfold createPortablePackage, createLauncher, createReadme.
  bounded_steps;
    first [ apply bounded_copyDirectory | apply bounded_copyFileSync
          | apply bounded_createArchive ]; reflexivity.
Qed.

#[local] Abbreviation output_ready := (fun fs0 : Fs.t => Fs.isDirectory fs0 OUTPUT_DIR = true).

Ltac preserves_steps :=
  repeat first
    [ apply preserves_ret
    | apply preserves_throw
    | apply preserves_emit
    | apply preserves_get_fs
    | apply preserves_existsSync
    | apply preserves_bind; [| intros ?]
    | apply preserves_try_catch; [| intros ?]
    | apply preserves_when
    | apply preserves_if
    | apply preserves_for_each; intros ?
    | match goal with
      | |- Eff.preserves _ (match ?x with _ => _ end) => destruct x
      end ].

Lemma output_ready_set (p : Fs.Path) (n : Fs.Node) (fs0 : Fs.t) :
  OUTPUT_DIR <> p -> output_ready fs0 -> output_ready (Fs.set p n fs0).
Proof. intros Hp. unfold Fs.isDirectory. now rewrite lookup_set_other. Qed.

Lemma output_ready_mkdir (p : Fs.Path) (fs0 : Fs.t) :
  output_ready fs0 -> output_ready (Fs.mkdirSync p fs0).
Proof.
  unfold Fs.isDirectory, Fs.mkdirSync.
  destruct (Fs.lookup OUTPUT_DIR fs0) as [[| sz m d] |] eqn:E; try discriminate.
  intros _. now rewrite (lookup_mkdir_from_some p [] fs0 OUTPUT_DIR Fs.Dir E).
Qed.

(** A package is built below the output directory, which stays a
    directory. *)
Lemma preserves_createPortablePackage (platform arch jreName : string) :
  Eff.preserves output_ready (createPortablePackage archiver JAR_FILES platform arch jreName).
Proof.
  unfold createPortablePackage, copyDirectory, copyFileSync, createLauncher, createReadme,
    createArchive, ensureDir, rmSync.
  preserves_steps; apply preserves_modify_fs; intros fs0 H.
  all: try (apply output_ready_mkdir; exact H).
  all: try (apply output_ready_set; [cbn; discriminate | exact H]).
  - unfold Fs.isDirectory. now rewrite lookup_rmSync_outside.
  - unfold Fs.isDirectory. rewrite lookup_fold_set_other; [exact H |].
    intros e He Heq. apply tree_copy_paths in He. destruct He as [r Hr].
    rewrite Hr in Heq. discriminate Heq.
Qed.
Lemma package_all_attempts (ps : list (string * string * string)) :
  forall (results : list (string * bool)) (w : World unit),
    NoDup (map fst results ++ map target_name ps) ->
    exists rs w',
      package_all archiver JAR_FILES ps results w = (Ok (results ++ rs), w')
      /\ attempts (batch_of archiver JAR_FILES ps) w rs w'
      /\ good always w w'
      /\ map fst rs = map target_name ps.
Proof.
  induction ps as [| [[platform arch] jreName] ps IH]; intros results w Hnd.
  - exists [], w. rewrite app_nil_r. repeat split; try reflexivity.
    + constructor.
    + exists []. now rewrite app_nil_r.
  - cbn [package_all]. unfold bind at 1, try_catch.
    set (nm := target_name (platform, arch, jreName)) in *.
    assert (Hfresh : ~ In nm (map fst results)).
    { cbn in Hnd. apply NoDup_remove_2 in Hnd. intros Hin. apply Hnd, in_or_app. now left. }
    assert (Hnd' : forall r, NoDup (map fst (results ++ [(nm, r)]) ++ map target_name ps)).
    { intros r. rewrite map_app, <- app_assoc. exact Hnd. }
    destruct (bounded_createPortablePackage platform arch jreName w Logic.I) as [Hr Hg].
    destruct (createPortablePackage archiver JAR_FILES platform arch jreName w)
      as [[r | e | c |] w1] eqn:E; cbn [fst snd] in Hr, Hg;
      try contradiction; try discriminate.
    + rewrite obj_set_fresh by exact Hfresh.
      destruct (IH (results ++ [(nm, r)]) w1 (Hnd' r)) as [rs [w' [Hrun [Ha [Hg' Hn]]]]].
      exists ((nm, r) :: rs), w'. rewrite Hrun, <- app_assoc. repeat split.
      * eapply attempts_ok; [exact E | exact Ha].
      * destruct Hg as [_ [t1 H1]], Hg' as [_ [t2 H2]]. exists (t1 ++ t2).
        now rewrite H2, H1, app_assoc.
      * cbn. now rewrite Hn.
    + unfold bind at 1. rewrite emit_run. unfold ret.
      rewrite obj_set_fresh by exact Hfresh.
      set (w1' := mkWorld (fs w1) (globals w1) (trace w1 ++ [Log Failure _])).
      destruct (IH (results ++ [(nm, false)]) w1' (Hnd' false))
        as [rs [w' [Hrun [Ha [Hg' Hn]]]]].
      exists ((nm, false) :: rs), w'. rewrite Hrun, <- app_assoc. repeat split.
      * eapply attempts_throw; [exact E | exact Ha].
      * destruct Hg as [_ [t1 H1]], Hg' as [_ [t2 H2]].
        eexists. rewrite H2. subst w1'. cbn [trace]. rewrite H1, <- !app_assoc.
        reflexivity.
      * cbn. now rewrite Hn.
Qed.

Lemma package_summary_run (results : list (string * bool)) :
  forall w : World unit,
    for_each results (fun r => emit (Summary (fst r) (snd r))) w
    = (Ok tt,
       mkWorld (fs w) (globals w)
         (trace w ++ map (fun r => Summary (fst r) (snd r)) results)).
Proof.
  induction results as [| r results IH]; intros w; simpl.
  - rewrite app_nil_r. now destruct w.
  - unfold bind at 1. rewrite emit_run, IH. cbn. now rewrite <- app_assoc.
Qed.

Lemma show_archives_run (w : World unit) :
  exists (r : Res unit) (w' : World unit),
    show_archives w = (r, w')
    /\ good always w w'
    /\ (if Fs.isDirectory (fs w) OUTPUT_DIR
        then r = Ok tt
        else exists code : string, r = Throw (FsError code OUTPUT_DIR)).
Proof.
  unfold show_archives, Fs.isDirectory. unfold bind at 1, get_fs. unfold bind at 1.
  rewrite FsFacts.readdirSync_cases by discriminate.
  destruct (Fs.lookup OUTPUT_DIR (fs w)) as [[| sz m d] |] eqn:E.
  - match goal with
    | |- context [for_each ?l ?body w] =>
        destruct (bounded_returns always (for_each l body) w) as [[] [w' [E' G']]];
          [| exact Logic.I | rewrite E'; eauto]
    end.
    bounded_steps.
  - exists (Throw (FsError "ENOTDIR" OUTPUT_DIR)), w.
    split; [reflexivity | split; [now apply good_refl | eauto]].
  - exists (Throw (FsError "ENOENT" OUTPUT_DIR)), w.
    split; [reflexivity | split; [now apply good_refl | eauto]].
Qed.

Lemma package_prerequisites_run (w : World unit) :
  Fs.existsSync (fs w) JRE_DIR = true -> JAR_FILES <> [] ->
  exists w',
    checkPrerequisites JAR_FILES w = (Ok true, w') /\ good always w w' /\ fs w' = fs w.
Proof.
  intros He Hj. destruct JAR_FILES as [| j js] eqn:EJ; [now elim Hj |].
  eexists. split.
  - unfold checkPrerequisites. unfold bind at 1. rewrite emit_run.
    unfold bind at 1, existsSync. cbn [fs]. rewrite He. cbn [negb when_ orb].
    unfold bind at 1, ret at 1. unfold bind at 1. rewrite emit_run.
    unfold bind at 1. rewrite emit_run. reflexivity.
  - split; [| reflexivity].
    split; [exact Logic.I |]. cbn [trace]. rewrite <- !app_assoc. eauto.
Qed.

(** [ensureDir(OUTPUT_DIR)] on an output path that is missing or is a
    directory. *)
Lemma output_ready_after_ensureDir (w : World unit) :
  (Fs.existsSync (fs w) OUTPUT_DIR = true -> Fs.isDirectory (fs w) OUTPUT_DIR = true) ->
  exists w',
    ensureDir OUTPUT_DIR w = (Ok tt, w')
    /\ good always w w'
    /\ Fs.isDirectory (fs w') OUTPUT_DIR = true.
Proof.
  intros H. unfold ensureDir, bind, existsSync.
  destruct (Fs.existsSync (fs w) OUTPUT_DIR) eqn:E; cbn [negb when_].
  - exists w. split; [reflexivity |]. split; [now apply good_refl | now apply H].
  - eexists. split; [reflexivity |]. split.
    + split; [exact Logic.I |]. exists []. cbn [trace]. now rewrite app_nil_r.
    + cbn [fs]. unfold Fs.mkdirSync, OUTPUT_DIR. cbn [Fs.mkdir_from].
      change ([] ++ ["portable-releases"]) with OUTPUT_DIR. rewrite E.
      unfold Fs.isDirectory, Fs.existsSync in *.
      destruct (Fs.lookup OUTPUT_DIR (fs w)) eqn:El; [discriminate |].
      now rewrite (lookup_app_none _ _ _ El).
Qed.

(** The all-platforms branch of [main]. *)
Lemma package_main_batch (w : World unit) :
  Fs.existsSync (fs w) JRE_DIR = true ->
  JAR_FILES <> [] ->
  (Fs.existsSync (fs w) OUTPUT_DIR = true -> Fs.isDirectory (fs w) OUTPUT_DIR = true) ->
  exists (w0 w1 w' : World unit) (results : list (string * bool)) (code : Z),
    main archiver JAR_FILES None w = (Exit code, w')
    /\ good always w w0
    /\ attempts (batch_of archiver JAR_FILES platforms) w0 results w1
    /\ good always w1 w'
    /\ map fst results
       = ["windows-x64"; "macos-x64"; "macos-arm64"; "linux-x64"; "linux-arm64"]
    /\ (forall n ok, In (n, ok) results -> In (Summary n ok) (trace w'))
    /\ (code <> 0%Z <-> exists n, In (n, false) results).
Proof.
  intros He Hj Hout.
  pose proof (eq_refl (main archiver JAR_FILES None w)) as ER.
  unfold main at 2 in ER.
  unfold bind at 1 in ER. rewrite emit_run in ER.
  destruct (package_prerequisites_run
              (mkWorld (fs w) (globals w)
                 (trace w ++ [Log Header "Portable Version Builder for Aspose.Words"])) He Hj)
    as [wa [Ea [Ga Fa]]].
  rewrite (bind_ok _ _ _ _ _ Ea) in ER. cbn [negb] in ER. cbn [fs] in Fa.
  destruct (output_ready_after_ensureDir wa) as [wb [Eb [Gb Fb]]].
  { now rewrite Fa. }
  rewrite (bind_ok _ _ _ _ _ Eb) in ER.
  unfold bind at 1 in ER. rewrite emit_run in ER.
  set (w0 := mkWorld (fs wb) (globals wb) _) in ER.
  assert (G0 : good always w w0).
  { split; [exact Logic.I |]. destruct Ga as [_ [ta Ha]], Gb as [_ [tb Hb]].
    subst w0. cbn [trace] in *. rewrite Hb, Ha, <- !app_assoc. eauto. }
  destruct (package_all_attempts platforms [] w0) as [results [w1 [Erun [Hat [G1 Hnames]]]]].
  { cbn. repeat constructor; cbn; intuition discriminate. }
  assert (F1 : Fs.isDirectory (fs w1) OUTPUT_DIR = true).
  { apply (attempts_preserves (fun fs0 => Fs.isDirectory fs0 OUTPUT_DIR = true)
             (batch_of archiver JAR_FILES platforms) w0 w1 results);
      [| exact Hat | exact Fb].
    intros s Hin. unfold batch_of in Hin. apply in_map_iff in Hin.
    destruct Hin as [[[platform arch] jreName] [<- _]].
    apply preserves_createPortablePackage. }
  change ([] ++ results) with results in Erun. rewrite (bind_ok _ _ _ _ _ Erun) in ER.
  unfold bind at 1 in ER. rewrite emit_run in ER.
  rewrite (bind_ok _ _ _ _ _ (package_summary_run results (mkWorld _ _ _))) in ER.
  cbn [fs globals trace] in ER.
  set (w2 := mkWorld (fs w1) (globals w1) _) in ER.
  assert (G2 : good always w1 w2).
  { split; [exact Logic.I |]. subst w2. cbn [trace]. rewrite <- app_assoc. eauto. }
  assert (S2 : forall n ok, In (n, ok) results -> In (Summary n ok) (trace w2)).
  { intros n ok Hin. subst w2. cbn [trace].
    apply in_or_app. right. apply in_map_iff. exists (n, ok). auto. }
  destruct (show_archives_run w2) as [r3 [w3 [E3 [G3 H3]]]].
  change (fs w2) with (fs w1) in H3. rewrite F1 in H3. subst r3.
  rewrite (bind_ok _ _ _ _ _ E3) in ER.
  unfold bind at 1 in ER. rewrite emit_run in ER.
  unfold exit in ER.
  exists w0, w1. eexists. exists results. eexists. split; [exact ER |].
  split; [exact G0 |]. split; [exact Hat |]. split; [| split; [exact Hnames | split]].
  - split; [exact Logic.I |].
    destruct (good_trans always w1 w2 w3 G2 G3) as [_ [t Ht]].
    eexists. cbn [trace]. rewrite Ht, <- app_assoc. reflexivity.
  - intros n ok Hin. cbn [trace]. apply in_or_app. left.
    apply (good_In always w2 w3 _ G3). now apply S2.
  - split.
    + intros Hc. apply some_failed. destruct (Nat.eqb _ _); [now elim Hc | reflexivity].
    + intros Hf. apply some_failed in Hf. rewrite Hf. discriminate.
Qed.
End PackageBatch.

(** *** download-jdks.js *)
Section DownloadBatch.
Import DownloadJdks.
Variable http_get : string -> GetResult.
Variable zip_extractAllTo tar_x : Fs.Path -> Fs.Path -> Fs.t -> option Exn * Fs.t.
Variable JDK_VERSION : string.

Lemma bounded_downloadFile (fuel : nat) :
  forall (url : option string) (dest : Fs.Path),
    bounded always {| throws := true; hangs := true |}
      (downloadFile http_get fuel url dest).
Proof.
  induction fuel as [| fuel IH]; intros url dest; cbn [downloadFile].
  - now apply bounded_out_of_fuel.
  - unfold stream_opens, unlink_if_exists. bounded_steps; apply IH.
Qed.

Lemma bounded_extract (al : Allow) (t : ArchiveType) (a d : Fs.Path) :
  throws al = true -> bounded always al (extract zip_extractAllTo tar_x t a d).
Proof.
  intros Ht w _. unfold extract.
  destruct (match t with Zip => _ | TarGz => _ end) as [[e |] fs'];
    cbn [fst snd ok_res]; (split; [first [exact Ht | exact Logic.I] |]);
    (split; [exact Logic.I |]); cbn [trace]; rewrite <- ?app_assoc; eauto.
Qed.

Lemma bounded_download_if_needed (fuel : nat) (config : PlatformConfig) :
  bounded always {| throws := false; hangs := true |}
    (download_if_needed http_get fuel config).
Proof.
  unfold download_if_needed. bounded_steps. apply bounded_downloadFile.
Qed.

Lemma bounded_extract_and_install (platform : string) (config : PlatformConfig) :
  bounded always {| throws := false; hangs := true |}
    (extract_and_install zip_extractAllTo tar_x JDK_VERSION platform config).
Proof.
  unfold extract_and_install, locate_jdk. bounded_steps. now apply bounded_extract.
Qed.

Lemma bounded_download_and_install (fuel : nat) (platform : string)
    (config : PlatformConfig) :
  bounded always {| throws := false; hangs := true |}
    (download_and_install http_get zip_extractAllTo tar_x JDK_VERSION fuel platform config).
Proof.
  unfold download_and_install.
  pose proof bounded_download_if_needed. pose proof bounded_extract_and_install.
  bounded_steps.
Qed.

Lemma platform_attempted (fuel : nat) (platform : string) (config : PlatformConfig)
    (w : World unit) :
  good always w
    (snd (downloadAndExtractPlatform http_get zip_extractAllTo tar_x JDK_VERSION fuel
            platform config w))
  /\ In (Log Header platform)
       (trace (snd (downloadAndExtractPlatform http_get zip_extractAllTo tar_x JDK_VERSION
                      fuel platform config w)))
  /\ platform_outcome JDK_VERSION platform w
       (downloadAndExtractPlatform http_get zip_extractAllTo tar_x JDK_VERSION fuel
          platform config w).
Proof.
  assert (Hrest : forall (w1 : World unit),
             In (Log Header platform) (trace w1) ->
             (exists t, trace w1 = trace w ++ t) ->
             good always w
               (snd (download_and_install http_get zip_extractAllTo tar_x JDK_VERSION fuel
                       platform config w1))
             /\ In (Log Header platform)
                  (trace (snd (download_and_install http_get zip_extractAllTo tar_x
                                 JDK_VERSION fuel platform config w1)))
             /\ platform_outcome JDK_VERSION platform w
                  (download_and_install http_get zip_extractAllTo tar_x JDK_VERSION fuel
                     platform config w1)).
  { intros w1 Hin [t1 Ht1].
    destruct (bounded_download_and_install fuel platform config w1 Logic.I)
      as [Hr [_ [t Ht]]].
    unfold platform_outcome.
    destruct (download_and_install _ _ _ _ _ _ _ w1) as [[[] | e | c |] w2];
      cbn [fst snd ok_res throws hangs] in *; try discriminate; try contradiction;
      (split; [split; [exact Logic.I | rewrite Ht, Ht1, <- app_assoc; eauto] |]);
      (split; [rewrite Ht; apply in_or_app; now left | exact Logic.I]). }
  destruct w as [fs0 [] tr]. cbn [trace] in Hrest.
  unfold downloadAndExtractPlatform. DownloadSpec.run_download.
  destruct (Fs.existsSync fs0 (finalDir_of JDK_VERSION platform)) eqn:Ef.
  - unfold locate_jdk. DownloadSpec.run_download.
    rewrite FsFacts.readdirSync_cases by (unfold finalDir_of, DOWNLOAD_DIR; discriminate).
    cbn [fs]. unfold Fs.existsSync in Ef.
    destruct (Fs.lookup (finalDir_of JDK_VERSION platform) fs0) as [[| sz m d] |] eqn:El;
      [| | discriminate]; DownloadSpec.run_download.
    + destruct (Fs.existsSync fs0 (jdkPath config fs0 _ ++ _)); DownloadSpec.run_download.
      * cbn [fst snd trace]. split; [| split; [| exact Logic.I]].
        -- split; [exact Logic.I |]. cbn [trace]. rewrite <- app_assoc. eauto.
        -- rewrite !in_app_iff. cbn [In]. auto.
      * apply Hrest.
        -- cbn [trace]. rewrite !in_app_iff. cbn [In]. auto.
        -- cbn [trace]. rewrite <- app_assoc. eauto.
    + cbn [fst snd trace]. split; [| split].
      * split; [exact Logic.I | cbn [trace]; eauto].
      * rewrite in_app_iff. cbn [In]. auto.
      * unfold platform_outcome, Fs.existsSync, Fs.isDirectory. cbn [fst snd fs globals trace].
        rewrite El. repeat split.
  - apply Hrest.
    + cbn [trace]. rewrite in_app_iff. cbn [In]. auto.
    + cbn [trace]. eauto.
Qed.

Lemma all_platforms_attempted (fuel : nat) (ps : list (string * PlatformConfig)) :
  forall (w w' : World unit) (r : Res unit),
    for_each ps (fun pc => downloadAndExtractPlatform http_get zip_extractAllTo tar_x
                             JDK_VERSION fuel (fst pc) (snd pc)) w = (r, w') ->
    good always w w' /\ loop_outcome JDK_VERSION ps r w'.
Proof.
  induction ps as [| pc ps IH]; intros w w' r Hrun; cbn [for_each] in Hrun.
  - injection Hrun as <- <-. split; [now apply good_refl | intros ? []].
  - unfold bind at 1 in Hrun.
    destruct (platform_attempted fuel (fst pc) (snd pc) w) as [Hg [Hin Hout]].
    unfold platform_outcome in Hout.
    destruct (downloadAndExtractPlatform _ _ _ _ _ _ _ w) as [[[] | e | c |] w1];
      cbn [fst snd] in *; try contradiction.
    + destruct (IH w1 w' r Hrun) as [Hg' Hall].
      split; [now apply (good_trans always w w1) |].
      destruct r as [[] | e | c |]; cbn [loop_outcome] in *; try exact Hall.
      * intros pc' [<- | Hpc]; [| now apply Hall]. now apply (good_In always w1 w').
      * destruct Hall as (before & pc0 & after & t & Hps & He & Hb & Ht & Hx & Hd).
        exists (pc :: before), pc0, after, t. rewrite Hps. repeat split; try assumption.
        intros pc' [<- | Hpc]; [| now apply Hb]. now apply (good_In always w1 w').
    + injection Hrun as <- <-. split; [exact Hg |].
      destruct Hout as (He & Hw & Hx & Hd). subst w1. cbn [loop_outcome fs trace].
      exists [], pc, ps, (trace w). repeat split; try assumption. intros ? [].
    + injection Hrun as <- <-. split; [exact Hg | exact Logic.I].
Qed.

(** [main]: the banner, the loop, the closing line when the loop returns. *)
Lemma download_main_batch (fuel : nat) (ps : list (string * PlatformConfig))
    (w w' : World unit) (r : Res unit) :
  main http_get zip_extractAllTo tar_x JDK_VERSION ps fuel w = (r, w') ->
  loop_outcome JDK_VERSION ps r w'.
Proof.
  unfold main. unfold bind at 1. rewrite emit_run. unfold bind at 1.
  destruct (for_each ps _ _) as [r1 w1] eqn:E.
  destruct (all_platforms_attempted fuel ps _ _ _ E) as [_ Hall].
  destruct r1 as [[] | e | c |]; cbn [loop_outcome] in Hall.
  - rewrite emit_run. intros H. injection H as <- <-. cbn [loop_outcome trace].
    intros pc Hpc. apply in_or_app. left. now apply Hall.
  - intros H. injection H as <- <-. exact Hall.
  - contradiction.
  - intros H. injection H as <- <-. exact Logic.I.
Qed.
End DownloadBatch.




End BatchSpec.

(** ** The platform targets of the three stages *)
Module PlatformSpec.

(** C9 (the code against the claim): the downloader and the JRE builder
    iterate over the six targets, the package assembler over five of them;
    windows-arm64 is not among the targets of the assembler. *)
Theorem package_assembler_omits_windows_arm64 :
  map CreatePortable.target_name CreatePortable.platforms
  = ["windows-x64"; "macos-x64"; "macos-arm64"; "linux-x64"; "linux-arm64"]
  /\ Js.arr_includes (map CreatePortable.target_name CreatePortable.platforms)
       "windows-arm64" = false
  /\ (forall spawnSync JDK_VERSION,
        map fst (BuildJre.builders spawnSync JDK_VERSION) = DownloadJdks.six_targets)
  /\ (forall JDK_VERSION,
        match DownloadJdks.getPlatformConfig JDK_VERSION with
        | Some ps => map fst ps = DownloadJdks.six_targets
        | None => True
        end).
Proof.
  repeat split.
  intros V. unfold DownloadJdks.getPlatformConfig.
  destruct (Js.assoc V DownloadJdks.VERSION_CONFIG); [reflexivity | exact I].
Qed.

(** An all-platforms run of the assembler with a JRE for every target of the
    JRE builder: no package is attempted for windows-arm64. *)
Example assembler_run_without_windows_arm64 :
  existsb (fun ev => match ev with
                     | Eff.Log Eff.Step msg => Js.includes msg "windows-arm64"
                     | _ => false
                     end)
          (Eff.trace (snd (CreatePortable.script Scenario.archiver_ok None
                             (Scenario.package_fs
                              ++ [ (["jre-builds"; "jre-win-arm64"], Fs.Dir) ]))))
  = false.
Proof. vm_compute. reflexivity. Qed.

End PlatformSpec.

(** * Further properties of the four scripts *)

(** ** Trimmed and joined strings *)
Module TextFacts.
Import Js Text JsFacts.

Lemma trimStart_clean (s : string) :
  trimStart s = EmptyString \/ starts_clean (trimStart s) = true.
Proof.
  induction s as [| c s IH]; simpl; [now left |].
  destruct (is_ws c) eqn:E; [exact IH |]. right. simpl. now rewrite E.
Qed.

Lemma trimEnd_clean (s : string) :
  trimEnd s = EmptyString \/ ends_clean (trimEnd s) = true.
Proof.
  induction s as [| c s IH]; simpl; [now left |].
  destruct (is_ws c) eqn:E; simpl.
  - destruct IH as [-> | IH]; [now left |]. right.
    destruct (trimEnd s) as [| d t] eqn:Et; [discriminate |]. simpl. exact IH.
  - right. destruct IH as [-> | IH]; simpl; [now rewrite E |].
    destruct (trimEnd s) as [| d t] eqn:Et; [discriminate |]. exact IH.
Qed.

Lemma trimEnd_starts_clean (s : string) :
  starts_clean s = true -> starts_clean (trimEnd s) = true.
Proof.
  destruct s as [| c s]; simpl; [discriminate |]. intros H.
  apply negb_true_iff in H. rewrite H. simpl. now rewrite H.
Qed.

Lemma trimStart_id (s : string) : starts_clean s = true -> trimStart s = s.
Proof.
  destruct s as [| c s]; simpl; [discriminate |]. intros H.
  apply negb_true_iff in H. now rewrite H.
Qed.

Lemma trimEnd_id (s : string) : ends_clean s = true -> trimEnd s = s.
Proof.
  induction s as [| c s IH]; [discriminate |].
  intros H.
  change (trimEnd (String c s))
    with (if is_ws c && is_empty (trimEnd s) then EmptyString else String c (trimEnd s)).
  destruct s as [| d t].
  - simpl in *. apply negb_true_iff in H. now rewrite H.
  - change (ends_clean (String d t) = true) in H. rewrite (IH H).
    simpl is_empty. now rewrite andb_false_r.
Qed.

Lemma trim_id (s : string) :
  starts_clean s = true -> ends_clean s = true -> trim s = s.
Proof. intros Hs He. unfold trim. now rewrite (trimStart_id s Hs), (trimEnd_id s He). Qed.

(** The result of [trim] is empty or clean at both ends. *)
Lemma trim_clean (s : string) :
  truthy (trim s) = true ->
  starts_clean (trim s) = true /\ ends_clean (trim s) = true.
Proof.
  unfold trim. intros H.
  destruct (trimStart_clean s) as [E | Hs].
  - rewrite E in H. discriminate.
  - split.
    + now apply trimEnd_starts_clean.
    + destruct (trimEnd_clean (trimStart s)) as [E | He]; [| exact He].
      rewrite E in H. discriminate.
Qed.

Lemma trim_idempotent (s : string) : trim (trim s) = trim s.
Proof.
  destruct (truthy (trim s)) eqn:E.
  - destruct (trim_clean s E) as [Hs He]. now apply trim_id.
  - unfold truthy in E. apply negb_false_iff in E.
    destruct (trim s); [reflexivity | discriminate].
Qed.

Lemma starts_clean_app (a b : string) :
  starts_clean a = true -> starts_clean (a ++ b) = true.
Proof. destruct a; simpl; [discriminate | auto]. Qed.

Lemma ends_clean_app (a b : string) :
  ends_clean b = true -> ends_clean (a ++ b) = true.
Proof.
  intros H. induction a as [| c a IH]; simpl; [exact H |].
  destruct (a ++ b)%string eqn:E; [| exact IH]. discriminate.
Qed.

Lemma starts_clean_truthy (s : string) : starts_clean s = true -> truthy s = true.
Proof. destruct s; simpl; [discriminate | reflexivity]. Qed.

(** A comma-separated list of clean names is clean. *)
Lemma join_clean (sep : string) (l : list string) :
  l <> [] ->
  Forall (fun m => starts_clean m = true /\ ends_clean m = true) l ->
  starts_clean (join sep l) = true /\ ends_clean (join sep l) = true.
Proof.
  unfold join. induction l as [| m l IH]; intros Hne Hall; [now elim Hne |].
  inversion Hall as [| ? ? [Hs He] Hl]; subst.
  destruct l as [| m' l]; simpl; [now split |].
  destruct IH as [_ IHe]; [discriminate | exact Hl |].
  split.
  - now apply starts_clean_app.
  - apply ends_clean_app, ends_clean_app. exact IHe.
Qed.

(** Characters of the pieces. *)
Lemma trimStart_chars (s : string) (a : ascii) :
  In a (list_ascii_of_string (trimStart s)) -> In a (list_ascii_of_string s).
Proof.
  induction s as [| c s IH]; simpl; [auto |].
  destruct (is_ws c); simpl; auto.
Qed.

Lemma trimEnd_chars (s : string) (a : ascii) :
  In a (list_ascii_of_string (trimEnd s)) -> In a (list_ascii_of_string s).
Proof.
  induction s as [| c s IH]; simpl; [auto |].
  destruct (is_ws c && is_empty (trimEnd s)); simpl; [tauto |].
  intros [H | H]; auto.
Qed.

Lemma trim_chars (s : string) (a : ascii) :
  In a (list_ascii_of_string (trim s)) -> In a (list_ascii_of_string s).
Proof. intros H. now apply trimStart_chars, trimEnd_chars. Qed.

Lemma split_nonempty (sep : ascii) (s : string) : split sep s <> [].
Proof.
  induction s as [| c s IH]; simpl; [discriminate |].
  destruct (Ascii.eqb c sep); [discriminate |].
  destruct (split sep s); discriminate.
Qed.

Lemma split_no_sep (sep : ascii) (s x : string) :
  In x (split sep s) -> ~ In sep (list_ascii_of_string x).
Proof.
  revert x. induction s as [| c s IH]; simpl; intros x.
  - intros [<- | []]. simpl. tauto.
  - destruct (Ascii.eqb c sep) eqn:E.
    + intros [<- | H]; [simpl; tauto | now apply IH].
    + destruct (split sep s) as [| y ys] eqn:Es.
      * intros [<- | []]. simpl. intros [-> | []]. now rewrite Ascii.eqb_refl in E.
      * intros [<- | H].
        { simpl. intros [-> | H]; [now rewrite Ascii.eqb_refl in E |].
          apply (IH y); [now left | exact H]. }
        { apply IH. now right. }
Qed.

Lemma endsWith_app (a b : string) : endsWith (a ++ b) b = true.
Proof.
  unfold endsWith. rewrite string_length_app.
  replace (String.length a + String.length b - String.length b) with (String.length a) by lia.
  rewrite substring_skip, String.eqb_refl.
  rewrite andb_true_r. apply Nat.leb_le. lia.
Qed.

End TextFacts.

(** ** Paths that stay, move or disappear *)
Module FsMore.
Import FsFacts.

Lemma lookup_remove_other (p q : Fs.Path) (fs0 : Fs.t) :
  p <> q -> Fs.lookup p (Fs.remove q fs0) = Fs.lookup p fs0.
Proof.
  intros H. unfold Fs.remove. induction fs0 as [| [q' m] fs0 IH]; simpl; [reflexivity |].
  destruct (Fs.path_eqb q q') eqn:E; simpl.
  - apply path_eqb_eq in E. subst q'. now rewrite (path_eqb_neq p q H).
  - destruct (Fs.path_eqb p q'); [reflexivity | exact IH].
Qed.

Lemma exists_In (fs0 : Fs.t) (p : Fs.Path) :
  Fs.existsSync fs0 p = true <-> exists n, In (p, n) fs0.
Proof.
  unfold Fs.existsSync. induction fs0 as [| [q m] fs0 IH]; simpl.
  - split; [discriminate | intros [n []]].
  - destruct (Fs.path_eqb p q) eqn:E.
    + apply path_eqb_eq in E. subst q. split; [eauto | reflexivity].
    + rewrite IH. split.
      * intros [n H]. eauto.
      * intros [n [H | H]]; [| eauto]. injection H as -> ->.
        now rewrite path_eqb_refl in E.
Qed.

Lemma exists_set_mono (p q : Fs.Path) (n : Fs.Node) (fs0 : Fs.t) :
  Fs.existsSync fs0 p = true -> Fs.existsSync (Fs.set q n fs0) p = true.
Proof.
  unfold Fs.existsSync. intros H.
  destruct (list_eq_dec string_dec p q) as [-> | Hne].
  - now rewrite lookup_set_same.
  - now rewrite lookup_set_other.
Qed.

Lemma strip_app (src rest : Fs.Path) : Fs.strip src (src ++ rest) = Some rest.
Proof.
  induction src as [| x src IH]; simpl; [reflexivity |].
  now rewrite String.eqb_refl.
Qed.

Lemma exists_rename (src dst rest : Fs.Path) (fs0 : Fs.t) :
  Fs.existsSync fs0 (src ++ rest) = true ->
  Fs.existsSync (Fs.renameSync src dst fs0) (dst ++ rest) = true.
Proof.
  intros H. apply exists_In in H. destruct H as [n H]. apply exists_In. exists n.
  unfold Fs.renameSync. apply in_map_iff. exists (src ++ rest, n). split; [| exact H].
  unfold Fs.reroot. cbn [fst snd]. now rewrite strip_app.
Qed.

Lemma is_under_app (p rest : Fs.Path) : Fs.is_under p (p ++ rest) = true.
Proof.
  induction p as [| x p IH]; simpl; [reflexivity |].
  now rewrite String.eqb_refl.
Qed.

Lemma is_under_trans (p q r : Fs.Path) :
  Fs.is_under p q = true -> Fs.is_under q r = true -> Fs.is_under p r = true.
Proof.
  revert q r. induction p as [| x p IH]; intros q r; simpl; [reflexivity |].
  destruct q as [| y q]; [discriminate |]. destruct r as [| z r]; simpl; [discriminate |].
  intros H1 H2. apply andb_true_iff in H1, H2. destruct H1 as [Hxy H1], H2 as [Hyz H2].
  apply String.eqb_eq in Hxy, Hyz. subst. rewrite String.eqb_refl. simpl.
  now apply (IH q r).
Qed.

(** Two different names in the same directory: nothing lies under both. *)
Lemma is_under_sibling (d : Fs.Path) (a b : string) (q : Fs.Path) :
  a <> b -> Fs.is_under (d ++ [a]) q = true -> Fs.is_under (d ++ [b]) q = false.
Proof.
  intros Hab. revert q. induction d as [| x d IH]; intros q; simpl.
  - destruct q as [| y q]; [discriminate |]. intros H.
    apply andb_true_iff in H. destruct H as [H _]. apply String.eqb_eq in H. subst y.
    apply not_eq_sym in Hab. apply String.eqb_neq in Hab. now rewrite Hab.
  - destruct q as [| y q]; [discriminate |]. intros H.
    apply andb_true_iff in H. destruct H as [Hx H]. rewrite Hx. simpl. now apply IH.
Qed.

Lemma exists_rmSync_outside (p q : Fs.Path) (fs0 : Fs.t) :
  Fs.is_under p q = false ->
  Fs.existsSync (Fs.rmSync p fs0) q = Fs.existsSync fs0 q.
Proof. intros H. unfold Fs.existsSync. now rewrite lookup_rmSync_outside. Qed.

Lemma exists_rmSync_under (p q : Fs.Path) (fs0 : Fs.t) :
  Fs.is_under p q = true -> Fs.existsSync (Fs.rmSync p fs0) q = false.
Proof. intros H. unfold Fs.existsSync. now rewrite lookup_rmSync_under. Qed.

End FsMore.

(** ** The analyzer: discovery, parsing and hand-over of the module list *)
Module AnalyzeJarMore.
Import AnalyzeJar Text TextFacts.

Section WithHost.
Variable h : Host.

Lemma analyzeJAR_elements (jarFile jdk : string) (ms : list string) (m : string) :
  analyzeJAR h jarFile jdk = Some ms -> In m ms -> module_name_ok m.
Proof.
  unfold analyzeJAR.
  destruct (match execSync h _ with Some _ => _ | None => _ end) as [out |];
    [| discriminate].
  destruct (_ || _); [discriminate |].
  destruct (filter _ _) as [| x xs] eqn:Ef; [discriminate |].
  intros H. injection H as <-. rewrite <- Ef. intros Hin.
  apply filter_In in Hin. destruct Hin as [Hin Hp].
  apply andb_true_iff in Hp. destruct Hp as [Hp He].
  apply andb_true_iff in Hp. destruct Hp as [Ht Hd].
  apply negb_true_iff in He, Hd.
  apply in_map_iff in Hin. destruct Hin as [piece [<- Hpiece]].
  repeat split; try assumption.
  - apply trim_idempotent.
  - intros Hc. apply trim_chars in Hc. now apply (split_no_sep _ _ _ Hpiece).
Qed.

(** X1: a successful analysis returns at least one module, and every
    module it returns is a non-empty name without surrounding white space,
    that does not start with a dash, does not contain "Error" and does not
    contain a comma. *)
Theorem analyzeJAR_modules_wellformed (jarFile jdk : string) (ms : list string) :
  analyzeJAR h jarFile jdk = Some ms ->
  ms <> [] /\ Forall module_name_ok ms.
Proof.
  intros H. split.
  - now apply (AnalyzeJarSpec.analyzeJAR_nonempty h jarFile jdk).
  - apply Forall_forall. intros m Hin. now apply (analyzeJAR_elements jarFile jdk ms).
Qed.

(** X2: the JAR discovery never returns an empty list: it returns at
    least one path, or reports an error and ends the process with status
    1. *)
Theorem findJarFiles_never_empty (input : option string) :
  match findJarFiles h input with
  | inr jars => jars <> []
  | inl (code, out) => code = 1%Z /\ out <> []
  end.
Proof.
  unfold findJarFiles.
  destruct (negb (Js.env_truthy input)).
  - destruct (if existsSync h "jars" && isDirectory h "jars" then _ else _) as [| j js];
      [| discriminate].
    destruct (filter _ _) as [| j js]; [split; [reflexivity | discriminate] | discriminate].
  - destruct (existsSync h _); [| split; [reflexivity | discriminate]].
    destruct (isFile h _ && _); [discriminate |].
    destruct (isDirectory h _); [| split; [reflexivity | discriminate]].
    destruct (jars_in h _); [split; [reflexivity | discriminate] | discriminate].
Qed.

(** X3: the JDK that [findJDK] returns has a jdeps binary in its bin
    directory: jdeps.exe for the downloaded Windows JDK, the host's
    jdeps otherwise.  The downloaded Windows JDK is accepted on every
    host, also on one where [analyzeJAR] will look for bin/jdeps. *)
Theorem findJDK_has_jdeps (jdk : string) :
  findJDK h = Some jdk ->
  existsSync h (path_join h [jdk; "bin"; "jdeps.exe"]) = true
  \/ existsSync h (path_join h [jdk; "bin"; jdeps_name h]) = true.
Proof.
  unfold findJDK.
  destruct (existsSync h (path_join h [script_dir h; "jdk-downloads"; _]) && _) eqn:Ed.
  - intros H. injection H as <-. left. now apply andb_true_iff in Ed.
  - destruct (match env_JAVA_HOME h with Some _ => _ | None => _ end) as [jh |] eqn:Ej.
    + intros H. injection H as <-. right.
      destruct (env_JAVA_HOME h) as [jh' |]; [| discriminate].
      destruct (Js.truthy jh' && existsSync h jh' && has_jdeps h jh') eqn:Ec; [| discriminate].
      injection Ej as <-. now apply andb_true_iff in Ec.
    + destruct (find _ commonPaths) as [p |] eqn:Ef.
      * intros H. injection H as <-. right. apply find_some in Ef.
        destruct Ef as [_ Ef]. now apply andb_true_iff in Ef.
      * destruct (execSync h _) as [out |]; [| discriminate].
        destruct (Js.truthy _); [| discriminate].
        destruct (has_jdeps h _) eqn:Eh; [| discriminate].
        intros H. injection H as <-. right. exact Eh.
Qed.

Lemma final_modules_clean (r : Report) :
  main h = inr r ->
  finalModules r <> []
  /\ Forall (fun m => starts_clean m = true /\ ends_clean m = true) (finalModules r)
  /\ written r = Js.join "," (finalModules r).
Proof.
  unfold main. destruct (findJarFiles h (JAR_INPUT h)) as [e | jars]; [discriminate |].
  cbv zeta.
  set (a := match findJDK h with Some jdk => _ | None => _ end).
  assert (Ha : forall m, In m (acc_set a) -> module_name_ok m).
  { subst a. destruct (findJDK h) as [jdk |]; cbn [acc_set]; intros m Hm.
    - apply AnalyzeJarSpec.loop_set in Hm.
      destruct Hm as [[] | (j & ms & _ & E & Hin)].
      now apply (analyzeJAR_elements j jdk ms).
    - destruct Hm. }
  destruct (acc_set a) as [| x xs] eqn:Ea.
  - intros H. injection H as <-. cbn [finalModules written].
    split; [discriminate |]. split; [| reflexivity].
    repeat constructor.
  - intros H. injection H as <-. cbn [finalModules written].
    split; [| split; [| reflexivity]].
    + intros E. assert (Hx : In x []) by (rewrite <- E; apply (proj2 (JsFacts.sort_In (x :: xs) x)); now left).
      destruct Hx.
    + apply Forall_forall. intros m Hm.
      apply (proj1 (JsFacts.sort_In (x :: xs) m)) in Hm.
      destruct (Ha m Hm) as (Ht & Hid & _). rewrite <- Hid. apply trim_clean.
      now rewrite Hid.
Qed.

Lemma written_clean (r : Report) :
  main h = inr r ->
  Js.truthy (written r) = true /\ Js.trim (written r) = written r.
Proof.
  intros Hm. destruct (final_modules_clean r Hm) as (Hne & Hall & Hw).
  destruct (join_clean "," (finalModules r) Hne Hall) as [Hs He].
  rewrite <- Hw in Hs, He.
  split; [now apply starts_clean_truthy | now apply trim_id].
Qed.

Lemma file_modules_of_written (r : Report) (fs0 : Fs.t) (sz : N) (mt : Z) :
  main h = inr r ->
  Fs.lookup [outputFile r] fs0 = Some (Fs.File sz mt (written r)) ->
  BuildJre.file_modules fs0 (outputFile r) = Some (written r).
Proof.
  intros Hm Hl. destruct (written_clean r Hm) as [Hy Ht].
  unfold BuildJre.file_modules. rewrite Hl, Ht, Hy. reflexivity.
Qed.

(** X4: the text the analyzer writes to its output file is never blank
    and has no surrounding white space, so that the JRE build script,
    which trims a module file and ignores it when nothing is left, reads
    back exactly what was written. *)
Theorem written_modules_read_back (r : Report) (fs0 : Fs.t) (sz : N) (mt : Z) :
  main h = inr r ->
  Fs.lookup [outputFile r] fs0 = Some (Fs.File sz mt (written r)) ->
  Js.truthy (written r) = true
  /\ Js.trim (written r) = written r
  /\ BuildJre.file_modules fs0 (outputFile r) = Some (written r).
Proof.
  intros Hm Hl. destruct (written_clean r Hm) as [Hy Ht].
  repeat split; try assumption. now apply (file_modules_of_written r fs0 sz mt).
Qed.

Lemma output_file_name (r : Report) :
  main h = inr r -> Js.endsWith (outputFile r) "-modules.txt" = true.
Proof.
  unfold main. destruct (findJarFiles h (JAR_INPUT h)) as [e | jars]; [discriminate |].
  cbv zeta. destruct (acc_set _); intros H; injection H as <-; cbn [outputFile];
    (destruct (Nat.ltb 1 (List.length jars)); [reflexivity | apply endsWith_app]).
Qed.

Lemma readdir_root_In (fs0 : Fs.t) (f : string) :
  Fs.existsSync fs0 [f] = true -> In f (Fs.readdirSync fs0 []).
Proof.
  unfold Fs.existsSync. induction fs0 as [| [q n] fs0 IH]; [discriminate |].
  cbn [Fs.lookup Fs.readdirSync].
  destruct (Fs.path_eqb [f] q) eqn:E.
  - intros _. apply FsFacts.path_eqb_eq in E. subst q. simpl. now left.
  - intros H. specialize (IH H). destruct (Fs.child_of [] q); [now right | exact IH].
Qed.

(** X5: the name of the analyzer's output file always ends with
    "-modules.txt"; once the file is in the working directory it is among
    the module files the JRE build script considers. *)
Theorem analyzer_output_is_candidate (r : Report) (fs0 : Fs.t) :
  main h = inr r ->
  Fs.existsSync fs0 [outputFile r] = true ->
  Js.endsWith (outputFile r) "-modules.txt" = true
  /\ In (outputFile r) (BuildJre.autoModuleFiles fs0).
Proof.
  intros Hm He. pose proof (output_file_name r Hm) as Hn. split; [exact Hn |].
  unfold BuildJre.autoModuleFiles.
  apply (VersionSpec.sort_by_In (fun f => Fs.mtimeMs_of fs0 [f])).
  apply filter_In. split; [now apply readdir_root_In | exact Hn].
Qed.

(** X6: from the analyzer to the JRE build script: when the analyzer's
    output file is the most recently modified module file of the working
    directory, no override is set and custom-modules.txt offers nothing,
    the top level of the build script ends with MODULES equal to the text
    the analyzer wrote and the file named as its source. *)
Theorem analyzer_output_feeds_build (r : Report) (fs0 : Fs.t) (sz : N) (mt : Z)
    (rest : list string) (tr : list Eff.Event) :
  main h = inr r ->
  Fs.lookup [outputFile r] fs0 = Some (Fs.File sz mt (written r)) ->
  BuildJre.autoModuleFiles fs0 = outputFile r :: rest ->
  BuildJre.file_modules fs0 "custom-modules.txt" = None ->
  BuildJre.toplevel None (Eff.mkWorld fs0 BuildJre.initial_globals tr)
  = (Eff.Ok tt,
     Eff.mkWorld fs0
       {| BuildJre.MODULES := written r;
          BuildJre.modulesSource := outputFile r;
          BuildJre.colors_ready := true |}
       tr).
Proof.
  intros Hm Hl Ha Hc.
  pose proof (file_modules_of_written r fs0 sz mt Hm Hl) as Hf.
  rewrite (BuildJreSpec.toplevel_selects_silently None fs0 tr eq_refl).
  unfold BuildJre.resolve_modules. rewrite Hc, Ha, Hf. reflexivity.
Qed.

End WithHost.

(** The first JAR of [Scenario]. *)
Lemma analyzeJAR_modules_wellformed_witness :
  ["java.base"; "java.xml"] <> [] /\ Forall module_name_ok ["java.base"; "java.xml"].
Proof.
  apply (analyzeJAR_modules_wellformed (Scenario.analyzer_host true) "jars/X.jar" "/opt/jdk").
  vm_compute. reflexivity.
Defined.

(** The JDK of [Scenario] is found through JAVA_HOME. *)
Lemma findJDK_has_jdeps_witness :
  existsSync (Scenario.analyzer_host true) "/opt/jdk/bin/jdeps.exe" = true
  \/ existsSync (Scenario.analyzer_host true) "/opt/jdk/bin/jdeps" = true.
Proof.
  apply (findJDK_has_jdeps (Scenario.analyzer_host true) "/opt/jdk").
  vm_compute. reflexivity.
Defined.

(** The report of [Scenario], written to the working directory. *)
Lemma written_modules_read_back_witness :
  BuildJre.file_modules Cases.handoff_fs "combined-modules.txt"
  = Some "java.base,java.sql,java.xml".
Proof.
  destruct (written_modules_read_back (Scenario.analyzer_host true) Cases.analyzer_report
              Cases.handoff_fs 27 2000) as (_ & _ & H).
  - vm_compute. reflexivity.
  - reflexivity.
  - exact H.
Defined.

(** The same file is a candidate of the build script. *)
Lemma analyzer_output_is_candidate_witness :
  In "combined-modules.txt" (BuildJre.autoModuleFiles Cases.handoff_fs).
Proof.
  destruct (analyzer_output_is_candidate (Scenario.analyzer_host true) Cases.analyzer_report
              Cases.handoff_fs) as [_ H].
  - vm_compute. reflexivity.
  - reflexivity.
  - exact H.
Defined.

(** The build script starts with the modules of the report. *)
Lemma analyzer_output_feeds_build_witness :
  BuildJre.MODULES
    (Eff.globals (snd (BuildJre.toplevel None
                         (Eff.mkWorld Cases.handoff_fs BuildJre.initial_globals []))))
  = "java.base,java.sql,java.xml".
Proof.
  rewrite (analyzer_output_feeds_build (Scenario.analyzer_host true) Cases.analyzer_report
             Cases.handoff_fs 27 2000 [] []).
  - reflexivity.
  - vm_compute. reflexivity.
  - reflexivity.
  - reflexivity.
  - reflexivity.
Defined.

End AnalyzeJarMore.

(** ** The JRE build script: module source, JDK lookup, link step, single platform *)
Module BuildJreMore.
Import Eff BuildJre FsFacts BuildJreSpec Bounded.

(** X7: without the MODULES override the top-level statements end
    normally, with [MODULES] and [modulesSource] as the precedence of
    [resolve_modules] gives them (custom-modules.txt, then the most recent
    *-modules.txt file, then the default), with [colors] initialised, the
    file system untouched and nothing printed. *)
Theorem module_source_precedence (env_MODULES : option string) (fs0 : Fs.t)
    (tr : list Event) :
  Js.env_truthy env_MODULES = false ->
  let w' := snd (toplevel env_MODULES (mkWorld fs0 initial_globals tr)) in
  fst (toplevel env_MODULES (mkWorld fs0 initial_globals tr)) = Ok tt
  /\ (MODULES (globals w'), modulesSource (globals w')) = resolve_modules env_MODULES fs0
  /\ colors_ready (globals w') = true
  /\ fs w' = fs0
  /\ trace w' = tr.
Proof.
  intros Henv. cbv zeta. rewrite (toplevel_selects_silently env_MODULES fs0 tr Henv).
  cbn [fst snd fs globals trace MODULES modulesSource colors_ready].
  repeat split. now destruct (resolve_modules env_MODULES fs0).
Qed.

(** X8: the module file the top level tries first is an entry of the
    working directory whose name ends with "-modules.txt" and whose
    modification time is the greatest among such entries. *)
Theorem latest_module_file_is_newest (fs0 : Fs.t) (latest : string) (rest : list string) :
  autoModuleFiles fs0 = latest :: rest ->
  Js.endsWith latest "-modules.txt" = true
  /\ In latest (Fs.readdirSync fs0 [])
  /\ forall f, In f (Fs.readdirSync fs0 []) -> Js.endsWith f "-modules.txt" = true ->
               (Fs.mtimeMs_of fs0 [f] <= Fs.mtimeMs_of fs0 [latest])%Z.
Proof.
  unfold autoModuleFiles. intros E.
  pose proof (VersionSpec.sort_by_head (fun f => Fs.mtimeMs_of fs0 [f])
                (filter (fun f => Js.endsWith f "-modules.txt") (Fs.readdirSync fs0 []))) as H.
  cbv beta in H. rewrite E in H. destruct H as [Hin Hmax].
  apply filter_In in Hin. destruct Hin as [Hin Hn].
  repeat split; try assumption.
  intros f Hf Hfn. apply Hmax. apply filter_In. now split.
Qed.

Section Builder.
Variable spawnSync : Fs.Path -> list string -> Fs.t -> SpawnResult * Fs.t.
Variable JDK_VERSION : string.

(** X9: [findJdkPath] returns the primary directory or one of the
    variants; the primary one whenever it exists; and a directory that does
    not exist only when it is the primary one and no candidate exists. *)
Theorem findJdkPath_prefers_existing (fs0 : Fs.t) (platform : string)
    (archVariants : list string) :
  let candidates := map (jdk_dir JDK_VERSION) (platform :: archVariants) in
  let p := findJdkPath JDK_VERSION fs0 platform archVariants in
  In p candidates
  /\ (Fs.existsSync fs0 (jdk_dir JDK_VERSION platform) = true
      -> p = jdk_dir JDK_VERSION platform)
  /\ (Fs.existsSync fs0 p = false
      -> p = jdk_dir JDK_VERSION platform
         /\ forall q, In q candidates -> Fs.existsSync fs0 q = false).
Proof.
  cbv zeta. unfold findJdkPath.
  destruct (Fs.existsSync fs0 (jdk_dir JDK_VERSION platform)) eqn:Ep.
  - split; [now left |]. split; [reflexivity |]. intros H. congruence.
  - destruct (find _ archVariants) as [v |] eqn:Ef.
    + apply find_some in Ef. destruct Ef as [Hin Hv].
      split; [right; now apply in_map |]. split; [discriminate |]. intros H. congruence.
    + split; [now left |]. split; [reflexivity |]. intros _. split; [reflexivity |].
      intros q [<- | Hq]; [exact Ep |].
      apply in_map_iff in Hq. destruct Hq as [v [<- Hv]].
      exact (find_none _ _ Ef v Hv).
Qed.

Lemma existsb_find {A : Type} (f : A -> bool) (l : list A) :
  existsb f l = true <-> find f l <> None.
Proof.
  induction l as [| x l IH]; simpl; [split; [discriminate | intros H; now elim H] |].
  destruct (f x); simpl; [split; [discriminate | reflexivity] | exact IH].
Qed.

Lemma checkJdk_run (platform : string) (jdkPath : Fs.Path) (w : W) :
  ready (globals w) ->
  exists t,
    checkJdk platform jdkPath w
    = (if checkJdk_throws (fs w) jdkPath
       then Throw (FsError "ENOTDIR" JDK_DIR)
       else Ok (Fs.existsSync (fs w) jdkPath
                && existsb (Fs.existsSync (fs w)) (jlinkPaths jdkPath)),
       mkWorld (fs w) (globals w) (trace w ++ t))
    /\ spawn_count t = 0.
Proof.
  intros Hc. destruct w as [fs0 g tr]. cbn [fs globals trace] in *. unfold ready in Hc.
  unfold checkJdk, checkJdk_throws. run_build.
  destruct (Fs.existsSync fs0 jdkPath) eqn:Ej; cbn [negb andb].
  - destruct (existsb (Fs.existsSync fs0) (jlinkPaths jdkPath)) eqn:Eb; cbn [negb].
    + exists []. rewrite app_nil_r. split; reflexivity.
    + cbn [for_each jlinkPaths]. repeat (progress (run_build; rewrite ?Hc)).
      eexists. split; [rewrite <- !app_assoc; reflexivity | reflexivity].
  - repeat (progress (run_build; rewrite ?Hc)).
    unfold Fs.existsSync, Fs.isDirectory.
    destruct (Fs.lookup JDK_DIR fs0) as [[| sz m d] |] eqn:El; cbn [negb andb];
      rewrite ?FsFacts.readdirSync_cases by discriminate; cbn [fs]; rewrite ?El.
    + destruct (Nat.ltb 0 _); repeat (progress (run_build; rewrite ?Hc));
        (eexists; split; [rewrite <- !app_assoc; reflexivity | reflexivity]).
    + eexists. split; [rewrite <- !app_assoc; reflexivity | reflexivity].
    + repeat (progress (run_build; rewrite ?Hc)).
      eexists. split; [rewrite <- !app_assoc; reflexivity | reflexivity].
Qed.

(** X10: [checkJdk] only looks: it leaves the file system and the
    globals as they are and runs no tool.  It throws in one case: the JDK
    directory is missing and the downloads path, which it lists for a hint,
    exists without being a directory.  Otherwise it returns, and it answers
    true exactly when the JDK directory exists and [getJlinkPath] finds a
    jlink in it, so that the link step that follows never misses jlink. *)
Theorem checkJdk_agrees_with_getJlinkPath (platform : string) (jdkPath : Fs.Path) (w : W) :
  ready (globals w) ->
  exists (r : Res bool) (w' : W),
    checkJdk platform jdkPath w = (r, w')
    /\ fs w' = fs w
    /\ globals w' = globals w
    /\ spawn_count (trace w') = spawn_count (trace w)
    /\ (if negb (Fs.existsSync (fs w) jdkPath)
           && Fs.existsSync (fs w) JDK_DIR && negb (Fs.isDirectory (fs w) JDK_DIR)
        then r = Throw (FsError "ENOTDIR" JDK_DIR)
        else exists b : bool,
               r = Ok b
               /\ (b = true <->
                   Fs.existsSync (fs w) jdkPath = true
                   /\ getJlinkPath (fs w) jdkPath <> None)).
Proof.
  intros Hc. destruct (checkJdk_run platform jdkPath w Hc) as [t [Hrun Ht]].
  eexists. eexists. split; [exact Hrun |]. cbn [fs globals trace].
  split; [reflexivity |]. split; [reflexivity |].
  split; [rewrite spawn_count_app, Ht; lia |].
  fold (checkJdk_throws (fs w) jdkPath).
  destruct (checkJdk_throws (fs w) jdkPath); [reflexivity |].
  eexists. split; [reflexivity |].
  rewrite andb_true_iff, existsb_find. reflexivity.
Qed.

(** X11: when no jlink is found in the JDK, the link step returns false
    without running any tool and without touching the file system: an
    image left at the destination by an earlier build stays where it is. *)
Theorem link_step_without_jlink (platform : string) (jdkPath : Fs.Path)
    (outputName : string) (w : W) :
  ready (globals w) ->
  getJlinkPath (fs w) jdkPath = None ->
  exists tr',
    buildJre spawnSync platform jdkPath outputName w
    = (Ok false, mkWorld (fs w) (globals w) tr')
    /\ spawn_count tr' = spawn_count (trace w).
Proof.
  intros Hc Hj. destruct w as [fs0 g tr]. cbn [fs globals trace] in *. unfold ready in Hc.
  unfold buildJre. repeat (progress (run_build; rewrite ?Hc, ?Hj)).
  eexists. split; [reflexivity |]. rewrite !spawn_count_app. cbn. lia.
Qed.

(** X12: when jlink cannot be started or exits with a status other than
    0, the link step returns false instead of throwing, and the file
    system is left as jlink left it. *)
Theorem link_step_reports_tool_failure (platform : string) (jdkPath : Fs.Path)
    (outputName : string) (w : W) (cmd : Fs.Path) :
  ready (globals w) ->
  getJlinkPath (fs w) jdkPath = Some cmd ->
  let outputPath := OUTPUT_DIR ++ [outputName] in
  let args := jlink_args (MODULES (globals w)) outputPath in
  let fs1 := if Fs.existsSync (fs w) outputPath then Fs.rmSync outputPath (fs w) else fs w in
  error (fst (spawnSync cmd args fs1)) <> None
  \/ status (fst (spawnSync cmd args fs1)) <> Some 0%Z ->
  fst (buildJre spawnSync platform jdkPath outputName w) = Ok false
  /\ fs (snd (buildJre spawnSync platform jdkPath outputName w))
     = snd (spawnSync cmd args fs1).
Proof.
  intros Hc Hj outputPath args fs1 Hfail.
  destruct (buildJre_run spawnSync platform jdkPath outputName w cmd Hc Hj)
    as [tr' [Hrun _]].
  rewrite Hrun. cbn [fst snd fs]. fold outputPath args fs1. split; [| reflexivity].
  destruct (error (fst (spawnSync cmd args fs1))) as [e |]; [reflexivity |].
  destruct Hfail as [H | H]; [now elim H |].
  destruct (status (fst (spawnSync cmd args fs1))) as [[| p | p] |];
    try reflexivity. now elim H.
Qed.

Lemma build_with_run (title nm out : string) (locate : Fs.t -> Fs.Path) (w : W) :
  ready (globals w) ->
  exists (r : Res bool) (w' : W),
    build_with spawnSync title nm out locate w = (r, w')
    /\ ((exists b : bool,
           r = Ok b
           /\ (spawn_count (trace w') = spawn_count (trace w) /\ fs w' = fs w /\ b = false
               \/ spawn_count (trace w') = S (spawn_count (trace w))))
        \/ (r = Throw (FsError "ENOTDIR" JDK_DIR)
            /\ spawn_count (trace w') = spawn_count (trace w)
            /\ fs w' = fs w
            /\ Fs.existsSync (fs w) JDK_DIR = true
            /\ Fs.isDirectory (fs w) JDK_DIR = false)).
Proof.
  intros Hc. unfold build_with.
  rewrite (bind_ok _ _ _ _ _ (BatchSpec.log_run _ _ w Hc)).
  unfold bind at 1, get_fs at 1. cbn [fs].
  destruct (checkJdk_run nm (locate (fs w))
              (mkWorld (fs w) (globals w) (trace w ++ [Log Header title])) Hc)
    as [t [Hrun Ht]].
  cbn [fs globals trace] in Hrun.
  destruct (checkJdk_throws (fs w) (locate (fs w))) eqn:Et.
  - unfold bind at 1. rewrite Hrun. eexists. eexists. split; [reflexivity |]. right.
    cbn [fs trace]. rewrite !spawn_count_app, Ht. cbn.
    unfold checkJdk_throws in Et. apply andb_true_iff in Et. destruct Et as [Et Ed].
    apply andb_true_iff in Et. destruct Et as [_ Ee]. apply negb_true_iff in Ed.
    repeat split; try assumption. lia.
  - rewrite (bind_ok _ _ _ _ _ Hrun). cbn [fs globals trace].
    destruct (Fs.existsSync (fs w) (locate (fs w))
              && existsb (Fs.existsSync (fs w)) (jlinkPaths (locate (fs w)))) eqn:Eb;
      cbn [negb].
    + apply andb_true_iff in Eb. destruct Eb as [_ Eb]. apply existsb_find in Eb.
      destruct (getJlinkPath (fs w) (locate (fs w))) as [cmd |] eqn:Ej;
        [| now elim Eb].
      destruct (buildJre_run spawnSync nm (locate (fs w)) out
                  (mkWorld (fs w) (globals w) ((trace w ++ [Log Header title]) ++ t)) cmd
                  Hc Ej)
        as [tr' [Hb [Hn _]]].
      eexists. eexists. split; [exact Hb |]. left. eexists. split; [reflexivity |].
      right. cbn [trace] in *.
      rewrite Hn, !spawn_count_app, Ht. cbn. lia.
    + eexists. eexists. split; [reflexivity |]. left. eexists. split; [reflexivity |].
      left. cbn [fs trace].
      rewrite !spawn_count_app, Ht. cbn. repeat split. lia.
Qed.

Lemma builder_run (kb : string * Builder) (w : W) :
  In kb (builders spawnSync JDK_VERSION) ->
  ready (globals w) ->
  exists (r : Res bool) (w' : W),
    fn (snd kb) w = (r, w')
    /\ ((exists b : bool,
           r = Ok b
           /\ (spawn_count (trace w') = spawn_count (trace w) /\ fs w' = fs w /\ b = false
               \/ spawn_count (trace w') = S (spawn_count (trace w))))
        \/ (r = Throw (FsError "ENOTDIR" JDK_DIR)
            /\ spawn_count (trace w') = spawn_count (trace w)
            /\ fs w' = fs w
            /\ Fs.existsSync (fs w) JDK_DIR = true
            /\ Fs.isDirectory (fs w) JDK_DIR = false)).
Proof.
  unfold builders. cbn [In].
  intros H Hc;
    repeat (destruct H as [<- | H]; [now apply build_with_run |]); destruct H.
Qed.

(** X13: each of the six platform builders runs jlink at most once.  A
    builder that returns without having run jlink (no JDK, or no jlink in
    it) returns false and leaves the file system as it is.  A builder
    throws in one case only, before any run of jlink and with the file
    system as it was: its JDK is missing and the downloads path exists
    without being a directory, so that the listing of [checkJdk] throws. *)
Theorem builder_runs_jlink_at_most_once (kb : string * Builder) (w : W) :
  In kb (builders spawnSync JDK_VERSION) ->
  ready (globals w) ->
  exists (r : Res bool) (w' : W),
    fn (snd kb) w = (r, w')
    /\ ((exists b : bool,
           r = Ok b
           /\ (spawn_count (trace w') = spawn_count (trace w) /\ fs w' = fs w /\ b = false
               \/ spawn_count (trace w') = S (spawn_count (trace w))))
        \/ (r = Throw (FsError "ENOTDIR" JDK_DIR)
            /\ spawn_count (trace w') = spawn_count (trace w)
            /\ fs w' = fs w
            /\ Fs.existsSync (fs w) JDK_DIR = true
            /\ Fs.isDirectory (fs w) JDK_DIR = false)).
Proof. intros Hin Hc. now apply builder_run. Qed.

Lemma checkPrerequisites_fails (w : W) :
  ready (globals w) -> Fs.existsSync (fs w) JDK_DIR = false ->
  exists tr',
    checkPrerequisites w = (Ok false, mkWorld (fs w) (globals w) tr')
    /\ spawn_count tr' = spawn_count (trace w).
Proof.
  intros Hc He. destruct w as [fs0 g tr]. cbn [fs globals trace] in *. unfold ready in Hc.
  unfold checkPrerequisites. repeat (progress (run_build; rewrite ?Hc, ?He; cbn [negb])).
  eexists. split; [reflexivity |]. rewrite !spawn_count_app. cbn. lia.
Qed.

Lemma main_without_downloads (argv2 : option string) (w : W) :
  ready (globals w) -> Fs.existsSync (fs w) JDK_DIR = false ->
  exists tr',
    main spawnSync JDK_VERSION argv2 w = (Exit 1%Z, mkWorld (fs w) (globals w) tr')
    /\ spawn_count tr' = spawn_count (trace w).
Proof.
  intros Hc He. unfold main.
  rewrite (bind_ok _ _ _ _ _ (BatchSpec.log_run _ _ w Hc)).
  destruct (checkPrerequisites_fails
              (mkWorld (fs w) (globals w)
                 (trace w ++ [Log Header "Custom JRE Builder for Aspose.Words"])) Hc He)
    as [tr' [Hrun Hn]].
  rewrite (bind_ok _ _ _ _ _ Hrun). cbn [negb]. unfold exit.
  eexists. split; [reflexivity |]. cbn [trace] in Hn. rewrite Hn, spawn_count_app. cbn. lia.
Qed.

Lemma assoc_In {A : Type} (k : string) (v : A) (l : list (string * A)) :
  Js.assoc k l = Some v -> In (k, v) l.
Proof.
  unfold Js.assoc. destruct (find _ l) as [[k' v'] |] eqn:E; [| discriminate].
  intros H. injection H as <-. apply find_some in E. destruct E as [Hin Hk].
  cbn [fst] in Hk. apply String.eqb_eq in Hk. now subst k'.
Qed.

(** X15: a platform argument that names none of the six builders (and
    no inherited property of the builders object) ends [main] with status 1
    after the message "Unknown platform": the output directory has been
    created, no tool has run. *)
Theorem unknown_platform_exits (platform : string) (w : W) :
  ready (globals w) ->
  Fs.existsSync (fs w) JDK_DIR = true ->
  ~ In platform JsObject.inherited ->
  Js.assoc platform (builders spawnSync JDK_VERSION) = None ->
  exists tr',
    main spawnSync JDK_VERSION (Some platform) w
    = (Exit 1%Z,
       mkWorld (if Fs.existsSync (fs w) OUTPUT_DIR then fs w
                else Fs.mkdirSync OUTPUT_DIR (fs w))
               (globals w) tr')
    /\ spawn_count tr' = spawn_count (trace w)
    /\ In (Log Failure ("Unknown platform: " ++ platform)%string) tr'.
Proof.
  intros Hc He _ Ha. destruct w as [fs0 g tr]. cbn [fs globals trace] in *.
  unfold ready in Hc. unfold main, checkPrerequisites. rewrite Ha.
  repeat (progress (run_build; rewrite ?Hc, ?He; cbn [negb])).
  destruct (Fs.existsSync fs0 OUTPUT_DIR);
    repeat (progress (run_build; rewrite ?Hc; cbn [negb]));
    (eexists; split; [reflexivity |]; split;
     [rewrite !spawn_count_app; cbn; lia | rewrite !in_app_iff; cbn; tauto]).
Qed.

(** X16: with a platform argument that names a builder, [main] runs
    that builder alone, on the file system with the output directory
    created, and jlink runs at most once.  When the builder returns, [main]
    exits with status 0 if it returned true and 1 if it returned false.
    When the builder throws, which it does only where the downloads path is
    not a directory, [main] ends with that exception, and the script with
    status 1. *)
Theorem single_platform_exit_status (platform : string) (b : Builder) (w : W) :
  ready (globals w) ->
  Fs.existsSync (fs w) JDK_DIR = true ->
  Js.assoc platform (builders spawnSync JDK_VERSION) = Some b ->
  exists (w0 : W) (r : Res bool) (w' : W),
    fn b w0 = (r, w')
    /\ fs w0 = (if Fs.existsSync (fs w) OUTPUT_DIR then fs w
                else Fs.mkdirSync OUTPUT_DIR (fs w))
    /\ globals w0 = globals w
    /\ spawn_count (trace w') <= S (spawn_count (trace w))
    /\ match r with
       | Ok success =>
           main spawnSync JDK_VERSION (Some platform) w
           = (Exit (if success then 0%Z else 1%Z), w')
       | Throw e =>
           main spawnSync JDK_VERSION (Some platform) w = (Throw e, w')
           /\ Fs.isDirectory (fs w) JDK_DIR = false
       | Exit _ | OutOfFuel => False
       end.
Proof.
  intros Hc He Ha. pose proof (assoc_In _ _ _ Ha) as Hin.
  destruct w as [fs0 g tr]. cbn [fs globals trace] in *.
  unfold ready in Hc. unfold main, checkPrerequisites. rewrite Ha.
  repeat (progress (run_build; rewrite ?Hc, ?He; cbn [negb])).
  assert (Hdir : forall fs1, Fs.isDirectory fs1 JDK_DIR = false ->
                   fs1 = (if Fs.existsSync fs0 OUTPUT_DIR then fs0
                          else Fs.mkdirSync OUTPUT_DIR fs0) ->
                   Fs.isDirectory fs0 JDK_DIR = false).
  { intros fs1 Hd ->. destruct (Fs.existsSync fs0 OUTPUT_DIR) eqn:Eo; [exact Hd |].
    revert Hd. unfold Fs.mkdirSync, OUTPUT_DIR. cbn [Fs.mkdir_from].
    change ([] ++ ["jre-builds"]) with OUTPUT_DIR.
    rewrite Eo. unfold Fs.isDirectory.
    destruct (Fs.lookup JDK_DIR fs0) as [[| sz m d] |] eqn:El; [| reflexivity ..].
    rewrite (lookup_app_some _ _ _ _ El). discriminate. }
  destruct (Fs.existsSync fs0 OUTPUT_DIR) eqn:Eo;
    repeat (progress (run_build; rewrite ?Hc; cbn [negb]));
    match goal with
    | |- context [fn b ?w0] =>
        destruct (builder_run (platform, b) w0 Hin Hc)
          as [r [w' [Hrun [[s [-> Hn]] | (-> & Hn & Hfs & Hx & Hd)]]]];
        exists w0; eexists; exists w'; cbn [snd] in Hrun; rewrite Hrun;
        (split; [reflexivity |]); (split; [reflexivity |]); (split; [reflexivity |]);
        cbn [fs trace] in *; rewrite !spawn_count_app in Hn; cbn in Hn;
        (split; [lia |]);
        first [ reflexivity
              | split; [reflexivity |];
                apply (Hdir _ Hd); rewrite ?Eo; reflexivity ]
    end.
Qed.

End Builder.

(** X14: without the downloads directory the script ends with status
    1, whatever its arguments and environment, without creating the output
    directory and without running any tool. *)
Theorem script_requires_downloads
    (spawnSync : Fs.Path -> list string -> Fs.t -> SpawnResult * Fs.t)
    (env_JDK_VERSION env_MODULES argv2 : option string) (fs0 : Fs.t) :
  Fs.existsSync fs0 JDK_DIR = false ->
  fst (script spawnSync env_JDK_VERSION env_MODULES argv2 fs0) = Some 1%Z
  /\ fs (snd (script spawnSync env_JDK_VERSION env_MODULES argv2 fs0)) = fs0
  /\ spawn_count (trace (snd (script spawnSync env_JDK_VERSION env_MODULES argv2 fs0))) = 0.
Proof.
  intros He. unfold script.
  destruct (Js.env_truthy env_MODULES) eqn:Henv.
  - destruct env_MODULES as [m |]; [| discriminate]. cbn [Js.env_truthy] in Henv.
    rewrite (toplevel_override_throws m fs0 [] Henv). repeat split.
  - rewrite (toplevel_selects_silently env_MODULES fs0 [] Henv).
    match goal with
    | |- context [main _ ?v argv2 ?w] =>
        destruct (main_without_downloads spawnSync v argv2 w eq_refl He) as [tr' [Hrun Hn]]
    end.
    rewrite Hrun. cbn [fst snd fs trace] in *. repeat split. exact Hn.
Qed.

(** The project of [Scenario] builds from custom-modules.txt. *)
Lemma module_source_precedence_witness :
  resolve_modules None Scenario.project_fs = ("java.base", "custom-modules.txt")
  /\ trace (snd (toplevel None (mkWorld Scenario.project_fs initial_globals []))) = [].
Proof.
  destruct (module_source_precedence None Scenario.project_fs [])
    as (_ & _ & _ & _ & Ht); [reflexivity |].
  split; [reflexivity | exact Ht].
Defined.

(** combined-modules.txt is the most recent module file of the project. *)
Lemma latest_module_file_is_newest_witness :
  (Fs.mtimeMs_of Scenario.project_fs ["old-modules.txt"]
   <= Fs.mtimeMs_of Scenario.project_fs ["combined-modules.txt"])%Z.
Proof.
  destruct (latest_module_file_is_newest Scenario.project_fs "combined-modules.txt"
              ["custom-modules.txt"; "old-modules.txt"]) as (_ & _ & H).
  - vm_compute. reflexivity.
  - apply H; [vm_compute; tauto | reflexivity].
Defined.

(** The Linux x64 JDK of the project is accepted; with a regular file
    where the downloads directory should be, the check throws. *)
Lemma checkJdk_agrees_with_getJlinkPath_witness :
  (exists w' : W,
     checkJdk "Linux x64" Scenario.linux_jdk (Scenario.build_world Scenario.project_fs)
     = (Ok true, w')
     /\ fs w' = Scenario.project_fs)
  /\ (exists w' : W,
        checkJdk "Linux x64" Scenario.linux_jdk
          (Scenario.build_world Cases.downloads_file_fs)
        = (Throw (FsError "ENOTDIR" JDK_DIR), w')).
Proof.
  split.
  - destruct (checkJdk_agrees_with_getJlinkPath "Linux x64" Scenario.linux_jdk
                (Scenario.build_world Scenario.project_fs) eq_refl)
      as (r & w' & Hrun & Hfs & _ & _ & Hb).
    match type of Hb with
    | if ?c then _ else _ => let v := eval vm_compute in c in change c with v in Hb
    end.
    destruct Hb as [b [-> Hb]].
    assert (E : b = true) by (apply Hb; split; [reflexivity | vm_compute; discriminate]).
    subst b. exists w'. split; [exact Hrun | exact Hfs].
  - destruct (checkJdk_agrees_with_getJlinkPath "Linux x64" Scenario.linux_jdk
                (Scenario.build_world Cases.downloads_file_fs) eq_refl)
      as (r & w' & Hrun & _ & _ & _ & Hb).
    match type of Hb with
    | if ?c then _ else _ => let v := eval vm_compute in c in change c with v in Hb
    end.
    cbv iota in Hb. subst r. exists w'. exact Hrun.
Defined.

(** A directory without jlink. *)
Lemma link_step_without_jlink_witness :
  exists tr',
    buildJre Scenario.jlink_full "Linux x64" ["jdk-downloads"; "notes"] "jre-linux-x64"
      (Scenario.build_world Scenario.project_fs)
    = (Ok false, mkWorld Scenario.project_fs
                   (globals (Scenario.build_world Scenario.project_fs)) tr').
Proof.
  destruct (link_step_without_jlink Scenario.jlink_full "Linux x64" ["jdk-downloads"; "notes"]
              "jre-linux-x64" (Scenario.build_world Scenario.project_fs))
    as [tr' [H _]]; [reflexivity | reflexivity |].
  exists tr'. exact H.
Defined.

(** A jlink that exits with status 1. *)
Lemma link_step_reports_tool_failure_witness :
  fst (buildJre Cases.jlink_fails "Linux x64" Scenario.linux_jdk "jre-linux-x64"
         (Scenario.build_world Scenario.project_fs))
  = Ok false.
Proof.
  destruct (link_step_reports_tool_failure Cases.jlink_fails "Linux x64" Scenario.linux_jdk
              "jre-linux-x64" (Scenario.build_world Scenario.project_fs)
              ["jdk-downloads"; "jdk-17-linux-x64"; "bin"; "jlink"]) as [H _].
  - reflexivity.
  - reflexivity.
  - right. vm_compute. discriminate.
  - exact H.
Defined.

(** The Linux x64 builder on the project. *)
Lemma builder_runs_jlink_at_most_once_witness :
  exists (b : bool) (w' : W),
    buildLinuxX64 Scenario.jlink_full "17" (Scenario.build_world Scenario.project_fs)
    = (Ok b, w').
Proof.
  destruct (builder_runs_jlink_at_most_once Scenario.jlink_full "17"
              ("linux-x64",
               {| name := "Linux x64"; fn := buildLinuxX64 Scenario.jlink_full "17" |})
              (Scenario.build_world Scenario.project_fs))
    as (r & w' & H & [[b [-> _]] | (_ & _ & _ & _ & Hd)]).
  - do 4 right. left. reflexivity.
  - reflexivity.
  - exists b, w'. exact H.
  - vm_compute in Hd. discriminate Hd.
Defined.

(** A working directory that holds a module file only. *)
Lemma script_requires_downloads_witness :
  fst (script Scenario.jlink_full None None None Cases.handoff_fs) = Some 1%Z.
Proof.
  destruct (script_requires_downloads Scenario.jlink_full None None None Cases.handoff_fs)
    as [H _]; [reflexivity | exact H].
Defined.

(** An unknown platform name. *)
Lemma unknown_platform_exits_witness :
  fst (main Scenario.jlink_full "17" (Some "solaris-x64")
         (Scenario.build_world Scenario.project_fs))
  = Exit 1%Z.
Proof.
  destruct (unknown_platform_exits Scenario.jlink_full "17" "solaris-x64"
              (Scenario.build_world Scenario.project_fs)) as [tr' [H _]];
    [reflexivity | reflexivity | cbn; intuition discriminate | reflexivity |].
  rewrite H. reflexivity.
Defined.

(** The platform linux-x64 alone. *)
Lemma single_platform_exit_status_witness :
  exists (success : bool) (w' : W),
    main Scenario.jlink_full "17" (Some "linux-x64")
      (Scenario.build_world Scenario.project_fs)
    = (Exit (if success then 0%Z else 1%Z), w').
Proof.
  destruct (single_platform_exit_status Scenario.jlink_full "17" "linux-x64"
              {| name := "Linux x64"; fn := buildLinuxX64 Scenario.jlink_full "17" |}
              (Scenario.build_world Scenario.project_fs))
    as (w0 & r & w' & _ & _ & _ & _ & H);
    [reflexivity | reflexivity | reflexivity |].
  destruct r as [s | e | c |].
  - exists s, w'. exact H.
  - destruct H as [_ Hd]. vm_compute in Hd. discriminate Hd.
  - destruct H.
  - destruct H.
Defined.

End BuildJreMore.

(** ** The downloader: platform table, transfer, extraction, cache *)
Module DownloadMore.
Import Eff DownloadJdks FsFacts FsMore DownloadSpec.

Section Network.
Variable http_get : string -> GetResult.

(** X18: when [downloadFile] ends normally, its last request was
    answered with status 200 and a body that was received in full, the
    destination is a file with the size of that body, and the last thing
    printed is that size. *)
Theorem downloadFile_success_leaves_file (fuel : nat) :
  forall (url : option string) (dest : Fs.Path) (w w' : World unit),
    downloadFile http_get fuel url dest w = (Ok tt, w') ->
    exists (u statusMessage : string) (location : option string) (bytes : N)
           (t : list Event),
      http_get u = GetResponse 200 statusMessage location (BodyFinish bytes)
      /\ Fs.lookup dest (fs w') = Some (Fs.File bytes 0 EmptyString)
      /\ trace w' = trace w ++ t ++ [HttpGet u; LogSized Success "Downloaded" bytes].
Proof.
  induction fuel as [| fuel IH]; intros url dest w w' Hrun; [discriminate |].
  destruct w as [fs0 [] tr]. simpl in Hrun. destruct url as [u |]; [| discriminate].
  revert Hrun. destruct (http_get u) as [| msg | msg | code smsg loc body] eqn:Hget.
  - discriminate.
  - run_download. rewrite exists_after_create. run_download. rewrite exists_after_create.
    discriminate.
  - run_download. destruct (Fs.existsSync fs0 dest) eqn:E; run_download; rewrite ?E;
      discriminate.
  - run_download. destruct (is_redirect code).
    + run_download. rewrite exists_after_create. run_download. intros H.
      destruct (IH _ _ _ _ H) as (u' & smsg' & loc' & bytes & t & Hu & Hl & Ht).
      exists u', smsg', loc', bytes, (HttpGet u :: t). split; [exact Hu |].
      split; [exact Hl |]. rewrite Ht. cbn [trace]. now rewrite <- app_assoc.
    + destruct (negb (code =? 200)%Z) eqn:Ec; run_download; rewrite ?exists_after_create;
        [discriminate |].
      apply negb_false_iff, Z.eqb_eq in Ec. subst code.
      destruct body as [bytes | msg | msg]; run_download;
        rewrite ?exists_after_create; run_download; rewrite ?exists_after_create;
        intros H; try discriminate.
      injection H as <-. cbn [fs trace]. exists u, smsg, loc, bytes, [].
      split; [exact Hget |]. split; [apply lookup_set_same | now rewrite <- app_assoc].
Qed.

(** X19: whatever its result, [downloadFile] leaves every path other
    than its destination as it was. *)
Theorem downloadFile_touches_only_dest (fuel : nat) :
  forall (url : option string) (dest p : Fs.Path) (w : World unit),
    p <> dest ->
    Fs.lookup p (fs (snd (downloadFile http_get fuel url dest w))) = Fs.lookup p (fs w).
Proof.
  induction fuel as [| fuel IH]; intros url dest p w Hp; [reflexivity |].
  destruct w as [fs0 [] tr]. simpl. destruct url as [u |]; [| reflexivity].
  destruct (http_get u) as [| msg | msg | code smsg loc body].
  - run_download. cbn [snd fs]. now apply lookup_set_other.
  - run_download. rewrite exists_after_create. run_download. rewrite exists_after_create.
    cbn [snd fs]. now rewrite lookup_remove_other, lookup_set_other.
  - run_download. destruct (Fs.existsSync fs0 dest) eqn:E; run_download; rewrite ?E;
      cbn [snd fs]; rewrite lookup_set_other by exact Hp;
      [now apply lookup_remove_other | reflexivity].
  - run_download. destruct (is_redirect code).
    + run_download. rewrite exists_after_create. run_download.
      rewrite (IH _ _ _ _ Hp). cbn [fs]. now rewrite lookup_remove_other, lookup_set_other.
    + destruct (negb (code =? 200)%Z); run_download; rewrite ?exists_after_create.
      * cbn [snd fs]. now rewrite lookup_remove_other, lookup_set_other.
      * destruct body as [bytes | msg | msg]; run_download;
          rewrite ?exists_after_create; run_download; rewrite ?exists_after_create;
          cbn [snd fs]; rewrite ?lookup_remove_other by exact Hp;
          now rewrite !lookup_set_other.
Qed.

(** X20: redirects are followed without any limit: against a server
    that answers every request with a redirect, [downloadFile] makes one
    request per unit of fuel and has not settled when the fuel is used up,
    for every amount of fuel. *)
Theorem redirects_followed_without_limit (fuel : nat) :
  (forall u, exists code msg loc body,
      http_get u = GetResponse code msg (Some loc) body /\ is_redirect code = true) ->
  forall (url : string) (dest : Fs.Path) (w : World unit),
    fst (downloadFile http_get fuel (Some url) dest w) = OutOfFuel
    /\ requests (trace (snd (downloadFile http_get fuel (Some url) dest w)))
       = requests (trace w) + fuel.
Proof.
  intros Hloop. induction fuel as [| fuel IH]; intros url dest w.
  - cbn. split; [reflexivity | lia].
  - destruct w as [fs0 [] tr]. simpl.
    destruct (Hloop url) as (code & msg & loc & body & Hget & Hred).
    rewrite Hget. run_download. rewrite Hred.
    run_download. rewrite exists_after_create. run_download.
    destruct (IH loc dest
                (mkWorld (Fs.remove dest (Fs.set dest (Fs.File 0 0 EmptyString) fs0)) tt
                   (tr ++ [HttpGet url]))) as [Hr Hn].
    split; [exact Hr |]. rewrite Hn. cbn [trace]. rewrite requests_app. cbn. lia.
Qed.

End Network.

Section Extraction.
Variable zip_extractAllTo tar_x : Fs.Path -> Fs.Path -> Fs.t -> option Exn * Fs.t.
Variable JDK_VERSION : string.

Ltac run_extract :=
  unfold extract; cbn [fs globals trace];
  match goal with
  | |- context [type ?c] =>
      destruct (type c);
      [destruct (zip_extractAllTo _ _ _) as [[?e |] ?fs1]
      | destruct (tar_x _ _ _) as [[?e |] ?fs1]]
  end;
  run_download.

Ltac step_readdir :=
  match goal with
  | |- context [readdirSync ?d ?w] =>
      rewrite (readdirSync_cases d w)
        by (unfold extractDir_of, finalDir_of, DOWNLOAD_DIR; discriminate);
      cbn [fs];
      first [ match goal with
              | H : Fs.lookup d ?f = _ |- context [Fs.lookup d ?f] => rewrite H
              end
            | match goal with
              | |- context [Fs.lookup d ?f] =>
                  destruct (Fs.lookup d f) as [[| ? ? ?] |] eqn:?
              end ];
      run_download
  end.

(** X21: the temporary extraction directory never survives the
    extraction step, whether the step succeeds or fails and whatever the
    archive libraries do. *)
Theorem temp_directory_never_survives (platform : string) (config : PlatformConfig)
    (w : World unit) :
  Fs.existsSync
    (fs (snd (extract_and_install zip_extractAllTo tar_x JDK_VERSION platform config w)))
    (extractDir_of JDK_VERSION platform) = false.
Proof.
  destruct w as [fs0 [] tr]. unfold extract_and_install, locate_jdk.
  run_download.
  destruct (Fs.existsSync fs0 (extractDir_of JDK_VERSION platform)); run_download;
    run_extract;
    repeat first
      [ step_readdir
      | match goal with
        | |- context [if negb (Fs.existsSync ?f ?p) then _ else _] =>
            destruct (Fs.existsSync f p) eqn:?; cbn [negb]; run_download
        | |- context [if Fs.existsSync ?f ?p then _ else _] =>
            destruct (Fs.existsSync f p) eqn:?; run_download
        end ];
    cbn [snd fs];
    first [ assumption | apply exists_rmSync_under, is_under_refl ].
Qed.

Lemma temp_name_differs (platform : string) :
  ("jdk-" ++ JDK_VERSION ++ "-" ++ platform)%string
  <> ("jdk-" ++ JDK_VERSION ++ "-" ++ platform ++ "-temp")%string.
Proof.
  intros H. apply (f_equal String.length) in H.
  rewrite !JsFacts.string_length_app in H. simpl in H. lia.
Qed.

Lemma rules_stay_inside (platform : string) (config : PlatformConfig)
    (PLATFORMS : list (string * PlatformConfig)) :
  getPlatformConfig JDK_VERSION = Some PLATFORMS ->
  In (platform, config) PLATFORMS ->
  forall (fs1 : Fs.t) (d : Fs.Path), Fs.is_under d (jdkPath config fs1 d) = true.
Proof.
  assert (Hd : forall fs1 d, Fs.is_under d (jdkPath_direct fs1 d) = true).
  { intros fs1 d. unfold jdkPath_direct.
    destruct (find_jdk_dir fs1 d); [apply is_under_app | apply is_under_refl]. }
  assert (Hm : forall fs1 d, Fs.is_under d (jdkPath_macos fs1 d) = true).
  { intros fs1 d. unfold jdkPath_macos.
    destruct (find_jdk_dir fs1 d); [| apply is_under_refl].
    destruct (Fs.existsSync _ _); [apply is_under_app | apply is_under_refl]. }
  unfold getPlatformConfig. destruct (Js.assoc JDK_VERSION VERSION_CONFIG); [| discriminate].
  intros H. injection H as <-. cbn [In].
  intros Hin; repeat (destruct Hin as [Hin | Hin]; [injection Hin as <- <-; assumption |]);
    destruct Hin.
Qed.

(** X22: for the platforms of [getPlatformConfig], the extraction step
    either prints a failure or leaves the target's jlink binary in the
    final directory of the platform. *)
Theorem ready_installation_has_jlink (platform : string) (config : PlatformConfig)
    (PLATFORMS : list (string * PlatformConfig)) (w : World unit) :
  getPlatformConfig JDK_VERSION = Some PLATFORMS ->
  In (platform, config) PLATFORMS ->
  let w' := snd (extract_and_install zip_extractAllTo tar_x JDK_VERSION platform config w) in
  exists t,
    trace w' = trace w ++ t
    /\ (platform_failed t = true
        \/ Fs.existsSync (fs w') (finalDir_of JDK_VERSION platform
                                   ++ ["bin"; jlinkExe_of platform]) = true).
Proof.
  intros Hp Hin. pose proof (rules_stay_inside platform config PLATFORMS Hp Hin) as Hrule.
  assert (Hout : forall rest,
             Fs.is_under (extractDir_of JDK_VERSION platform)
                         (finalDir_of JDK_VERSION platform ++ rest) = false).
  { intros rest. unfold extractDir_of, finalDir_of.
    apply (is_under_sibling DOWNLOAD_DIR _ _ _ (temp_name_differs platform)).
    apply is_under_app. }
  assert (Hin' : forall fs1 rest,
             Fs.is_under (finalDir_of JDK_VERSION platform)
                         (jdkPath config fs1 (extractDir_of JDK_VERSION platform) ++ rest)
             = false).
  { intros fs1 rest. unfold finalDir_of.
    apply (is_under_sibling DOWNLOAD_DIR
             ("jdk-" ++ JDK_VERSION ++ "-" ++ platform ++ "-temp")%string).
    - apply not_eq_sym, temp_name_differs.
    - apply (is_under_trans _ (jdkPath config fs1 (extractDir_of JDK_VERSION platform)));
        [apply Hrule | apply is_under_app]. }
  destruct w as [fs0 [] tr]. cbv zeta. unfold extract_and_install, locate_jdk.
  run_download.
  destruct (Fs.existsSync fs0 (extractDir_of JDK_VERSION platform)); run_download;
    run_extract;
    repeat first
      [ step_readdir
      | match goal with
        | |- context [if negb (Fs.existsSync ?f ?p) then _ else _] =>
            destruct (Fs.existsSync f p) eqn:?; cbn [negb]; run_download
        | |- context [if Fs.existsSync ?f ?p then _ else _] =>
            destruct (Fs.existsSync f p) eqn:?; run_download
        end ];
    cbn [snd fs trace];
    (eexists; split; [rewrite <- ?app_assoc; reflexivity |]);
    first [ left; reflexivity
          | right; rewrite exists_rmSync_outside by apply Hout;
            apply exists_rename; rewrite ?exists_rmSync_outside by apply Hin';
            assumption ].
Qed.

End Extraction.

(** X23: the check of an existing final directory.  A final directory
    that is a directory and holds the jlink binary of the target is kept:
    the platform step prints its header and the notice and ends, without
    request, download or extraction, and the file system is unchanged.
    Where the path of the final directory is not a directory, the step
    throws right after the header: the check is outside every [try]. *)
Theorem valid_installation_is_kept
    (http_get : string -> GetResult)
    (zip_extractAllTo tar_x : Fs.Path -> Fs.Path -> Fs.t -> option Exn * Fs.t)
    (V : string) (fuel : nat) (platform : string) (config : PlatformConfig)
    (w : World unit) :
  Fs.existsSync (fs w) (finalDir_of V platform) = true ->
  (Fs.isDirectory (fs w) (finalDir_of V platform) = true ->
   Fs.existsSync (fs w) (jdkPath config (fs w) (finalDir_of V platform)
                           ++ ["bin"; jlinkExe_of platform]) = true ->
   downloadAndExtractPlatform http_get zip_extractAllTo tar_x V fuel platform config w
   = (Ok tt,
      mkWorld (fs w) (globals w)
        (trace w ++ [Log Header platform; Log Success "Already exists and verified"])))
  /\ (Fs.isDirectory (fs w) (finalDir_of V platform) = false ->
      downloadAndExtractPlatform http_get zip_extractAllTo tar_x V fuel platform config w
      = (Throw (FsError "ENOTDIR" (finalDir_of V platform)),
         mkWorld (fs w) (globals w) (trace w ++ [Log Header platform]))).
Proof.
  intros He. destruct w as [fs0 [] tr]. cbn [fs globals trace] in *.
  unfold downloadAndExtractPlatform, locate_jdk. run_download. rewrite He. run_download.
  rewrite readdirSync_cases by (unfold finalDir_of, DOWNLOAD_DIR; discriminate).
  cbn [fs]. unfold Fs.isDirectory, Fs.existsSync in *.
  destruct (Fs.lookup (finalDir_of V platform) fs0) as [[| sz m d] |];
    [| | discriminate]; (split; [intros H1 | intros H1; try discriminate]).
  - intros H2. run_download. unfold Fs.existsSync. rewrite H2. run_download.
    now rewrite <- app_assoc.
  - discriminate.
  - reflexivity.
Qed.

Lemma assoc_none {A : Type} (k : string) (l : list (string * A)) :
  ~ In k (map fst l) -> Js.assoc k l = None.
Proof.
  unfold Js.assoc. intros H. destruct (find _ l) as [[k' v] |] eqn:E; [| reflexivity].
  apply find_some in E. destruct E as [Hin Hk]. cbn [fst] in Hk.
  apply String.eqb_eq in Hk. subst k'. elim H. apply in_map_iff. now exists (k, v).
Qed.

(** X24: for a version other than 11, 16, 17, 18, 19, 20 and 21 (and
    that is no inherited property name of the version table) the script
    reports the unsupported version and ends with status 1, before the
    downloads directory is created and without any request. *)
Theorem unsupported_version_stops_script
    (http_get : string -> GetResult)
    (zip_extractAllTo tar_x : Fs.Path -> Fs.Path -> Fs.t -> option Exn * Fs.t)
    (env_JDK_VERSION argv2 : option string) (fuel : nat) (w : World unit) :
  let V := select_version env_JDK_VERSION argv2 in
  let r := script http_get zip_extractAllTo tar_x env_JDK_VERSION argv2 fuel w in
  ~ In V JsObject.inherited ->
  ~ In V ["11"; "16"; "17"; "18"; "19"; "20"; "21"] ->
  fst r = Some 1%Z
  /\ fs (snd r) = fs w
  /\ requests (trace (snd r)) = requests (trace w)
  /\ In (Log Failure ("Unsupported JDK version: " ++ V)%string) (trace (snd r)).
Proof.
  cbv zeta. intros _ H. unfold script, getPlatformConfig.
  rewrite (assoc_none _ VERSION_CONFIG H). cbn [fst snd fs trace].
  repeat split.
  - rewrite requests_app. cbn. lia.
  - apply in_or_app. right. now left.
Qed.

(** X17: for every supported version the platform table has the six
    targets in order, and each entry is consistent: an https URL whose last
    segment is the archive name, an archive name with the extension of its
    type, the type zip exactly for the Windows targets, which are exactly
    those whose jlink binary is jlink.exe. *)
Theorem platform_table_consistent (V : string) (PLATFORMS : list (string * PlatformConfig)) :
  getPlatformConfig V = Some PLATFORMS ->
  map fst PLATFORMS = six_targets
  /\ forall platform config, In (platform, config) PLATFORMS ->
       Js.startsWith (url config) "https://" = true
       /\ Js.endsWith (url config) ("/" ++ archiveName config) = true
       /\ Js.endsWith (archiveName config) (ext_of (type config)) = true
       /\ (type config = Zip <-> Js.includes platform "windows" = true)
       /\ (type config = Zip <-> jlinkExe_of platform = "jlink.exe").
Proof.
  unfold getPlatformConfig, Js.assoc, VERSION_CONFIG. cbn [find fst snd].
  repeat (destruct (String.eqb V _) eqn:E;
          [apply String.eqb_eq in E; subst V; intros H; injection H as <-;
           split; [reflexivity |]; cbn [In];
           intros platform config Hin;
           repeat (destruct Hin as [Hin | Hin];
                   [injection Hin as <- <-; vm_compute;
                    repeat split; congruence |]);
           destruct Hin | clear E]).
  discriminate.
Qed.

(** The table of JDK 21. *)
Lemma platform_table_consistent_witness :
  map fst (match getPlatformConfig "21" with Some ps => ps | None => [] end) = six_targets.
Proof.
  destruct (platform_table_consistent "21"
              (match getPlatformConfig "21" with Some ps => ps | None => [] end))
    as [H _]; [reflexivity | exact H].
Defined.

(** One redirect, then the archive: the file has the size the mirror
    sent. *)
Lemma downloadFile_success_leaves_file_witness :
  exists (u statusMessage : string) (location : option string) (bytes : N)
         (t : list Event),
    Scenario.net Cases.archive_found u
    = GetResponse 200 statusMessage location (BodyFinish bytes)
    /\ Fs.lookup ["jdk-downloads"; "jdk.tar.gz"]
         (fs (snd (downloadFile (Scenario.net Cases.archive_found) 5
                     (Some "https://github.com/adoptium/jdk.tar.gz")
                     ["jdk-downloads"; "jdk.tar.gz"] (Scenario.start Scenario.archive_fs))))
       = Some (Fs.File bytes 0 EmptyString)
    /\ trace (snd (downloadFile (Scenario.net Cases.archive_found) 5
                     (Some "https://github.com/adoptium/jdk.tar.gz")
                     ["jdk-downloads"; "jdk.tar.gz"] (Scenario.start Scenario.archive_fs)))
       = trace (Scenario.start Scenario.archive_fs) ++ t
         ++ [HttpGet u; LogSized Success "Downloaded" bytes].
Proof.
  apply (downloadFile_success_leaves_file (Scenario.net Cases.archive_found) 5
           (Some "https://github.com/adoptium/jdk.tar.gz") ["jdk-downloads"; "jdk.tar.gz"]
           (Scenario.start Scenario.archive_fs)).
  vm_compute. reflexivity.
Defined.

(** A failed download leaves the downloads directory in place. *)
Lemma downloadFile_touches_only_dest_witness :
  Fs.lookup ["jdk-downloads"]
    (fs (snd (downloadFile (Scenario.net Scenario.not_found) 5
                (Some "https://github.com/adoptium/jdk.tar.gz")
                ["jdk-downloads"; "jdk.tar.gz"] (Scenario.start Scenario.archive_fs))))
  = Some Fs.Dir.
Proof.
  rewrite (downloadFile_touches_only_dest (Scenario.net Scenario.not_found) 5
             (Some "https://github.com/adoptium/jdk.tar.gz") ["jdk-downloads"; "jdk.tar.gz"]
             ["jdk-downloads"] (Scenario.start Scenario.archive_fs)).
  - reflexivity.
  - discriminate.
Defined.

(** Seven units of fuel, seven requests. *)
Lemma redirects_followed_without_limit_witness :
  fst (downloadFile Cases.always_redirect 7 (Some "https://github.com/adoptium/jdk.tar.gz")
         ["jdk-downloads"; "jdk.tar.gz"] (Scenario.start []))
  = OutOfFuel
  /\ requests (trace (snd (downloadFile Cases.always_redirect 7
                             (Some "https://github.com/adoptium/jdk.tar.gz")
                             ["jdk-downloads"; "jdk.tar.gz"] (Scenario.start []))))
     = 7.
Proof.
  apply (redirects_followed_without_limit Cases.always_redirect 7).
  intros u. exists 302%Z, "Found", "https://mirror.example/jdk", (BodyFinish 0).
  split; reflexivity.
Defined.

(** An extraction that unpacks a Linux JDK. *)
Lemma ready_installation_has_jlink_witness :
  Fs.existsSync
    (fs (snd (extract_and_install Cases.extract_jdk Cases.extract_jdk "21" "linux-x64"
                Scenario.linux_config (Scenario.start Scenario.archive_fs))))
    ["jdk-downloads"; "jdk-21-linux-x64"; "bin"; "jlink"]
  = true.
Proof.
  destruct (ready_installation_has_jlink Cases.extract_jdk Cases.extract_jdk "21"
              "linux-x64" Scenario.linux_config
              (match getPlatformConfig "21" with Some ps => ps | None => [] end)
              (Scenario.start Scenario.archive_fs)) as [t [Ht [Hf | He]]].
  - reflexivity.
  - vm_compute. do 4 right. left. reflexivity.
  - change (trace (Scenario.start Scenario.archive_fs) ++ t) with t in Ht.
    rewrite <- Ht in Hf. vm_compute in Hf.
    discriminate Hf.
  - exact He.
Defined.

(** The JDK 17 for Linux x64 of [Scenario] is kept; a regular file at
    the final directory of windows-x64 makes the step throw. *)
Lemma valid_installation_is_kept_witness :
  fs (snd (downloadAndExtractPlatform (Scenario.net Scenario.not_found) Scenario.no_extract
             Scenario.no_extract "17" 5 "linux-x64" Scenario.linux_config
             (Scenario.start Scenario.downloads_fs)))
  = Scenario.downloads_fs
  /\ fst (downloadAndExtractPlatform (Scenario.net Scenario.not_found) Scenario.no_extract
            Scenario.no_extract "21" 5 "windows-x64" Scenario.linux_config
            (Scenario.start Cases.blocked_fs))
     = Throw (FsError "ENOTDIR" ["jdk-downloads"; "jdk-21-windows-x64"]).
Proof.
  split.
  - destruct (valid_installation_is_kept (Scenario.net Scenario.not_found)
                Scenario.no_extract Scenario.no_extract "17" 5 "linux-x64"
                Scenario.linux_config (Scenario.start Scenario.downloads_fs)) as [H _];
      [reflexivity |].
    rewrite H; reflexivity.
  - destruct (valid_installation_is_kept (Scenario.net Scenario.not_found)
                Scenario.no_extract Scenario.no_extract "21" 5 "windows-x64"
                Scenario.linux_config (Scenario.start Cases.blocked_fs)) as [_ H];
      [reflexivity |].
    rewrite H; reflexivity.
Defined.

(** JDK 8 is not supported. *)
Lemma unsupported_version_stops_script_witness :
  fst (script (Scenario.net Scenario.not_found) Scenario.no_extract Scenario.no_extract
         None (Some "8") 5 (Scenario.start []))
  = Some 1%Z.
Proof.
  destruct (unsupported_version_stops_script (Scenario.net Scenario.not_found)
              Scenario.no_extract Scenario.no_extract None (Some "8") 5 (Scenario.start []))
    as [H _].
  - cbn. intuition discriminate.
  - cbn. intuition discriminate.
  - exact H.
Defined.

End DownloadMore.

(** ** The assembler: inputs, package layout, targets *)
Module CreatePortableMore.
Import Eff CreatePortable FsFacts FsMore DownloadSpec.

Lemma child_of_eq (d q : Fs.Path) (n : string) :
  Fs.child_of d q = Some n -> q = d ++ [n].
Proof.
  revert q. induction d as [| x d IH]; intros q; simpl.
  - destruct q as [| y [| z q]]; try discriminate. intros H. now injection H as <-.
  - destruct q as [| y q]; [discriminate |].
    destruct (String.eqb x y) eqn:E; [| discriminate].
    apply String.eqb_eq in E. subst y. intros H. now rewrite (IH q H).
Qed.

Lemma readdir_In_exists (fs0 : Fs.t) (d : Fs.Path) (f : string) :
  In f (Fs.readdirSync fs0 d) -> Fs.existsSync fs0 (d ++ [f]) = true.
Proof.
  intros H. apply exists_In.
  induction fs0 as [| [q n] fs0 IH]; simpl in H; [destruct H |].
  destruct (Fs.child_of d q) as [m |] eqn:E.
  - destruct H as [<- | H].
    + apply child_of_eq in E. subst q. exists n. now left.
    + destruct (IH H) as [n' Hn]. exists n'. now right.
  - destruct (IH H) as [n' Hn]. exists n'. now right.
Qed.

(** X25: [findJarFiles] returns nothing when the jars directory is
    missing; every path it returns is an existing entry of the jars
    directory whose name ends with ".jar". *)
Theorem findJarFiles_lists_existing_jars (fs0 : Fs.t) :
  (Fs.existsSync fs0 JARS_DIR = false -> findJarFiles fs0 = [])
  /\ forall p, In p (findJarFiles fs0) ->
       exists f, p = JARS_DIR ++ [f]
                 /\ Js.endsWith f ".jar" = true
                 /\ Fs.existsSync fs0 p = true.
Proof.
  unfold findJarFiles. split.
  - intros H. now rewrite H.
  - destruct (Fs.existsSync fs0 JARS_DIR); cbn [negb]; intros p Hp; [| destruct Hp].
    apply in_map_iff in Hp. destruct Hp as [f [<- Hf]].
    apply filter_In in Hf. destruct Hf as [Hin Hj].
    exists f. repeat split; [exact Hj |]. now apply readdir_In_exists.
Qed.

Lemma exists_app_mono (fs0 l : Fs.t) (p : Fs.Path) :
  Fs.existsSync fs0 p = true -> Fs.existsSync (fs0 ++ l) p = true.
Proof.
  intros H. apply exists_In in H. destruct H as [n H]. apply exists_In. exists n.
  apply in_or_app. now left.
Qed.

Lemma exists_mkdir_from_mono (rest base : Fs.Path) (fs0 : Fs.t) (p : Fs.Path) :
  Fs.existsSync fs0 p = true -> Fs.existsSync (Fs.mkdir_from base rest fs0) p = true.
Proof.
  revert base fs0. induction rest as [| x rest IH]; intros base fs0 H; simpl; [exact H |].
  apply IH. destruct (Fs.existsSync fs0 (base ++ [x])); [exact H |].
  now apply exists_app_mono.
Qed.

Lemma exists_mkdir_from_last (rest base : Fs.Path) (fs0 : Fs.t) :
  Fs.existsSync fs0 (base ++ rest) = true \/ rest <> [] ->
  Fs.existsSync (Fs.mkdir_from base rest fs0) (base ++ rest) = true.
Proof.
  revert base fs0. induction rest as [| x rest IH]; intros base fs0 H; simpl.
  - destruct H as [H | H]; [exact H | now elim H].
  - replace (base ++ x :: rest) with ((base ++ [x]) ++ rest) by now rewrite <- app_assoc.
    destruct rest as [| y rest].
    + simpl. rewrite app_nil_r.
      destruct (Fs.existsSync fs0 (base ++ [x])) eqn:E; [exact E |].
      apply exists_In. exists Fs.Dir. apply in_or_app. right. now left.
    + apply IH. right. discriminate.
Qed.

Lemma fold_set_grows (l : list (Fs.Path * Fs.Node)) (fs0 : Fs.t) (p : Fs.Path) :
  Fs.existsSync fs0 p = true ->
  Fs.existsSync (fold_left (fun acc e => Fs.set (fst e) (snd e) acc) l fs0) p = true.
Proof.
  revert fs0. induction l as [| e l IH]; intros fs0 H; simpl; [exact H |].
  apply IH. now apply exists_set_mono.
Qed.

Lemma fold_set_exists (l : list (Fs.Path * Fs.Node)) (fs0 : Fs.t) (p : Fs.Path)
    (n : Fs.Node) :
  In (p, n) l ->
  Fs.existsSync (fold_left (fun acc e => Fs.set (fst e) (snd e) acc) l fs0) p = true.
Proof.
  revert fs0. induction l as [| e l IH]; intros fs0 H; simpl; [destruct H |].
  destruct H as [-> | H]; [| now apply IH].
  apply fold_set_grows. cbn [fst snd]. apply exists_after_create.
Qed.

Lemma tree_copy_In (src dst rest : Fs.Path) (n : Fs.Node) (fs0 : Fs.t) :
  In (src ++ rest, n) fs0 -> In (dst ++ rest, n) (Fs.tree_copy src dst fs0).
Proof.
  intros H. unfold Fs.tree_copy. apply in_map_iff. exists (src ++ rest, n). split.
  - unfold Fs.reroot. cbn [fst snd]. now rewrite strip_app.
  - apply filter_In. split; [exact H |]. cbn [fst]. apply is_under_app.
Qed.

Lemma copyDirectory_spec (src dest : Fs.Path) (w w' : World unit) :
  copyDirectory src dest w = (Ok tt, w') ->
  (forall rest, Fs.existsSync (fs w) (src ++ rest) = true ->
                Fs.existsSync (fs w') (dest ++ rest) = true)
  /\ (forall p, Fs.existsSync (fs w) p = true -> Fs.existsSync (fs w') p = true).
Proof.
  destruct w as [fs0 [] tr]. unfold copyDirectory. run_download.
  destruct (Fs.existsSync fs0 dest) eqn:Ed; cbn [negb]; run_download;
    (destruct (Fs.isDirectory _ src); [| discriminate]);
    run_download; intros H; injection H as <-; cbn [fs]; split.
  - intros rest Hr. apply exists_In in Hr. destruct Hr as [n Hr].
    apply (fold_set_exists _ _ _ n). now apply tree_copy_In.
  - intros p Hp. now apply fold_set_grows.
  - intros rest Hr. apply (exists_mkdir_from_mono dest []) in Hr.
    apply exists_In in Hr. destruct Hr as [n Hr].
    apply (fold_set_exists _ _ _ n). now apply tree_copy_In.
  - intros p Hp. apply fold_set_grows. now apply exists_mkdir_from_mono.
Qed.

Lemma lookup_app_other (p d : Fs.Path) (n : Fs.Node) (fs0 : Fs.t) :
  p <> d -> Fs.lookup p (fs0 ++ [(d, n)]) = Fs.lookup p fs0.
Proof.
  intros H. induction fs0 as [| [q m] fs0 IH]; simpl.
  - now rewrite (path_eqb_neq p d H).
  - destruct (Fs.path_eqb p q); [reflexivity | exact IH].
Qed.

(** Creating a directory and its ancestors leaves every path that is not
    one of them as it was. *)
Lemma lookup_mkdir_from_other (rest base : Fs.Path) (fs0 : Fs.t) (p : Fs.Path) :
  Fs.is_under p (base ++ rest) = false ->
  Fs.lookup p (Fs.mkdir_from base rest fs0) = Fs.lookup p fs0.
Proof.
  revert base fs0. induction rest as [| x rest IH]; intros base fs0 H; simpl;
    [reflexivity |].
  assert (Hd : p <> base ++ [x]).
  { intros ->. rewrite (app_assoc base [x] rest : base ++ x :: rest = _) in H.
    now rewrite is_under_app in H. }
  rewrite IH by (rewrite <- app_assoc; exact H).
  destruct (Fs.existsSync fs0 (base ++ [x])); [reflexivity |].
  now apply lookup_app_other.
Qed.

(** Two paths with a common extension: one is a prefix of the other. *)
Lemma common_extension (p q r s : Fs.Path) :
  p ++ r = q ++ s -> Fs.is_under p q = true \/ Fs.is_under q p = true.
Proof.
  revert q. induction p as [| x p IH]; intros q H; [now left |].
  destruct q as [| y q]; [now right |].
  simpl in H. injection H as -> H. simpl. rewrite String.eqb_refl. simpl.
  now apply IH.
Qed.

(** X28: when [copyDirectory] ends normally, between a source and a
    destination neither of which lies inside the other, every entry below
    the source exists below the destination at the same relative path,
    nothing that existed has disappeared, and the source tree is left as
    it was. *)
Theorem copyDirectory_copies_tree (src dest : Fs.Path) (w w' : World unit) :
  Fs.is_under src dest = false ->
  Fs.is_under dest src = false ->
  copyDirectory src dest w = (Ok tt, w') ->
  (forall rest, Fs.existsSync (fs w) (src ++ rest) = true ->
                Fs.existsSync (fs w') (dest ++ rest) = true)
  /\ (forall p, Fs.existsSync (fs w) p = true -> Fs.existsSync (fs w') p = true)
  /\ (forall rest, Fs.lookup (src ++ rest) (fs w') = Fs.lookup (src ++ rest) (fs w)).
Proof.
  intros Hsd Hds Hrun.
  destruct (copyDirectory_spec src dest w w' Hrun) as [Hc Hg].
  split; [exact Hc |]. split; [exact Hg |]. intros rest.
  assert (Hother : forall fs1 e, In e (Fs.tree_copy src dest fs1) -> fst e <> src ++ rest).
  { intros fs1 e He Heq. destruct (tree_copy_paths src dest fs1 e He) as [r Hr].
    rewrite Hr in Heq. destruct (common_extension _ _ _ _ Heq); congruence. }
  assert (Hmk : Fs.is_under (src ++ rest) ([] ++ dest) = false).
  { destruct (Fs.is_under (src ++ rest) ([] ++ dest)) eqn:E; [| reflexivity].
    rewrite <- Hsd. symmetry.
    apply (is_under_trans src (src ++ rest) dest); [apply is_under_app | exact E]. }
  revert Hrun. destruct w as [fs0 [] tr]. unfold copyDirectory. run_download.
  destruct (Fs.existsSync fs0 dest) eqn:Ed; cbn [negb]; run_download;
    (destruct (Fs.isDirectory _ src); [| discriminate]);
    run_download; intros H; injection H as <-; cbn [fs];
    rewrite lookup_fold_set_other by apply Hother; [reflexivity |].
  now apply lookup_mkdir_from_other.
Qed.

Lemma lookup_In (p : Fs.Path) (n : Fs.Node) (fs0 : Fs.t) :
  Fs.lookup p fs0 = Some n -> In (p, n) fs0.
Proof.
  induction fs0 as [| [q m] fs0 IH]; simpl; [discriminate |].
  destruct (Fs.path_eqb p q) eqn:E.
  - apply path_eqb_eq in E. subst q. intros H. injection H as ->. now left.
  - intros H. right. now apply IH.
Qed.

Lemma NoDup_paths_filter (f : Fs.Path * Fs.Node -> bool) (fs0 : Fs.t) :
  NoDup (map fst fs0) -> NoDup (map fst (filter f fs0)).
Proof.
  induction fs0 as [| e fs0 IH]; simpl; intros H; [constructor |].
  inversion H as [| x l Hx Hl]; subst. destruct (f e); simpl; [| now apply IH].
  constructor; [| now apply IH]. intros Hin. apply Hx.
  apply in_map_iff in Hin. destruct Hin as [e' [He' Hin]]. apply filter_In in Hin.
  apply in_map_iff. exists e'. tauto.
Qed.

Lemma NoDup_paths_mkdir_from (rest base : Fs.Path) (fs0 : Fs.t) :
  NoDup (map fst fs0) -> NoDup (map fst (Fs.mkdir_from base rest fs0)).
Proof.
  revert base fs0. induction rest as [| x rest IH]; intros base fs0 H; simpl; [exact H |].
  apply IH. destruct (Fs.existsSync fs0 (base ++ [x])) eqn:E; [exact H |].
  rewrite map_app. cbn [map fst]. apply NoDup_app; [exact H | repeat constructor; simpl; tauto |].
  intros p Hp [<- | []].
  apply in_map_iff in Hp. destruct Hp as [[q n] [Hq Hin]]. cbn [fst] in Hq. subst q.
  assert (Fs.existsSync fs0 (base ++ [x]) = true) by (apply exists_In; eauto). congruence.
Qed.

Lemma NoDup_paths_tree_copy (src dst : Fs.Path) (fs0 : Fs.t) :
  NoDup (map fst fs0) -> NoDup (map fst (Fs.tree_copy src dst fs0)).
Proof.
  unfold Fs.tree_copy. induction fs0 as [| e fs0 IH]; simpl; intros H; [constructor |].
  inversion H as [| x l Hx Hl]; subst.
  destruct (Fs.is_under src (fst e)) eqn:E; simpl; [| now apply IH].
  constructor; [| now apply IH]. intros Hin. apply Hx.
  apply in_map_iff in Hin. destruct Hin as [e1 [He1 Hin]].
  apply in_map_iff in Hin. destruct Hin as [e0 [<- Hin]].
  apply filter_In in Hin. destruct Hin as [Hin E0].
  destruct (strip_under src (fst e) E) as [r [Hs Hr]].
  destruct (strip_under src (fst e0) E0) as [r0 [Hs0 Hr0]].
  unfold Fs.reroot in He1. rewrite Hs, Hs0 in He1. cbn [fst] in He1.
  apply app_inv_head in He1. subst r0. rewrite Hr, <- Hr0. now apply in_map.
Qed.

Lemma lookup_fold_set (l : list (Fs.Path * Fs.Node)) :
  forall (fs0 : Fs.t) (p : Fs.Path) (n : Fs.Node),
    NoDup (map fst l) -> In (p, n) l ->
    Fs.lookup p (fold_left (fun acc e => Fs.set (fst e) (snd e) acc) l fs0) = Some n.
Proof.
  induction l as [| e l IH]; intros fs0 p n Hnd Hin; [destruct Hin |].
  simpl. inversion Hnd as [| x l' Hx Hl]; subst. destruct Hin as [-> | Hin].
  - cbn [fst snd] in *. rewrite lookup_fold_set_other; [apply lookup_set_same |].
    intros e He <-. apply Hx. now apply in_map.
  - now apply IH.
Qed.

(** What [copyDirectory] writes: every entry below the source has its
    copy, with the same content, below the destination; a path that is
    neither below the destination nor above it is left as it was. *)
Lemma copyDirectory_content (src dest : Fs.Path) (w w' : World unit) :
  NoDup (map fst (fs w)) ->
  Fs.is_under src dest = false ->
  copyDirectory src dest w = (Ok tt, w') ->
  (forall rest n, Fs.lookup (src ++ rest) (fs w) = Some n ->
                  Fs.lookup (dest ++ rest) (fs w') = Some n)
  /\ (forall p, Fs.is_under dest p = false -> Fs.is_under p dest = false ->
                Fs.lookup p (fs w') = Fs.lookup p (fs w)).
Proof.
  intros Hnd Hsd. destruct w as [fs0 [] tr]. cbn [fs] in *.
  assert (Hgen : forall fs1,
             NoDup (map fst fs1) ->
             (forall p, Fs.is_under p dest = false -> Fs.lookup p fs1 = Fs.lookup p fs0) ->
             let fs2 := fold_left (fun acc e => Fs.set (fst e) (snd e) acc)
                                  (Fs.tree_copy src dest fs1) fs1 in
             (forall rest n, Fs.lookup (src ++ rest) fs0 = Some n ->
                             Fs.lookup (dest ++ rest) fs2 = Some n)
             /\ (forall p, Fs.is_under dest p = false -> Fs.is_under p dest = false ->
                           Fs.lookup p fs2 = Fs.lookup p fs0)).
  { intros fs1 Hnd1 Hl1 fs2. subst fs2. split.
    - intros rest n Hl. rewrite <- Hl1 in Hl.
      + apply lookup_fold_set; [now apply NoDup_paths_tree_copy |].
        apply tree_copy_In. now apply lookup_In.
      + destruct (Fs.is_under (src ++ rest) dest) eqn:Eu; [| reflexivity].
        rewrite <- Hsd. symmetry.
        apply (is_under_trans src (src ++ rest) dest); [apply is_under_app | exact Eu].
    - intros p Hp1 Hp2. rewrite lookup_fold_set_other; [now apply Hl1 |].
      intros e He Heq. destruct (tree_copy_paths src dest fs1 e He) as [r Hr].
      rewrite Hr in Heq. subst p. now rewrite is_under_app in Hp1. }
  unfold copyDirectory. run_download.
  destruct (Fs.existsSync fs0 dest) eqn:Ed; cbn [negb]; run_download;
    (destruct (Fs.isDirectory _ src); [| discriminate]);
    run_download; intros H; injection H as <-; cbn [fs]; apply Hgen.
  - exact Hnd.
  - reflexivity.
  - now apply NoDup_paths_mkdir_from.
  - intros p Hp. now apply lookup_mkdir_from_other.
Qed.

(** What the loop over the JARs writes, for JARs of the jars directory. *)
Lemma copy_jars_content (pkgDir : Fs.Path) (l : list Fs.Path) :
  (forall f f', pkgDir ++ [f'] <> JARS_DIR ++ [f]) ->
  (forall jar, In jar l -> exists f, jar = JARS_DIR ++ [f]) ->
  forall w w' : World unit,
    for_each l (fun jarFile => copyFileSync jarFile (pkgDir ++ [basename jarFile])) w
    = (Ok tt, w') ->
    (forall f, In (JARS_DIR ++ [f]) l ->
       exists sz m d,
         Fs.lookup (JARS_DIR ++ [f]) (fs w) = Some (Fs.File sz m d)
         /\ Fs.lookup (pkgDir ++ [f]) (fs w') = Some (Fs.File sz m d))
    /\ (forall p, (forall f, In (JARS_DIR ++ [f]) l -> p <> pkgDir ++ [f]) ->
                  Fs.lookup p (fs w') = Fs.lookup p (fs w)).
Proof.
  intros Hne. induction l as [| x l IH]; intros Hl w w'; simpl.
  - intros H. injection H as <-. split; [intros f [] | reflexivity].
  - unfold bind at 1.
    destruct (copyFileSync x (pkgDir ++ [basename x]) w) as [[[] | e | c |] w1] eqn:E1;
      try discriminate.
    intros H. destruct (IH (fun j Hj => Hl j (or_intror Hj)) w1 w' H) as [Hc Hk].
    destruct (Hl x (or_introl eq_refl)) as [fx ->].
    change (basename (JARS_DIR ++ [fx])) with fx in E1.
    assert (H1 : exists sz m d,
               Fs.lookup (JARS_DIR ++ [fx]) (fs w) = Some (Fs.File sz m d)
               /\ fs w1 = Fs.set (pkgDir ++ [fx]) (Fs.File sz m d) (fs w)).
    { revert E1. destruct w as [fs0 [] tr]. unfold copyFileSync. run_download.
      destruct (Fs.lookup (JARS_DIR ++ [fx]) fs0) as [[| sz m d] |]; try discriminate.
      run_download. intros H1. injection H1 as <-. cbn [fs]. eauto. }
    destruct H1 as (sz & m & d & Hsrc & Hfs1).
    assert (Hsame : forall f, Fs.lookup (JARS_DIR ++ [f]) (fs w1)
                              = Fs.lookup (JARS_DIR ++ [f]) (fs w)).
    { intros f. rewrite Hfs1. apply lookup_set_other. apply not_eq_sym, Hne. }
    split.
    + intros f Hf.
      destruct (in_dec (list_eq_dec string_dec) (JARS_DIR ++ [f]) l) as [Hin | Hnin].
      * destruct (Hc f Hin) as (sz' & m' & d' & Hs' & Hd'). rewrite Hsame in Hs'. eauto.
      * destruct Hf as [Hf | Hf]; [| now elim Hnin].
        unfold JARS_DIR in Hf. cbn [app] in Hf. injection Hf as <-.
        exists sz, m, d. split; [exact Hsrc |].
        rewrite Hk; [rewrite Hfs1; apply lookup_set_same |].
        intros f Hf Heq. apply app_inv_head in Heq. injection Heq as <-. now elim Hnin.
    + intros p Hp. rewrite Hk by (intros f Hf; apply Hp; now right).
      rewrite Hfs1. apply lookup_set_other. apply Hp. now left.
Qed.

Section Packager.
Variable archiver : ArchiveKind -> Fs.Path -> Fs.t -> Exn + N.
Variable JAR_FILES : list Fs.Path.

(** X26: when the runtime image of the platform is missing, or no JAR
    was found, [createPortablePackage] returns false and leaves the file
    system as it is: a package directory or archive of an earlier run is
    not removed. *)
Theorem package_refused_without_inputs (platform arch jreName : string) (w : World unit) :
  Fs.existsSync (fs w) (JRE_DIR ++ [jreName]) = false \/ JAR_FILES = [] ->
  exists tr',
    createPortablePackage archiver JAR_FILES platform arch jreName w
    = (Ok false, mkWorld (fs w) (globals w) tr').
Proof.
  intros H. destruct w as [fs0 [] tr]. cbn [fs globals] in *.
  unfold createPortablePackage. run_download.
  destruct (Fs.existsSync fs0 (JRE_DIR ++ [jreName])) eqn:E; cbn [negb]; run_download.
  - destruct H as [H | ->]; [discriminate |]. run_download. eauto.
  - eauto.
Qed.

(** The steps of a successful [createPortablePackage]. *)
Lemma package_steps (platform arch jreName : string) (w w' : World unit) :
  createPortablePackage archiver JAR_FILES platform arch jreName w = (Ok true, w') ->
  let windows := String.eqb platform "windows" in
  let pkgName :=
    ("aspose-words-" ++ VERSION ++ "-" ++ platform ++ "-" ++ arch ++ "-portable")%string in
  let pkgDir := OUTPUT_DIR ++ [pkgName] in
  let archivePath :=
    OUTPUT_DIR ++ [(pkgName ++ (if windows then ".zip" else ".tar.gz"))%string] in
  JAR_FILES <> []
  /\ exists (w1 w2 w2' w3 : World unit) (launcher : string) (bytes : N),
       fs w1 = Fs.mkdirSync pkgDir
                 (if Fs.existsSync (fs w) pkgDir then Fs.rmSync pkgDir (fs w) else fs w)
       /\ copyDirectory (JRE_DIR ++ [jreName]) (pkgDir ++ ["jre"]) w1 = (Ok tt, w2)
       /\ fs w2' = fs w2
       /\ for_each JAR_FILES
            (fun jarFile => copyFileSync jarFile (pkgDir ++ [basename jarFile])) w2'
          = (Ok tt, w3)
       /\ fs w'
          = Fs.set archivePath (Fs.File bytes 0 EmptyString)
              (Fs.set archivePath (Fs.File 0 0 EmptyString)
                 (Fs.set (pkgDir ++ ["README.txt"])
                    (Fs.File 0 0 "Aspose.Words Portable Edition")
                    (Fs.set (pkgDir ++ [if windows then "launch.bat" else "launch.sh"])
                       (Fs.File 0 0 launcher) (fs w3)))).
Proof.
  cbv zeta. destruct w as [fs0 [] tr]. cbn [fs].
  unfold createPortablePackage. run_download.
  destruct (Fs.existsSync fs0 (JRE_DIR ++ [jreName])) eqn:Ejre; cbn [negb]; run_download;
    [| discriminate].
  destruct JAR_FILES as [| j0 js] eqn:EJ; run_download; [discriminate |].
  rewrite <- EJ in *.
  destruct (Fs.existsSync fs0 _) eqn:Epkg at 1; run_download;
    [rewrite exists_rmSync_under by apply is_under_refl | rewrite Epkg];
    cbn [negb]; run_download.
  all: match goal with
       | |- context [copyDirectory ?s ?d ?w1] =>
           destruct (copyDirectory s d w1) as [[[] | e | c |] w2] eqn:Ecopy;
           try discriminate
       end.
  all: match goal with
       | |- context [for_each JAR_FILES ?body ?w] =>
           destruct (for_each JAR_FILES body w) as [[[] | e | c |] w3] eqn:Ejars;
           try discriminate
       end.
  all: unfold createLauncher, createReadme, createArchive; run_download.
  all: destruct (String.eqb platform "windows"); run_download.
  all: match goal with
       | |- context [archiver ?k ?d ?f] => destruct (archiver k d f) as [e | bytes]
       end; run_download; try discriminate.
  all: intros H; injection H as <-; cbn [fs].
  all: rewrite ?Epkg.
  all: (split; [rewrite EJ; discriminate |]).
  all: do 4 eexists; eexists; exists bytes.
  all: (split; [| split; [exact Ecopy | split; [| split; [exact Ejars | reflexivity]]]]);
       reflexivity.
Qed.
(** X27: when [createPortablePackage] returns true, on a file system
    in which every path has one entry and for JARs found in the jars
    directory, the package directory holds the launcher of the platform
    family (launch.bat for windows, launch.sh otherwise), README.txt, a
    copy of every JAR, with the size and the data of the JAR, and, under
    jre, a copy of every entry of the runtime image: a directory for a
    directory, a file of the same size and data for a file.  The archive
    exists beside the package directory, a .zip for windows and a .tar.gz
    otherwise; and at least one JAR was found. *)
Theorem package_success_layout (platform arch jreName : string) (w w' : World unit) :
  NoDup (map fst (fs w)) ->
  (forall jar, In jar JAR_FILES ->
     exists f, jar = JARS_DIR ++ [f] /\ Js.endsWith f ".jar" = true) ->
  createPortablePackage archiver JAR_FILES platform arch jreName w = (Ok true, w') ->
  let windows := String.eqb platform "windows" in
  let pkgName :=
    ("aspose-words-" ++ VERSION ++ "-" ++ platform ++ "-" ++ arch ++ "-portable")%string in
  let pkgDir := OUTPUT_DIR ++ [pkgName] in
  Fs.existsSync (fs w') (pkgDir ++ [if windows then "launch.bat" else "launch.sh"]) = true
  /\ Fs.existsSync (fs w') (pkgDir ++ ["README.txt"]) = true
  /\ (forall f, In (JARS_DIR ++ [f]) JAR_FILES ->
        exists sz m m' d,
          Fs.lookup (JARS_DIR ++ [f]) (fs w) = Some (Fs.File sz m d)
          /\ Fs.lookup (pkgDir ++ [f]) (fs w') = Some (Fs.File sz m' d))
  /\ (forall rest,
        Fs.lookup (JRE_DIR ++ [jreName] ++ rest) (fs w) = Some Fs.Dir ->
        Fs.lookup (pkgDir ++ ["jre"] ++ rest) (fs w') = Some Fs.Dir)
  /\ (forall rest sz m d,
        Fs.lookup (JRE_DIR ++ [jreName] ++ rest) (fs w) = Some (Fs.File sz m d) ->
        exists m', Fs.lookup (pkgDir ++ ["jre"] ++ rest) (fs w') = Some (Fs.File sz m' d))
  /\ Fs.existsSync (fs w')
       (OUTPUT_DIR ++ [(pkgName ++ (if windows then ".zip" else ".tar.gz"))%string]) = true
  /\ JAR_FILES <> [].
Proof.
  intros Hnd Hjar Hrun.
  destruct (package_steps platform arch jreName w w' Hrun)
    as (Hne & w1 & w2 & w2' & w3 & launcher & bytes & Hfs1 & Hcopy & Hfs2 & Hjars & Hfs').
  cbv zeta.
  set (pkgName := ("aspose-words-" ++ VERSION ++ "-" ++ platform ++ "-" ++ arch
                     ++ "-portable")%string) in *.
  set (pkgDir := OUTPUT_DIR ++ [pkgName]) in *.
  set (launch := if String.eqb platform "windows" then "launch.bat" else "launch.sh") in *.
  set (archivePath := OUTPUT_DIR ++ [(pkgName ++ (if String.eqb platform "windows"
                                                  then ".zip" else ".tar.gz"))%string]) in *.
  assert (Hnd1 : NoDup (map fst (fs w1))).
  { rewrite Hfs1. apply NoDup_paths_mkdir_from.
    destruct (Fs.existsSync (fs w) pkgDir); [now apply NoDup_paths_filter | exact Hnd]. }
  assert (Hw1 : forall q, Fs.is_under pkgDir q = false -> Fs.is_under q pkgDir = false ->
                          Fs.lookup q (fs w1) = Fs.lookup q (fs w)).
  { intros q Hq1 Hq2. rewrite Hfs1. unfold Fs.mkdirSync.
    rewrite lookup_mkdir_from_other by exact Hq2.
    destruct (Fs.existsSync (fs w) pkgDir); [now apply lookup_rmSync_outside | reflexivity]. }
  destruct (copyDirectory_content (JRE_DIR ++ [jreName]) (pkgDir ++ ["jre"]) w1 w2 Hnd1
              eq_refl Hcopy) as [Hcp1 Hcp2].
  destruct (copy_jars_content pkgDir JAR_FILES) with (w := w2') (w' := w3) as [Hj1 Hj2].
  { intros f f' H. discriminate H. }
  { intros jar Hin. destruct (Hjar jar Hin) as [f [-> _]]. eauto. }
  { exact Hjars. }
  assert (Hends : forall f, In (JARS_DIR ++ [f]) JAR_FILES -> Js.endsWith f ".jar" = true).
  { intros f Hin. destruct (Hjar _ Hin) as [f0 [Heq He]].
    unfold JARS_DIR in Heq. cbn [app] in Heq. now injection Heq as ->. }
  assert (Hlaunch : forall f, Js.endsWith f ".jar" = true -> f <> launch).
  { intros f He ->. subst launch. destruct (String.eqb platform "windows"); discriminate. }
  assert (Hjre : forall rest n,
             Fs.lookup (JRE_DIR ++ [jreName] ++ rest) (fs w) = Some n ->
             Fs.lookup (pkgDir ++ ["jre"] ++ rest) (fs w') = Some n).
  { intros rest n Hl. rewrite Hfs'.
    rewrite !lookup_set_other.
    - rewrite Hj2, Hfs2.
      + rewrite (app_assoc pkgDir ["jre"] rest). apply Hcp1.
        rewrite <- app_assoc, Hw1 by reflexivity. exact Hl.
      + intros f Hin Heq. apply app_inv_head in Heq. injection Heq as <- _.
        specialize (Hends _ Hin). discriminate.
    - intros Heq. apply app_inv_head in Heq. injection Heq as Heq _.
      apply (Hlaunch "jre"); [| exact Heq]. subst launch.
      destruct (String.eqb platform "windows"); discriminate.
    - intros Heq. apply app_inv_head in Heq. discriminate.
    - intros Heq. discriminate.
    - intros Heq. discriminate. }
  split; [| split; [| split; [| split; [| split; [| split]]]]].
  - rewrite Hfs'. do 3 apply exists_set_mono. apply exists_after_create.
  - rewrite Hfs'. do 2 apply exists_set_mono. apply exists_after_create.
  - intros f Hin. destruct (Hj1 f Hin) as (sz & m & d & Hsrc & Hdst).
    exists sz, m, m, d. split.
    + rewrite Hfs2, Hcp2, Hw1 in Hsrc by reflexivity. exact Hsrc.
    + rewrite Hfs', !lookup_set_other; [exact Hdst | | | |].
      * intros Heq. apply app_inv_head in Heq. injection Heq as Heq.
        now apply (Hlaunch f (Hends f Hin)).
      * intros Heq. apply app_inv_head in Heq. injection Heq as ->.
        specialize (Hends _ Hin). discriminate.
      * intros Heq. discriminate.
      * intros Heq. discriminate.
  - intros rest. apply Hjre.
  - intros rest sz m d Hl. exists m. now apply Hjre.
  - rewrite Hfs'. apply exists_after_create.
  - exact Hne.
Qed.

Lemma prerequisites_fail (w : World unit) :
  Fs.existsSync (fs w) JRE_DIR = false \/ JAR_FILES = [] ->
  exists tr',
    checkPrerequisites JAR_FILES w = (Ok false, mkWorld (fs w) (globals w) tr').
Proof.
  intros H. destruct w as [fs0 [] tr]. cbn [fs globals] in *.
  unfold checkPrerequisites. run_download.
  destruct (Fs.existsSync fs0 JRE_DIR) eqn:E; cbn [negb]; run_download.
  - destruct H as [H | ->]; [discriminate |]. run_download. eauto.
  - destruct JAR_FILES; run_download; eauto.
Qed.

Lemma main_without_inputs (argv2 : option string) (w : World unit) :
  Fs.existsSync (fs w) JRE_DIR = false \/ JAR_FILES = [] ->
  exists tr',
    main archiver JAR_FILES argv2 w = (Exit 1%Z, mkWorld (fs w) (globals w) tr').
Proof.
  intros H. unfold main. unfold bind at 1. rewrite Bounded.emit_run.
  destruct (prerequisites_fail
              (mkWorld (fs w) (globals w)
                 (trace w ++ [Log Header "Portable Version Builder for Aspose.Words"])) H)
    as [tr' Hrun].
  rewrite (Bounded.bind_ok _ _ _ _ _ Hrun). cbn [negb fs globals]. unfold exit. eauto.
Qed.

Lemma find_none_of {A : Type} (f : A -> bool) (l : list A) :
  (forall x, In x l -> f x = false) -> find f l = None.
Proof.
  induction l as [| x l IH]; intros H; simpl; [reflexivity |].
  rewrite (H x (or_introl eq_refl)). apply IH. intros y Hy. apply H. now right.
Qed.

(** X30: a target argument that is none of the five platform names
    ends [main] with status 1 after the message "Unknown platform"; only
    the output directory has been created. *)
Theorem unknown_target_exits (target : string) (w : World unit) :
  Fs.existsSync (fs w) JRE_DIR = true ->
  JAR_FILES <> [] ->
  ~ In target (map target_name platforms) ->
  exists tr',
    main archiver JAR_FILES (Some target) w
    = (Exit 1%Z,
       mkWorld (if Fs.existsSync (fs w) OUTPUT_DIR then fs w
                else Fs.mkdirSync OUTPUT_DIR (fs w))
               (globals w) tr')
    /\ In (Log Failure ("Unknown platform: " ++ target)%string) tr'.
Proof.
  intros He Hj Ht. destruct w as [fs0 [] tr]. cbn [fs globals] in *.
  assert (Hf : find (fun p => String.eqb (target_name p) target) platforms = None).
  { apply find_none_of. intros p Hp. apply String.eqb_neq. intros <-.
    apply Ht. now apply in_map. }
  unfold main, checkPrerequisites. rewrite Hf. run_download. rewrite He. cbn [negb].
  destruct JAR_FILES as [| j js]; [now elim Hj |]. run_download. cbn [orb negb].
  run_download.
  destruct (Fs.existsSync fs0 OUTPUT_DIR); cbn [negb]; run_download;
    (eexists; split; [reflexivity | rewrite !in_app_iff; cbn; tauto]).
Qed.

End Packager.

(** X29: when the runtime image directory is missing, or the jars
    directory holds no JAR, the script ends with status 1 and leaves the
    file system as it is. *)
Theorem packaging_requires_inputs
    (archiver : ArchiveKind -> Fs.Path -> Fs.t -> Exn + N)
    (argv2 : option string) (fs0 : Fs.t) :
  Fs.existsSync fs0 JRE_DIR = false \/ findJarFiles fs0 = [] ->
  fst (script archiver argv2 fs0) = Some 1%Z
  /\ fs (snd (script archiver argv2 fs0)) = fs0.
Proof.
  intros H. unfold script.
  destruct (main_without_inputs archiver (findJarFiles fs0) argv2 (mkWorld fs0 tt []) H)
    as [tr' Hrun].
  rewrite Hrun. split; reflexivity.
Qed.

(** The project of [Scenario] has no Windows image. *)
Lemma package_refused_without_inputs_witness :
  exists tr',
    createPortablePackage Scenario.archiver_ok (findJarFiles Scenario.package_fs)
      "windows" "x64" "jre-win-x64" (Scenario.start Scenario.package_fs)
    = (Ok false, mkWorld Scenario.package_fs tt tr').
Proof.
  apply (package_refused_without_inputs Scenario.archiver_ok
           (findJarFiles Scenario.package_fs) "windows" "x64" "jre-win-x64"
           (Scenario.start Scenario.package_fs)).
  left. vm_compute. reflexivity.
Defined.

(** The Linux x64 package of the project: app.jar and the java binary
    of the image are there with their sizes. *)
Lemma package_success_layout_witness :
  (exists m',
     Fs.lookup ["portable-releases"; "aspose-words-1.0.0-linux-x64-portable"; "app.jar"]
       (fs (snd (createPortablePackage Scenario.archiver_ok
                   (findJarFiles Scenario.package_fs) "linux" "x64" "jre-linux-x64"
                   (Scenario.start Scenario.package_fs))))
     = Some (Fs.File 5000 m' EmptyString))
  /\ (exists m',
        Fs.lookup ["portable-releases"; "aspose-words-1.0.0-linux-x64-portable"; "jre";
                   "bin"; "java"]
          (fs (snd (createPortablePackage Scenario.archiver_ok
                      (findJarFiles Scenario.package_fs) "linux" "x64" "jre-linux-x64"
                      (Scenario.start Scenario.package_fs))))
        = Some (Fs.File 30000 m' EmptyString)).
Proof.
  destruct (package_success_layout Scenario.archiver_ok (findJarFiles Scenario.package_fs)
              "linux" "x64" "jre-linux-x64" (Scenario.start Scenario.package_fs)
              (snd (createPortablePackage Scenario.archiver_ok
                      (findJarFiles Scenario.package_fs) "linux" "x64" "jre-linux-x64"
                      (Scenario.start Scenario.package_fs))))
    as (_ & _ & Hj & _ & Hf & _).
  - vm_compute. repeat (constructor; [cbn; intuition discriminate |]). constructor.
  - intros jar Hin. vm_compute in Hin. destruct Hin as [<- | []].
    exists "app.jar". split; reflexivity.
  - vm_compute. reflexivity.
  - split.
    + destruct (Hj "app.jar") as (sz & m & m' & d & Hs & Hd); [vm_compute; auto |].
      vm_compute in Hs. injection Hs as <- _ <-. exists m'. exact Hd.
    + apply (Hf ["bin"; "java"] 30000%N 0%Z EmptyString). vm_compute. reflexivity.
Defined.

(** A copy of the Linux x64 image. *)
Lemma copyDirectory_copies_tree_witness :
  Fs.existsSync
    (fs (snd (copyDirectory ["jre-builds"; "jre-linux-x64"] ["backup"]
                (Scenario.start Scenario.package_fs))))
    ["backup"; "bin"; "java"]
  = true.
Proof.
  destruct (copyDirectory_copies_tree ["jre-builds"; "jre-linux-x64"] ["backup"]
              (Scenario.start Scenario.package_fs)
              (snd (copyDirectory ["jre-builds"; "jre-linux-x64"] ["backup"]
                      (Scenario.start Scenario.package_fs)))) as [H _].
  - reflexivity.
  - reflexivity.
  - vm_compute. reflexivity.
  - apply (H ["bin"; "java"]). vm_compute. reflexivity.
Defined.

(** A working directory without runtime images. *)
Lemma packaging_requires_inputs_witness :
  fst (script Scenario.archiver_ok None Scenario.downloads_fs) = Some 1%Z
  /\ fs (snd (script Scenario.archiver_ok None Scenario.downloads_fs)) = Scenario.downloads_fs.
Proof.
  apply (packaging_requires_inputs Scenario.archiver_ok None Scenario.downloads_fs).
  left. reflexivity.
Defined.

(** windows-arm64 is not a target of the assembler. *)
Lemma unknown_target_exits_witness :
  fst (main Scenario.archiver_ok (findJarFiles Scenario.package_fs) (Some "windows-arm64")
         (Scenario.start Scenario.package_fs))
  = Exit 1%Z.
Proof.
  destruct (unknown_target_exits Scenario.archiver_ok (findJarFiles Scenario.package_fs)
              "windows-arm64" (Scenario.start Scenario.package_fs)) as [tr' [H _]].
  - vm_compute. reflexivity.
  - vm_compute. discriminate.
  - vm_compute. intuition discriminate.
  - rewrite H. reflexivity.
Defined.

End CreatePortableMore.
